(** * LLM-Personality-Suite: a shallow embedding of the experiment engine

    The development follows the Python sources file by file:

    - [Py]        : the fragment of the Python run-time the sources rely on
                    (exceptions, [str] helpers, [dict] as an insertion-ordered
                    association list);
    - [Re]        : the backtracking matcher behind
                    [re.search(r'\{.*\}', text, re.DOTALL)];
    - [Json]      : the decoder behind [json.loads];
    - [Effects]   : the state-and-exception monad in which the effectful
                    code is written, with the trace of observable events;
    - [Handlers]  : [models/handlers.py];
    - [Experiments] : [core/experiments.py];
    - [Main]      : [main.py];
    - [Similarity]: [_calculate_similarity_matrix] of [analysis/similarity.py].

    Python [str] values are represented by [string] (their UTF-8 bytes); the
    characters the code inspects (braces, quotes, JSON punctuation) are all
    ASCII, and no byte of a multi-byte UTF-8 sequence is an ASCII byte. *)

From Stdlib Require Import String Ascii List ZArith Bool Arith Lia QArith.
Import ListNotations.
Local Open Scope string_scope.
Local Open Scope list_scope.
Local Open Scope nat_scope.

Notation "a +++ b" := (String.append a b) (at level 60, right associativity).

(* ================================================================== *)
(** * Python run-time fragment *)
(* ================================================================== *)

Module Py.

(** Exceptions deriving from [Exception]; every [except Exception] clause of
    the sources catches all of them.  [Other] stands for any exception class
    of a third-party library (transport errors, CUDA errors, ...). *)
Inductive exn : Type :=
| ValueError (msg : string)
| JSONDecodeError (msg : string)
| TypeError (msg : string)
| KeyError (key : string)
| IndexError (msg : string)
| AttributeError (msg : string)
| UnboundLocalError (var : string)
| RecursionError
| Other (cls msg : string).

Definition is_ValueError (e : exn) : bool :=
  match e with
  | ValueError _ | JSONDecodeError _ => true   (* JSONDecodeError derives from ValueError *)
  | _ => false
  end.

Definition exn_str (e : exn) : string :=
  match e with
  | ValueError m | JSONDecodeError m | TypeError m | IndexError m
  | AttributeError m => m
  | KeyError k => "'" +++ k +++ "'"
  | UnboundLocalError v =>
      "cannot access local variable '" +++ v +++ "' where it is not associated with a value"
  | RecursionError => "maximum recursion depth exceeded"
  | Other _ m => m
  end.

Definition chars := list ascii.

Definition dquote : ascii := Eval cbv in ascii_of_nat 34.
Definition newline : ascii := Eval cbv in ascii_of_nat 10.
Definition nl : string := String newline EmptyString.
Definition dq : string := String dquote EmptyString.

(** [quoted s] replaces every apostrophe of [s] by a double quote; it is only
    used to write test inputs that contain double quotes legibly. *)
Definition quoted (s : string) : string :=
  string_of_list_ascii
    (map (fun c => if Ascii.eqb c "'" then dquote else c) (list_ascii_of_string s)).

(** [str(n)] for a non-negative integer. *)
Fixpoint str_digits (fuel n : nat) (acc : string) : string :=
  match fuel with
  | O => acc
  | S fuel' =>
      let acc' := String (ascii_of_nat (48 + n mod 10)) acc in
      if n / 10 =? 0 then acc' else str_digits fuel' (n / 10) acc'
  end.

Definition str_of_nat (n : nat) : string := str_digits (S n) n EmptyString.

(** [str.upper] on the ASCII letters. *)
Definition upper_char (c : ascii) : ascii :=
  let n := nat_of_ascii c in
  if (97 <=? n) && (n <=? 122) then ascii_of_nat (n - 32) else c.

Definition upper (s : string) : string :=
  string_of_list_ascii (map upper_char (list_ascii_of_string s)).

(** ['sep'.join(parts)] *)
Fixpoint join (sep : string) (parts : list string) : string :=
  match parts with
  | [] => EmptyString
  | [p] => p
  | p :: ps => p +++ sep +++ join sep ps
  end.

(** A [dict] with [str] keys: an association list in insertion order, keys
    pairwise distinct when built through [dict_set]. *)
Definition dict (V : Type) := list (string * V).

Fixpoint dict_get {V} (d : dict V) (k : string) : option V :=
  match d with
  | [] => None
  | (k', v) :: d' => if String.eqb k' k then Some v else dict_get d' k
  end.

(** [d[k] = v]: overwrite in place when the key is present, else append. *)
Fixpoint dict_set {V} (d : dict V) (k : string) (v : V) : dict V :=
  match d with
  | [] => [(k, v)]
  | (k', v') :: d' =>
      if String.eqb k' k then (k', v) :: d' else (k', v') :: dict_set d' k v
  end.

Definition keys {V} (d : dict V) : list string := map fst d.

End Py.
Import Py.

(* ================================================================== *)
(** * The regular expression [\{.*\}] under [re.DOTALL] *)
(* ================================================================== *)

Module Re.

(** The two kinds of atom the pattern is made of.  Under [re.DOTALL] the dot
    matches every character, the newline included. *)
Inductive atom : Type :=
| Lit (c : ascii)
| DotStar.

(** Backtracking match of a pattern at the start of [s]; the result is the
    matched text.  [DotStar] is greedy: it first tries to swallow one more
    character and gives characters back only when the rest of the pattern
    cannot match. *)
Fixpoint match_here (pat : list atom) (s : chars) : option chars :=
  match pat with
  | [] => Some []
  | Lit c :: pat' =>
      match s with
      | x :: r => if Ascii.eqb x c then option_map (cons x) (match_here pat' r) else None
      | [] => None
      end
  | DotStar :: pat' =>
      (fix star (s : chars) : option chars :=
         match s with
         | [] => match_here pat' []
         | x :: r =>
             match star r with
             | Some m => Some (x :: m)
             | None => match_here pat' s
             end
         end) s
  end.

(** [re.search]: the match at the leftmost position where one exists. *)
Fixpoint search (pat : list atom) (s : chars) : option chars :=
  match match_here pat s with
  | Some m => Some m
  | None =>
      match s with
      | [] => None
      | _ :: r => search pat r
      end
  end.

Definition braces : list atom := [Lit "{"; DotStar; Lit "}"].

(** [re.search(r'\{.*\}', text, re.DOTALL)], returning [match.group(0)]. *)
Definition search_braces (text : string) : option string :=
  option_map string_of_list_ascii (search braces (list_ascii_of_string text)).

(** The description of the same extraction by positions: from the first
    opening brace to the last closing brace, when the latter comes after the
    former. *)
Fixpoint index_of (c : ascii) (s : chars) : option nat :=
  match s with
  | [] => None
  | x :: r => if Ascii.eqb x c then Some 0 else option_map S (index_of c r)
  end.

Fixpoint rindex_of (c : ascii) (s : chars) : option nat :=
  match s with
  | [] => None
  | x :: r =>
      match rindex_of c r with
      | Some j => Some (S j)
      | None => if Ascii.eqb x c then Some 0 else None
      end
  end.

Definition first_to_last_brace (s : chars) : option chars :=
  match index_of "{" s, rindex_of "}" s with
  | Some i, Some j => if i <? j then Some (firstn (j - i + 1) (skipn i s)) else None
  | _, _ => None
  end.

End Re.

(* ================================================================== *)
(** * The JSON decoder behind [json.loads] *)
(* ================================================================== *)

Module Json.

(** Python values a JSON document decodes to.  [JNull] is [None]; a [float]
    is kept as the literal [float()] is applied to. *)
#[warnings="-register-all"]
Inductive json : Type :=
| JNull
| JBool (b : bool)
| JInt (n : Z)
| JFloat (literal : string)
| JStr (s : string)
| JArr (elems : list json)
| JObj (members : dict json).

Definition is_ws (c : ascii) : bool :=
  Ascii.eqb c " " || Ascii.eqb c (ascii_of_nat 9) ||
  Ascii.eqb c (ascii_of_nat 10) || Ascii.eqb c (ascii_of_nat 13).

Fixpoint skip_ws (s : chars) : chars :=
  match s with
  | c :: r => if is_ws c then skip_ws r else s
  | [] => []
  end.

Definition is_digit (c : ascii) : bool :=
  (48 <=? nat_of_ascii c) && (nat_of_ascii c <=? 57).

Fixpoint span_digits (s : chars) : chars * chars :=
  match s with
  | c :: r =>
      if is_digit c then let (d, r') := span_digits r in (c :: d, r') else ([], s)
  | [] => ([], [])
  end.

Definition digits_value (d : chars) : Z :=
  fold_left (fun acc c => (acc * 10 + Z.of_N (N_of_ascii c - 48))%Z) d 0%Z.

Fixpoint starts_with (p s : chars) : option chars :=
  match p, s with
  | [], _ => Some s
  | a :: p', b :: s' => if Ascii.eqb a b then starts_with p' s' else None
  | _ :: _, [] => None
  end.

(** [NUMBER_RE]: an optional minus sign, then a single zero or a non-zero
    digit followed by digits; an optional fraction (a dot and at least one
    digit); an optional exponent (e or E, an optional sign, at least one
    digit). *)
Definition scan_int_part (s : chars) : option (bool * chars * chars) :=
  let (neg, r) :=
    match s with
    | c :: r => if Ascii.eqb c "-" then (true, r) else (false, s)
    | [] => (false, s)
    end in
  match r with
  | c :: r' =>
      if Ascii.eqb c "0" then Some (neg, [c], r')
      else if is_digit c then let (d, r'') := span_digits r' in Some (neg, c :: d, r'')
      else None
  | [] => None
  end.

Definition scan_frac (s : chars) : chars * chars :=
  match s with
  | c :: r =>
      if Ascii.eqb c "." then
        let (d, r') := span_digits r in
        match d with [] => ([], s) | _ => (c :: d, r') end
      else ([], s)
  | [] => ([], s)
  end.

Definition scan_exp (s : chars) : chars * chars :=
  match s with
  | e :: r =>
      if Ascii.eqb e "e" || Ascii.eqb e "E" then
        let (sg, r1) :=
          match r with
          | c :: r1 => if Ascii.eqb c "+" || Ascii.eqb c "-" then ([c], r1) else ([], r)
          | [] => ([], r)
          end in
        let (d, r2) := span_digits r1 in
        match d with [] => ([], s) | _ => (e :: sg ++ d, r2) end
      else ([], s)
  | [] => ([], s)
  end.

Definition match_number (s : chars) : option (json * chars) :=
  match scan_int_part s with
  | None => None
  | Some (neg, ds, r) =>
      let (f, r1) := scan_frac r in
      let (e, r2) := scan_exp r1 in
      match f, e with
      | [], [] => Some (JInt (if neg then - digits_value ds else digits_value ds)%Z, r2)
      | _, _ =>
          Some (JFloat (string_of_list_ascii ((if neg then ["-"%char] else []) ++ ds ++ f ++ e)), r2)
      end
  end.

Section CodePoints.
Local Open Scope N_scope.

Definition hex_val (c : ascii) : option N :=
  let n := N_of_ascii c in
  if (48 <=? n) && (n <=? 57) then Some (n - 48)
  else if (65 <=? n) && (n <=? 70) then Some (n - 55)
  else if (97 <=? n) && (n <=? 102) then Some (n - 87)
  else None.

Definition hex4 (a b c d : ascii) : option N :=
  match hex_val a, hex_val b, hex_val c, hex_val d with
  | Some x, Some y, Some z, Some w => Some (((x * 16 + y) * 16 + z) * 16 + w)
  | _, _, _, _ => None
  end.

(** UTF-8 bytes of a code point (a lone surrogate is written the same way). *)
Definition utf8 (cp : N) : chars :=
  if cp <? 128 then [ascii_of_N cp]
  else if cp <? 2048 then
    [ascii_of_N (192 + cp / 64); ascii_of_N (128 + cp mod 64)]
  else if cp <? 65536 then
    [ascii_of_N (224 + cp / 4096); ascii_of_N (128 + (cp / 64) mod 64);
     ascii_of_N (128 + cp mod 64)]
  else
    [ascii_of_N (240 + cp / 262144); ascii_of_N (128 + (cp / 4096) mod 64);
     ascii_of_N (128 + (cp / 64) mod 64); ascii_of_N (128 + cp mod 64)].

Definition is_high_surrogate (n : N) : bool := (55296 <=? n) && (n <=? 56319).
Definition is_low_surrogate (n : N) : bool := (56320 <=? n) && (n <=? 57343).

End CodePoints.

Definition simple_escape (c : ascii) : option ascii :=
  if Ascii.eqb c dquote then Some dquote
  else if Ascii.eqb c "\" then Some "\"%char
  else if Ascii.eqb c "/" then Some "/"%char
  else if Ascii.eqb c "b" then Some (ascii_of_nat 8)
  else if Ascii.eqb c "f" then Some (ascii_of_nat 12)
  else if Ascii.eqb c "n" then Some (ascii_of_nat 10)
  else if Ascii.eqb c "r" then Some (ascii_of_nat 13)
  else if Ascii.eqb c "t" then Some (ascii_of_nat 9)
  else None.

(** [scanstring] in strict mode, entered just after the opening quote;
    [acc] holds the decoded bytes so far, most recent first. *)
Fixpoint scanstring (s : chars) (acc : chars) : exn + (string * chars) :=
  match s with
  | [] => inl (JSONDecodeError "Unterminated string starting at")
  | c :: r =>
      if Ascii.eqb c dquote then inr (string_of_list_ascii (rev acc), r)
      else if Ascii.eqb c "\" then
        match r with
        | [] => inl (JSONDecodeError "Unterminated string starting at")
        | e :: r1 =>
            if Ascii.eqb e "u" then
              match r1 with
              | h1 :: h2 :: h3 :: h4 :: r2 =>
                  match hex4 h1 h2 h3 h4 with
                  | None => inl (JSONDecodeError "Invalid \uXXXX escape")
                  | Some u =>
                      if is_high_surrogate u then
                        match r2 with
                        | b :: r3 =>
                            if Ascii.eqb b "\" then
                              match r3 with
                              | v :: l1 :: l2 :: l3 :: l4 :: r4 =>
                                  if Ascii.eqb v "u" then
                                    match hex4 l1 l2 l3 l4 with
                                    | None => inl (JSONDecodeError "Invalid \uXXXX escape")
                                    | Some u2 =>
                                        if is_low_surrogate u2 then
                                          scanstring r4
                                            (rev (utf8 (65536 + (u - 55296) * 1024 + (u2 - 56320))%N) ++ acc)
                                        else scanstring r2 (rev (utf8 u) ++ acc)
                                    end
                                  else scanstring r2 (rev (utf8 u) ++ acc)
                              | _ => scanstring r2 (rev (utf8 u) ++ acc)
                              end
                            else scanstring r2 (rev (utf8 u) ++ acc)
                        | [] => scanstring r2 (rev (utf8 u) ++ acc)
                        end
                      else scanstring r2 (rev (utf8 u) ++ acc)
                  end
              | _ => inl (JSONDecodeError "Invalid \uXXXX escape")
              end
            else
              match simple_escape e with
              | Some x => scanstring r1 (x :: acc)
              | None => inl (JSONDecodeError "Invalid \escape")
              end
        end
      else if nat_of_ascii c <? 32 then inl (JSONDecodeError "Invalid control character at")
      else scanstring r (c :: acc)
  end.

Definition lit (w : string) : chars := list_ascii_of_string w.

(** Everything [scan_once] recognises apart from the containers. *)
Definition scan_atom (s : chars) : exn + (json * chars) :=
  match s with
  | [] => inl (JSONDecodeError "Expecting value")
  | c :: r =>
      if Ascii.eqb c dquote then
        match scanstring r [] with
        | inr (str, r') => inr (JStr str, r')
        | inl e => inl e
        end
      else
        match starts_with (lit "null") s with
        | Some r' => inr (JNull, r')
        | None =>
        match starts_with (lit "true") s with
        | Some r' => inr (JBool true, r')
        | None =>
        match starts_with (lit "false") s with
        | Some r' => inr (JBool false, r')
        | None =>
        match match_number s with
        | Some res => inr res
        | None =>
        match starts_with (lit "NaN") s with
        | Some r' => inr (JFloat "nan", r')
        | None =>
        match starts_with (lit "Infinity") s with
        | Some r' => inr (JFloat "inf", r')
        | None =>
        match starts_with (lit "-Infinity") s with
        | Some r' => inr (JFloat "-inf", r')
        | None => inl (JSONDecodeError "Expecting value")
        end end end end end end end
  end.

(** [scan_once], [JSONObject] and [JSONArray].  The interpreter bounds the
    nesting of these three by its recursion limit; here each call spends one
    unit of [fuel], and [loads] supplies more than any input can use. *)
Fixpoint scan_once (fuel : nat) (s : chars) {struct fuel} : exn + (json * chars) :=
  match fuel with
  | O => inl RecursionError
  | S fuel' =>
      match s with
      | c :: r =>
          if Ascii.eqb c "{" then
            match skip_ws r with
            | c1 :: r1 =>
                if Ascii.eqb c1 "}" then inr (JObj [], r1)
                else object_members fuel' [] (c1 :: r1)
            | [] => object_members fuel' [] []
            end
          else if Ascii.eqb c "[" then
            match skip_ws r with
            | c1 :: r1 =>
                if Ascii.eqb c1 "]" then inr (JArr [], r1)
                else array_elems fuel' [] (c1 :: r1)
            | [] => array_elems fuel' [] []
            end
          else scan_atom s
      | [] => scan_atom s
      end
  end

(** entered where the opening quote of a member's key is expected *)
with object_members (fuel : nat) (acc : dict json) (s : chars) {struct fuel}
  : exn + (json * chars) :=
  match fuel with
  | O => inl RecursionError
  | S fuel' =>
      match s with
      | c :: r =>
          if Ascii.eqb c dquote then
            match scanstring r [] with
            | inl e => inl e
            | inr (key, r1) =>
                match skip_ws r1 with
                | c2 :: r2 =>
                    if Ascii.eqb c2 ":" then
                      match scan_once fuel' (skip_ws r2) with
                      | inl e => inl e
                      | inr (v, r3) =>
                          let acc' := dict_set acc key v in
                          match skip_ws r3 with
                          | c4 :: r4 =>
                              if Ascii.eqb c4 "}" then inr (JObj acc', r4)
                              else if Ascii.eqb c4 "," then object_members fuel' acc' (skip_ws r4)
                              else inl (JSONDecodeError "Expecting ',' delimiter")
                          | [] => inl (JSONDecodeError "Expecting ',' delimiter")
                          end
                      end
                    else inl (JSONDecodeError "Expecting ':' delimiter")
                | [] => inl (JSONDecodeError "Expecting ':' delimiter")
                end
            end
          else inl (JSONDecodeError "Expecting property name enclosed in double quotes")
      | [] => inl (JSONDecodeError "Expecting property name enclosed in double quotes")
      end
  end

(** entered where the next element is expected *)
with array_elems (fuel : nat) (acc : list json) (s : chars) {struct fuel}
  : exn + (json * chars) :=
  match fuel with
  | O => inl RecursionError
  | S fuel' =>
      match scan_once fuel' s with
      | inl e => inl e
      | inr (v, r1) =>
          match skip_ws r1 with
          | c2 :: r2 =>
              if Ascii.eqb c2 "]" then inr (JArr (acc ++ [v]), r2)
              else if Ascii.eqb c2 "," then array_elems fuel' (acc ++ [v]) (skip_ws r2)
              else inl (JSONDecodeError "Expecting ',' delimiter")
          | [] => inl (JSONDecodeError "Expecting ',' delimiter")
          end
      end
  end.

Definition fuel_for (s : chars) : nat := 2 * length s + 2.

(** [json.loads(s)] for a [str] argument: one value, surrounded by optional
    white space, and nothing else. *)
Definition loads (s : string) : exn + json :=
  let cs := skip_ws (list_ascii_of_string s) in
  match scan_once (fuel_for cs) cs with
  | inl e => inl e
  | inr (v, r) =>
      match skip_ws r with
      | [] => inr v
      | _ :: _ => inl (JSONDecodeError "Extra data")
      end
  end.

(** [obj.get(key)]: defined on a [dict] only, [None] for an absent key. *)
Definition get (obj : json) (key : string) : exn + json :=
  match obj with
  | JObj d => inr (match dict_get d key with Some v => v | None => JNull end)
  | _ => inl (AttributeError "object has no attribute 'get'")
  end.

End Json.
Import Json.

(* ================================================================== *)
(** * Effects: external world, trace of events, exceptions *)
(* ================================================================== *)

Module Effects.

(** What lies outside the repository: the hosted inference API, the
    model-loading and generation routines of the local backend, and two pure
    library functions used to build prompts.  Each operation may raise and may
    change the state of the outside world. *)
Class Env : Type := {
  World : Type;
  Client : Type;
  Completion : Type;
  Tokenizer : Type;
  Model : Type;
  (** [Groq()] *)
  Groq_new : World -> (exn + Client) * World;
  (** [client.chat.completions.create(messages=..., model=..., temperature=...,
      max_tokens=512)], arguments in the order model, system, user *)
  chat_completions_create :
    Client -> string -> string -> string -> Q -> World -> (exn + Completion) * World;
  (** [chat_completion.choices[0].message.content] *)
  message_content : Completion -> exn + string;
  (** [BitsAndBytesConfig(load_in_4bit=True, ...)] *)
  BitsAndBytesConfig_new : World -> (exn + unit) * World;
  (** [AutoTokenizer.from_pretrained(model_id)] *)
  AutoTokenizer_from_pretrained : string -> World -> (exn + Tokenizer) * World;
  (** [AutoModelForCausalLM.from_pretrained(model_id, ...)] *)
  AutoModelForCausalLM_from_pretrained : string -> World -> (exn + Model) * World;
  (** [apply_chat_template], [model.generate] and [tokenizer.decode] in a row,
      on the full prompt, with the sampling temperature *)
  hf_sample : Model -> Tokenizer -> string -> Q -> World -> (exn + string) * World;
  (** [textwrap.dedent] *)
  textwrap_dedent : string -> string;
  (** [repr] of a [str] *)
  repr_str : string -> string;
  (** [os.path.exists(path)] *)
  os_path_exists : string -> World -> bool * World;
  (** [os.makedirs(path)] *)
  os_makedirs : string -> World -> (exn + unit) * World
}.

Inductive level : Type := INFO | WARNING | ERROR | CRITICAL.

(** Observable events, recorded in the order they happen. *)
Inductive event : Type :=
| Log (lv : level) (msg : string)                      (* logging.<level>(msg) *)
| Sleep (seconds : nat)                                (* time.sleep(seconds) *)
| ApiCall (model system_prompt user_prompt : string) (temperature : Q)
| HfCall (model_id prompt : string) (temperature : Q)
| HfLoad (model_id : string)
| MakeDirs (path : string)                             (* os.makedirs(path) *)
| Print (text : string).                               (* print(text) *)

Section Monad.
Context `{Env}.

Record State : Type := mkState { world : World; trace : list event }.

Definition M (A : Type) : Type := State -> (exn + A) * State.

Definition ret {A} (a : A) : M A := fun st => (inr a, st).

Definition bind {A B} (m : M A) (k : A -> M B) : M B :=
  fun st =>
    match m st with
    | (inr a, st') => k a st'
    | (inl e, st') => (inl e, st')
    end.

Definition raise {A} (e : exn) : M A := fun st => (inl e, st).

(** [try: m  except Exception as e: h e] *)
Definition try_except {A} (m : M A) (h : exn -> M A) : M A :=
  fun st =>
    match m st with
    | (inr a, st') => (inr a, st')
    | (inl e, st') => h e st'
    end.

Definition lift {A} (r : exn + A) : M A := fun st => (r, st).

Definition emit (e : event) : M unit :=
  fun st => (inr tt, mkState (world st) (trace st ++ [e])).

(** A call into the outside world, announced by an event. *)
Definition extern {A} (e : event) (f : World -> (exn + A) * World) : M A :=
  fun st =>
    let (r, w) := f (world st) in
    (r, mkState w (trace st ++ [e])).

Definition logging (lv : level) (msg : string) : M unit := emit (Log lv msg).
Definition time_sleep (seconds : nat) : M unit := emit (Sleep seconds).

End Monad.

Declare Scope monad_scope.
Delimit Scope monad_scope with monad.
Notation "x <- m ;; k" := (bind m (fun x => k))
  (at level 61, m at next level, right associativity) : monad_scope.
Notation "' pat <- m ;; k" := (bind m (fun x => match x with pat => k end))
  (at level 61, pat pattern, m at next level, right associativity) : monad_scope.
Notation "m ;; k" := (bind m (fun _ => k))
  (at level 61, right associativity) : monad_scope.

Section Loops.
Context `{Env}.
Local Open Scope monad_scope.

(** [for x in xs: body], the loop body updating the local variables [L]. *)
Fixpoint for_each {A L} (xs : list A) (body : A -> L -> M L) (l : L) : M L :=
  match xs with
  | [] => ret l
  | x :: xs' => l' <- body x l ;; for_each xs' body l'
  end.

(** [d[k]] *)
Definition subscript {V} (d : dict V) (k : string) : M V :=
  match dict_get d k with
  | Some v => ret v
  | None => raise (KeyError k)
  end.

End Loops.

(** Projections of a trace. *)
Definition sleeps (t : list event) : list nat :=
  flat_map (fun e => match e with Sleep n => [n] | _ => [] end) t.

Definition is_api_call (e : event) : bool :=
  match e with ApiCall _ _ _ _ => true | _ => false end.

Definition is_backend_call (e : event) : bool :=
  match e with ApiCall _ _ _ _ | HfCall _ _ _ => true | _ => false end.

Definition is_warning (e : event) : bool :=
  match e with Log WARNING _ => true | _ => false end.

Definition count (p : event -> bool) (t : list event) : nat := length (filter p t).

End Effects.
Import Effects.
Local Open Scope monad_scope.

(* ================================================================== *)
(** * models/handlers.py *)
(* ================================================================== *)

Module Handlers.
Section Handlers.
Context `{Env}.

(** Default of the keyword argument [temperature]. *)
Definition default_temperature : Q := 7 # 10.

(** One pass of the body of [for attempt in range(max_retries)]: [Some r]
    when the body executes [return r], [None] when the loop goes on. *)
Definition groq_attempt (client : Client) (model_name system_prompt user_prompt : string)
    (temperature : Q) (attempt : nat) : M (option (string * string)) :=
  try_except
    (chat_completion <-
       extern (ApiCall model_name system_prompt user_prompt temperature)
         (chat_completions_create client model_name system_prompt user_prompt temperature) ;;
     response_text <- lift (message_content chat_completion) ;;
     logging INFO ("Groq: Successfully received response for " +++ model_name +++ ".") ;;
     ret (Some (response_text, "ok")))
    (fun e =>
       let wait_time := 2 ^ attempt in
       logging ERROR ("Groq: Attempt " +++ str_of_nat (attempt + 1) +++ " failed for "
                      +++ model_name +++ " with error: " +++ exn_str e +++ ". Retrying in "
                      +++ str_of_nat wait_time +++ "s.") ;;
       time_sleep wait_time ;;
       ret None).

Fixpoint groq_attempts (client : Client) (model_name system_prompt user_prompt : string)
    (temperature : Q) (attempts : list nat) : M (string * string) :=
  match attempts with
  | [] =>
      logging CRITICAL ("Groq: Max retries exceeded for " +++ model_name +++ ".") ;;
      ret ("MODEL_FAIL", "fail")
  | attempt :: rest =>
      r <- groq_attempt client model_name system_prompt user_prompt temperature attempt ;;
      match r with
      | Some res => ret res
      | None => groq_attempts client model_name system_prompt user_prompt temperature rest
      end
  end.

(** [generate_response_groq(model_name, system_prompt, user_prompt,
    temperature=0.7, max_retries=3)]; an omitted keyword argument is [None]. *)
Definition generate_response_groq (model_name system_prompt user_prompt : string)
    (temperature : option Q) (max_retries : option nat) : M (string * string) :=
  let temperature := match temperature with Some t => t | None => default_temperature end in
  let max_retries := match max_retries with Some n => n | None => 3 end in
  try_except
    (client <- (fun st => let (r, w) := Groq_new (world st) in (r, mkState w (trace st))) ;;
     groq_attempts client model_name system_prompt user_prompt temperature (seq 0 max_retries))
    (fun e =>
       logging CRITICAL ("Groq client failed to initialize. Error: " +++ exn_str e) ;;
       ret ("MODEL_FAIL", "fail")).

(** The object state of [HuggingFaceModelHandler]. *)
Record HuggingFaceModelHandler : Type := mkHandler {
  model : option Model;
  tokenizer : option Tokenizer;
  model_id : string
}.

(** [_load_model]: returns the updated object; the exception caught in the
    [except] clause is logged and raised again. *)
Definition _load_model (self : HuggingFaceModelHandler) : M HuggingFaceModelHandler :=
  logging INFO ("Loading Hugging Face model: " +++ model_id self +++ "...") ;;
  quantization_config <-
    (fun st => let (r, w) := BitsAndBytesConfig_new (world st) in (r, mkState w (trace st))) ;;
  try_except
    (tok <- extern (HfLoad (model_id self)) (AutoTokenizer_from_pretrained (model_id self)) ;;
     let self1 := mkHandler (model self) (Some tok) (model_id self) in
     mdl <- extern (HfLoad (model_id self)) (AutoModelForCausalLM_from_pretrained (model_id self)) ;;
     let self2 := mkHandler (Some mdl) (tokenizer self1) (model_id self) in
     logging INFO ("Successfully loaded " +++ model_id self +++ ".") ;;
     ret self2)
    (fun e =>
       logging CRITICAL ("Failed to load model " +++ model_id self +++ ". Error: " +++ exn_str e) ;;
       raise e).

(** [HuggingFaceModelHandler(model_id)] *)
Definition __init__ (model_id : string) : M HuggingFaceModelHandler :=
  _load_model (mkHandler None None model_id).

(** [max(temperature, 0.01)] *)
Definition clamp_temperature (temperature : Q) : Q :=
  if Qle_bool (1 # 100) temperature then temperature else 1 # 100.

(** [self.generate_response(system_prompt, user_prompt, temperature=0.7)] *)
Definition generate_response (self : HuggingFaceModelHandler)
    (system_prompt user_prompt : string) (temperature : option Q) : M (string * string) :=
  let temperature := match temperature with Some t => t | None => default_temperature end in
  match model self, tokenizer self with
  | Some mdl, Some tok =>
      try_except
        (let full_prompt := system_prompt +++ nl +++ nl +++ user_prompt in
         response_text <-
           extern (HfCall (model_id self) full_prompt (clamp_temperature temperature))
             (hf_sample mdl tok full_prompt (clamp_temperature temperature)) ;;
         ret (response_text, "ok"))
        (fun e =>
           logging ERROR ("Error during generation with " +++ model_id self
                          +++ ". Error: " +++ exn_str e) ;;
           ret ("GENERATION_FAIL", "fail"))
  | _, _ =>
      logging ERROR ("Model " +++ model_id self +++ " is not loaded. Cannot generate response.") ;;
      ret ("MODEL_NOT_LOADED", "fail")
  end.

End Handlers.
End Handlers.

(* ================================================================== *)
(** * core/experiments.py *)
(* ================================================================== *)

Module Experiments.

(** An entry of [MODELS_TO_TEST]. *)
Record model_info : Type := mkModel { handler : string; model_id : string }.

(** An entry of [TRAITS_DEFINITIONS["generation"]]. *)
Record trait_gen : Type := mkTraitGen { name : string; low : string; high : string }.

(** An entry of [TRAITS_DEFINITIONS["classification"]]; the key
    ['definition'] is read with [.get], so it may be absent. *)
Record trait_class : Type := mkTraitClass {
  c_name : string; c_definition : option string; c_low : string; c_high : string
}.

Record traits : Type := mkTraits {
  generation : dict trait_gen;
  classification : dict trait_class
}.

(** An item of the BFI-44 bank. *)
Record item : Type := mkItem { q_num : nat; q_statement : string; q_type : string }.

(** A row of the Generation table (the dict appended on line 80). *)
Module GenRow.
Record t : Type := mk {
  model_key : string;
  model_id : string;
  prompted_trait : string;
  prompted_score : nat;
  question : string;
  generated_text : string;
  judge_score : json;
  judge_clues : json;
  judge_reasoning : json;
  judge_decision_type : json
}.
End GenRow.

(** A row of the Questionnaire table (the dict appended on line 131). *)
Module QRow.
Record t : Type := mk {
  model_key : string;
  trait : string;
  prompted_level : string;
  Q_type : string;
  Answer : string
}.
End QRow.

(** The verdict assigned in the [except] clause of the judge parser. *)
Definition parse_error_verdict : json :=
  JObj [("score", JNull); ("clues", JNull);
        ("reasoning", JStr "JSON PARSE ERROR"); ("decision type", JNull)].

(** The four fields read off [judge_result] with [.get]. *)
Record verdict : Type := mkVerdict {
  v_score : json; v_clues : json; v_reasoning : json; v_decision_type : json
}.

Section Engine.
Context `{Env}.

(** Lines 72-78: the [try] block around [re.search] and [json.loads]. *)
Definition parse_judge_response (judge_response_raw : string) : M json :=
  try_except
    (match Re.search_braces judge_response_raw with
     | Some json_string => lift (Json.loads json_string)
     | None => raise (ValueError "No JSON found")
     end)
    (fun e =>
       logging ERROR ("Could not parse JSON from judge: " +++ exn_str e +++ nl
                      +++ "Raw response: " +++ judge_response_raw) ;;
       ret parse_error_verdict).

(** Line 80: the four [judge_result.get(...)] lookups. *)
Definition judge_fields (judge_result : json) : M verdict :=
  score <- lift (Json.get judge_result "score") ;;
  clues <- lift (Json.get judge_result "clues") ;;
  reasoning <- lift (Json.get judge_result "reasoning") ;;
  decision_type <- lift (Json.get judge_result "decision type") ;;
  ret (mkVerdict score clues reasoning decision_type).

(** The Judge Response Parser as a whole: raw judge text to verdict. *)
Definition judge_parser (judge_response_raw : string) : M verdict :=
  judge_result <- parse_judge_response judge_response_raw ;;
  judge_fields judge_result.

Definition definition_or_empty (tc : trait_class) : string :=
  match c_definition tc with Some d => d | None => EmptyString end.

Definition system_prompt_generate_of (trait_name : string) (trait_score_num : nat)
    (trait_gen_info : trait_gen) : string :=
  textwrap_dedent
   ("TASK: Answer the QUESTION according to your PERSONALITY. Use " +++
    "INSTRUCTION. Use at most 5 sentences. Do not mention your personality " +++
    "traits in the text. Type only the answer, without the information " +++
    "about your personality score. PERSONALITY: - Your personality trait " +++ dq +++
    trait_name +++ dq +++ " is rated as " +++ str_of_nat trait_score_num +++
    ". INSTRUCTION: - The personality trait is rated from 1 to 5. 1 is the " +++
    "lowest score and 5 is the highest score. - " +++ low trait_gen_info +++ " - " +++
    high trait_gen_info).

Definition user_prompt_generate_of (question : string) : string :=
  "QUESTION:" +++ nl +++ "```" +++ nl +++ question +++ nl +++ "```".

Definition system_prompt_judge_of (trait_name : string) (trait_class_info : trait_class)
  : string :=
  textwrap_dedent
   ("You will be provided with answers to questions. Detect the score of " +++ trait_name +++
    " for the author of the INPUT from the list [-2, -1, 0, 1, 2] or " +++
    "Nondistinguishable. Use INSTRUCTION. TASK: 1. First, list CLUES " +++
    "(i.e., keywords, phrases, contextual information, semantic relations, " +++
    "semantic meaning, tones, references) that support the score " +++ "determination of " +++
    trait_name +++ " of INPUT. 2. Second, deduce the diagnostic REASONING process from " +++
    "premises (i.e., clues, input) that supports the INPUT score " +++
    "determination (Limit the number of words to 130). 3. Third, based on " +++
    "clues, reasoning and input, determine the score of " +++ trait_name +++
    " for the author of INPUT from the list [-2, -1, 0, 1, 2] or " +++
    "Nondistinguishable. 4. Mark what made you choose this score as " +++
    "decision type: Explicit signs, Implicit signs, Intuition, " +++
    "Nondistinguishable. 5. Provide your output in JSON format with the " +++
    "keys: score, clues, reasoning, decision type. PROVIDE ONLY JSON. " +++
    "INSTRUCTION: - Definition: " +++ definition_or_empty trait_class_info +++
    " - High score of " +++ trait_name +++ " (maximum 2): '" +++ c_high trait_class_info +++
    "' - Low score of " +++ trait_name +++ " (minimum -2): '" +++ c_low trait_class_info +++
    "' - Explicit signs: The person mentions obvious facts that are " +++
    "connected with this trait score. - Implicit signs: The person " +++
    "mentions facts that may imply them having this trait score. - " +++
    "Intuition: My intuition tells that the person has this trait score. - " +++
    "Nondistinguishable: I can't tell what trait score the person has. - " +++
    "If the text does not contain substantial, significant, and convincing " +++
    "indicators of the trait score, then use Nondistinguishable. - Choose " +++
    "something other than Nondistinguishable if you have a high degree of " +++
    "confidence in the answer.").

Definition user_prompt_judge_of (question generated_text : string) : string :=
  "Question: " +++ question +++ " INPUT: " +++ generated_text.

(** The local variables of [run_text_generation_experiment] that live across
    iterations.  [generated] is the pair [generated_text, status]: [None]
    until the first tuple assignment of lines 60-61 has run. *)
Record gen_locals : Type := mkGenLocals {
  results_list : list GenRow.t;
  current_generation : nat;
  generated : option (string * string)
}.

Section TextGeneration.
Variable models_to_test : dict model_info.
Variable hf_handlers : dict Handlers.HuggingFaceModelHandler.
Variable groq_generate_func : string -> string -> string -> option Q -> M (string * string).
Variable judge_model_id : string.
Variable traits_definitions : traits.
Variable questions : list string.

Definition total_generations : nat :=
  length models_to_test * length (generation traits_definitions) * 5 * length questions.

(** Lines 60-61: the dispatch on the handler kind.  Neither branch runs for
    any other kind, and the locals keep what they held. *)
Definition dispatch_generate (model_key : string) (info : model_info)
    (system_prompt user_prompt : string) (l : gen_locals) : M gen_locals :=
  if String.eqb (handler info) "groq" then
    r <- groq_generate_func (model_id info) system_prompt user_prompt None ;;
    ret (mkGenLocals (results_list l) (current_generation l) (Some r))
  else if String.eqb (handler info) "hf" then
    h <- subscript hf_handlers model_key ;;
    r <- Handlers.generate_response h system_prompt user_prompt None ;;
    ret (mkGenLocals (results_list l) (current_generation l) (Some r))
  else ret l.

(** Reading [generated_text] and [status]. *)
Definition read_generated (l : gen_locals) : M (string * string) :=
  match generated l with
  | Some r => ret r
  | None => raise (UnboundLocalError "status")
  end.

(** Lines 56-80: the body of the innermost loop. *)
Definition generation_body (model_key : string) (info : model_info)
    (trait_key : string) (trait_gen_info : trait_gen) (trait_score_num : nat)
    (question : string) (l0 : gen_locals) : M gen_locals :=
  let trait_name := name trait_gen_info in
  let l := mkGenLocals (results_list l0) (current_generation l0 + 1) (generated l0) in
  let system_prompt_generate :=
    system_prompt_generate_of trait_name trait_score_num trait_gen_info in
  let user_prompt_generate := user_prompt_generate_of question in
  l <- dispatch_generate model_key info system_prompt_generate user_prompt_generate l ;;
  '(generated_text, status) <- read_generated l ;;
  if String.eqb status "fail" then
    logging WARNING ("Failed to generate text for " +++ model_key
                     +++ " on question: " +++ question) ;;
    ret l
  else
    trait_class_info <- subscript (classification traits_definitions) trait_key ;;
    let system_prompt_judge := system_prompt_judge_of trait_name trait_class_info in
    let user_prompt_judge := user_prompt_judge_of question generated_text in
    '(judge_response_raw, judge_status) <-
      groq_generate_func judge_model_id system_prompt_judge user_prompt_judge (Some 0%Q) ;;
    if String.eqb judge_status "fail" then
      logging WARNING ("Judge model failed to evaluate text from " +++ model_key) ;;
      ret l
    else
      judge_result <- parse_judge_response judge_response_raw ;;
      v <- judge_fields judge_result ;;
      ret (mkGenLocals
             (results_list l ++
                [GenRow.mk model_key (model_id info) trait_name trait_score_num question
                   generated_text (v_score v) (v_clues v) (v_reasoning v)
                   (v_decision_type v)])
             (current_generation l) (generated l)).

(** Lines 50-80: the four nested loops. *)
Definition generation_loops (l : gen_locals) : M gen_locals :=
  for_each models_to_test (fun '(model_key, info) l =>
    logging INFO ("--- Testing Model: " +++ model_key +++ " ---") ;;
    for_each (generation traits_definitions) (fun '(trait_key, trait_gen_info) l =>
      for_each (seq 1 5) (fun trait_score_num l =>
        for_each questions (fun question l =>
          generation_body model_key info trait_key trait_gen_info trait_score_num question l)
        l) l) l) l.

(** [run_text_generation_experiment]; the returned [DataFrame] is the list of
    its rows.  Console output ([print]) is not part of the model. *)
Definition run_text_generation_experiment : M (list GenRow.t) :=
  logging INFO "Starting Main Text Generation Experiment..." ;;
  l <- generation_loops (mkGenLocals [] 0 None) ;;
  logging INFO "Main Experiment complete!" ;;
  ret (results_list l).

End TextGeneration.

(** The local variables of [run_questionnaire_experiment] that live across
    iterations; [answered] is the pair [answer, status]. *)
Record q_locals : Type := mkQLocals {
  questionnaire_results_list : list QRow.t;
  current_q_generation : nat;
  answered : option (string * string)
}.

Definition repr_list (l : list string) : string :=
  "[" +++ join ", " (map repr_str l) +++ "]".

Definition trait_prompt_of (level trait_name level_text : string) : string :=
  "Act as a person with a " +++ level +++ " score in " +++ trait_name +++ ". " +++ level_text.

Definition questionnaire_system_prompt_of (trait_prompt provided_options : string)
    (constant_list : list string) : string :=
  textwrap_dedent
   ("TASK: Indicate your level of agreement or disagreement with the " +++
    "statement in the CHARACTERISTICS according to your PERSONALITY. Use " +++
    "only the PROVIDED OPTIONS. PERSONALITY: ``` " +++ trait_prompt +++
    " ``` PROVIDED OPTIONS: " +++ provided_options +++
    " Provide your output only from the constant list " +++ repr_list constant_list +++
    " without explanation.").

Definition questionnaire_user_prompt_of (question_set : item) : string :=
  "CHARACTERISTICS:" +++ nl +++ "```" +++ nl +++ q_statement question_set +++ nl +++ "```".

(** [trait_info[level]] *)
Definition trait_level (trait_info : trait_gen) (level : string) : M string :=
  if String.eqb level "high" then ret (high trait_info)
  else if String.eqb level "low" then ret (low trait_info)
  else if String.eqb level "name" then ret (name trait_info)
  else raise (KeyError level).

(** [trait_key_long[0].upper()] *)
Definition first_upper (trait_key_long : string) : M string :=
  match trait_key_long with
  | EmptyString => raise (IndexError "string index out of range")
  | String c _ => ret (upper (String c EmptyString))
  end.

Section Questionnaire.
Variable models_to_test : dict model_info.
Variable hf_handlers : dict Handlers.HuggingFaceModelHandler.
Variable groq_generate_func : string -> string -> string -> option Q -> M (string * string).
Variable bfi44_questions : dict (list item).
Variable bfi44_scores_dict : dict nat.
Variable traits_definitions : traits.

Definition total_q_generations : nat :=
  length models_to_test * length bfi44_questions * 2.

(** Lines 129-130: the dispatch on the handler kind. *)
Definition dispatch_answer (model_key : string) (info : model_info)
    (system_prompt user_prompt : string) (l : q_locals) : M q_locals :=
  if String.eqb (handler info) "groq" then
    r <- groq_generate_func (model_id info) system_prompt user_prompt (Some (7 # 10)%Q) ;;
    ret (mkQLocals (questionnaire_results_list l) (current_q_generation l) (Some r))
  else if String.eqb (handler info) "hf" then
    h <- subscript hf_handlers model_key ;;
    r <- Handlers.generate_response h system_prompt user_prompt None ;;
    ret (mkQLocals (questionnaire_results_list l) (current_q_generation l) (Some r))
  else ret l.

Definition read_answered (l : q_locals) : M (string * string) :=
  match answered l with
  | Some r => ret r
  | None => raise (UnboundLocalError "status")
  end.

(** Lines 128-131: the body of the innermost loop. *)
Definition questionnaire_body (model_key : string) (info : model_info)
    (trait_name level system_prompt : string) (question_set : item) (l : q_locals)
  : M q_locals :=
  let user_prompt := questionnaire_user_prompt_of question_set in
  l <- dispatch_answer model_key info system_prompt user_prompt l ;;
  '(answer, status) <- read_answered l ;;
  if String.eqb status "ok" then
    ret (mkQLocals
           (questionnaire_results_list l ++
              [QRow.mk model_key trait_name level (q_type question_set) answer])
           (current_q_generation l) (answered l))
  else ret l.

(** Lines 122-131: one (model, trait, level) group. *)
Definition questionnaire_group (model_key : string) (info : model_info)
    (trait_info : trait_gen) (questions : list item) (level : string) (l0 : q_locals)
  : M q_locals :=
  let trait_name := name trait_info in
  let l := mkQLocals (questionnaire_results_list l0) (current_q_generation l0 + 1)
             (answered l0) in
  level_text <- trait_level trait_info level ;;
  let trait_prompt := trait_prompt_of level trait_name level_text in
  let provided_options :=
    join nl (map (fun option => "- " +++ option) (keys bfi44_scores_dict)) in
  let constant_list := keys bfi44_scores_dict in
  let system_prompt :=
    questionnaire_system_prompt_of trait_prompt provided_options constant_list in
  for_each questions
    (fun question_set l =>
       questionnaire_body model_key info trait_name level system_prompt question_set l) l.

(** Lines 118-131: the four nested loops. *)
Definition questionnaire_loops (l : q_locals) : M q_locals :=
  for_each models_to_test (fun '(model_key, info) l =>
    for_each bfi44_questions (fun '(trait_key_long, questions) l =>
      trait_key_short <- first_upper trait_key_long ;;
      trait_info <- subscript (generation traits_definitions) trait_key_short ;;
      for_each ["high"; "low"] (fun level l =>
        questionnaire_group model_key info trait_info questions level l) l) l) l.

(** [run_questionnaire_experiment] *)
Definition run_questionnaire_experiment : M (list QRow.t) :=
  logging INFO "Starting Questionnaire Experiment..." ;;
  l <- questionnaire_loops (mkQLocals [] 0 None) ;;
  logging INFO "Questionnaire Experiment complete!" ;;
  ret (questionnaire_results_list l).

End Questionnaire.
End Engine.
End Experiments.

(* ================================================================== *)
(** * config/settings.py and config/prompts.py *)
(* ================================================================== *)

Module Settings.
Import Experiments.

Definition MODELS_TO_TEST : dict model_info :=
  [ ("Gemma-7B (Hugging Face)", mkModel "hf" "google/gemma-7b-it");
    ("Llama-3.1-8B (Groq)", mkModel "groq" "llama-3.1-8b-instant") ].

Definition JUDGE_MODEL_ID : string := "llama3-70b-8192".


End Settings.

Module Prompts.
Import Experiments.

Definition TRAITS_DEFINITIONS : traits := mkTraits
  [ ("O", mkTraitGen "Openness"
       "A person with a low score is practical and prefers routine."
       ("A person with a high score is imaginative, curious, and open to new " +++
        "experiences."));
    ("C", mkTraitGen "Conscientiousness"
       "A person with a low score is disorganized and careless."
       ("A person with a high score is disciplined, organized, and " +++
        "achievement-oriented."));
    ("E", mkTraitGen "Extraversion"
       "A person with a low score is reserved and solitary."
       "A person with a high score is outgoing, sociable, and energetic.");
    ("A", mkTraitGen "Agreeableness"
       "A person with a low score is critical and uncooperative."
       "A person with a high score is compassionate, cooperative, and trusting.");
    ("N", mkTraitGen "Neuroticism"
       "A person with a low score is calm, secure, and emotionally stable."
       ("A person with a high score is anxious, insecure, and prone to negative " +++
        "emotions.")) ]
  [ ("O", mkTraitClass "Openness"
       (Some ("Openness to experience describes a person's tendency to be open to new " +++
        "ideas, creative, curious, and appreciative of art and beauty."))
       ("A person with a low score is practical, conventional, and prefers " +++
        "routine over new experiences.")
       ("A person with a high score is imaginative, adventurous, and receptive " +++
        "to a wide range of ideas and emotions."));
    ("C", mkTraitClass "Conscientiousness"
       (Some ("Conscientiousness refers to the tendency to be organized, responsible, " +++
        "and dependable."))
       ("A person with a low score is impulsive, disorganized, and less focused " +++
        "on long-term goals.")
       ("A person with a high score is disciplined, detail-oriented, and " +++
        "reliable in their commitments."));
    ("E", mkTraitClass "Extraversion"
       (Some ("Extraversion reflects a person's level of sociability, assertiveness, " +++
        "and emotional expression."))
       ("A person with a low score is reserved, reflective, and prefers solitary " +++
        "activities or small groups.")
       ("A person with a high score is outgoing, energetic, and thrives in " +++
        "social situations."));
    ("A", mkTraitClass "Agreeableness"
       (Some ("Agreeableness indicates a person's tendency to be compassionate, " +++
        "cooperative, and considerate of others."))
       ("A person with a low score is competitive, critical, and may be seen as " +++
        "untrusting or suspicious.")
       ("A person with a high score is friendly, helpful, and empathetic towards " +++
        "others."));
    ("N", mkTraitClass "Neuroticism"
       (Some ("Neuroticism, often referred to as emotional stability, describes the " +++
        "tendency to experience negative emotions like anxiety, anger, and " +++
        "sadness."))
       "A person with a low score is calm, secure, and resilient to stress."
       ("A person with a high score is emotionally reactive, prone to stress, " +++
        "and may experience frequent mood swings.")) ].

Definition QUESTIONS : list string :=
  [ "What is your dream career?";
    "What quality do you appreciate the most in a friend?";
    ("If you had enough money to retire tomorrow, what would you do for the " +++
      "rest of your life?");
    "What can we learn from children?";
    ("If you could play the main character in any movie, what movie would it " +++
      "be?");
    "What does the world need more of?" ].

Definition BFI44_SCORES_DICT : dict nat :=
  [ ("disagree strongly with the statement", 1);
    ("disagree a little with the statement", 2);
    ("agree nor disagree with the statement", 3);
    ("agree a little with the statement", 4);
    ("agree strongly with the statement", 5) ].

Definition BFI44_QUESTIONS : dict (list item) :=
  [ ("openness",
     [ mkItem 5 "I see myself as someone who Is original, comes up with new ideas" "direct";
       mkItem 10 "I see myself as someone who Is curious about many different things" "direct";
       mkItem 15 "I see myself as someone who Is ingenious, a deep thinker" "direct";
       mkItem 20 "I see myself as someone who Has an active imagination" "direct";
       mkItem 25 "I see myself as someone who Is inventive" "direct";
       mkItem 30 "I see myself as someone who Values artistic, aesthetic experiences" "direct";
       mkItem 35 "I see myself as someone who Prefers work that is routine" "inverted";
       mkItem 40 "I see myself as someone who Likes to reflect, play with ideas" "direct";
       mkItem 41 "I see myself as someone who Has few artistic interests" "inverted";
       mkItem 44 "I see myself as someone who Is sophisticated in art, music, or literature" "direct" ]);
    ("conscientiousness",
     [ mkItem 3 "I see myself as someone who Does a thorough job" "direct";
       mkItem 8 "I see myself as someone who Can be somewhat careless" "inverted";
       mkItem 13 "I see myself as someone who Is a reliable worker" "direct";
       mkItem 18 "I see myself as someone who Tends to be disorganized" "inverted";
       mkItem 23 "I see myself as someone who Tends to be lazy" "inverted";
       mkItem 28 "I see myself as someone who Perseveres until the task is finished" "direct";
       mkItem 33 "I see myself as someone who Does things efficiently" "direct";
       mkItem 38 "I see myself as someone who Makes plans and follows through with them" "direct";
       mkItem 43 "I see myself as someone who Is easily distracted" "inverted" ]);
    ("extraversion",
     [ mkItem 1 "I see myself as someone who Is talkative" "direct";
       mkItem 6 "I see myself as someone who Is reserved" "inverted";
       mkItem 11 "I see myself as someone who Is full of energy" "direct";
       mkItem 16 "I see myself as someone who Generates a lot of enthusiasm" "direct";
       mkItem 21 "I see myself as someone who Tends to be quiet" "inverted";
       mkItem 26 "I see myself as someone who Has an assertive personality" "direct";
       mkItem 31 "I see myself as someone who Is sometimes shy, inhibited" "inverted";
       mkItem 36 "I see myself as someone who Is outgoing, sociable" "direct" ]);
    ("agreeableness",
     [ mkItem 2 "I see myself as someone who Tends to find fault with others" "inverted";
       mkItem 7 "I see myself as someone who Is helpful and unselfish with others" "direct";
       mkItem 12 "I see myself as someone who Starts quarrels with others" "inverted";
       mkItem 17 "I see myself as someone who Has a forgiving nature" "direct";
       mkItem 22 "I see myself as someone who Is generally trusting" "direct";
       mkItem 27 "I see myself as someone who Can be cold and aloof" "inverted";
       mkItem 32 "I see myself as someone who Is considerate and kind to almost everyone" "direct";
       mkItem 37 "I see myself as someone who Is sometimes rude to others" "inverted";
       mkItem 42 "I see myself as someone who Likes to cooperate with others" "direct" ]);
    ("neuroticism",
     [ mkItem 4 "I see myself as someone who Is depressed, blue" "direct";
       mkItem 9 "I see myself as someone who Is relaxed, handles stress well" "inverted";
       mkItem 14 "I see myself as someone who Can be tense" "direct";
       mkItem 19 "I see myself as someone who Worries a lot" "direct";
       mkItem 24 "I see myself as someone who Is emotionally stable, not easily upset" "inverted";
       mkItem 29 "I see myself as someone who Can be moody" "direct";
       mkItem 34 "I see myself as someone who Remains calm in tense situations" "inverted";
       mkItem 39 "I see myself as someone who Gets nervous easily" "direct" ]) ].

End Prompts.

(* ================================================================== *)
(** * utils/helpers.py *)
(* ================================================================== *)

Module Helpers.
Section Helpers.
Context `{Env}.


End Helpers.
End Helpers.

(* ================================================================== *)
(** * main.py *)
(* ================================================================== *)

Module Main.
Import Experiments.



Section Main.
Context `{Env}.

(** Step 2, the pre-loading loop; [None] when [main] executes [return]. *)
Fixpoint preload (models : dict model_info)
    (hf_handlers : dict Handlers.HuggingFaceModelHandler)
  : M (option (dict Handlers.HuggingFaceModelHandler)) :=
  match models with
  | [] => ret (Some hf_handlers)
  | (model_key, info) :: rest =>
      if String.eqb (handler info) "hf" then
        r <- try_except
               (logging INFO ("Pre-loading Hugging Face model: " +++ model_key +++ "...") ;;
                h <- Handlers.__init__ (model_id info) ;;
                ret (Some (dict_set hf_handlers model_key h)))
               (fun e =>
                  logging CRITICAL ("Fatal error loading model " +++ model_key
                                    +++ ". Aborting. Error: " +++ exn_str e) ;;
                  ret None) ;;
        match r with
        | Some hf_handlers' => preload rest hf_handlers'
        | None => ret None
        end
      else preload rest hf_handlers
  end.

(** [generate_response_groq] as the engine calls it: three positional
    arguments and the keyword [temperature]. *)
Definition groq (model_name system_prompt user_prompt : string) (temperature : option Q)
  : M (string * string) :=
  Handlers.generate_response_groq model_name system_prompt user_prompt temperature None.



End Main.


End Main.

(* ================================================================== *)
(** * analysis/similarity.py: _calculate_similarity_matrix *)
(* ================================================================== *)

Module Similarity.

(** The two columns of the frame the function reads. *)
Record row : Type := mkRow { generated_text : string; prompted_score : nat }.

Section Similarity.
Context `{Env}.

(** Floating-point numbers and the scikit-learn routines are parameters. *)
Variable float : Type.
Variable zero : float.
Variable TfidfMatrix : Type.
(** [TfidfVectorizer(stop_words='english', min_df=2).fit_transform(texts)] *)
Variable fit_transform : list string -> exn + TfidfMatrix.
(** [tfidf_matrix.shape[1]] *)
Variable n_features : TfidfMatrix -> nat.
(** [tfidf_matrix[indices].mean(axis=0)] *)
Variable mean_of_rows : TfidfMatrix -> list nat -> list float.
(** [cosine_similarity(np.asarray(np.vstack(score_vectors)))] *)
Variable cosine_similarity : list (list float) -> list (list float).

(** [np.zeros((r, c))] *)
Definition np_zeros (r c : nat) : list (list float) := repeat (repeat zero c) r.

(** [df.index[df['prompted_score'] == score].tolist()] after [reset_index] *)
Fixpoint indices_from (i : nat) (df : list row) (score : nat) : list nat :=
  match df with
  | [] => []
  | r :: df' =>
      if prompted_score r =? score then i :: indices_from (S i) df' score
      else indices_from (S i) df' score
  end.

Definition _calculate_similarity_matrix (df : list row) : M (list (list float)) :=
  r <- try_except
         (tfidf_matrix <- lift (fit_transform (map generated_text df)) ;;
          ret (Some tfidf_matrix))
         (fun e =>
            if is_ValueError e then
              logging WARNING
                ("TF-IDF Vectorizer failed, likely due to insufficient vocabulary. " +++
                 "Returning an empty matrix.") ;;
              ret None
            else raise e) ;;
  match r with
  | None => ret (np_zeros 5 5)
  | Some tfidf_matrix =>
      let score_vectors :=
        map (fun score =>
               match indices_from 0 df score with
               | [] => repeat zero (n_features tfidf_matrix)
               | indices => mean_of_rows tfidf_matrix indices
               end) (seq 1 5) in
      ret (cosine_similarity score_vectors)
  end.

End Similarity.
End Similarity.

(* ================================================================== *)
(** * analysis/plotting.py: the scoring helpers *)
(* ================================================================== *)

Module Plotting.

(** [map_prompted_score], local to [plot_confusion_matrices]. *)
Definition map_prompted_score (value : nat) : option string :=
  if existsb (Nat.eqb value) [1; 2] then Some "low"
  else if value =? 3 then Some "medium"
  else if existsb (Nat.eqb value) [4; 5] then Some "high"
  else None.

(** White space as [str.strip] sees it, within ASCII. *)
Definition is_space (c : ascii) : bool :=
  let n := nat_of_ascii c in
  ((9 <=? n) && (n <=? 13)) || ((28 <=? n) && (n <=? 32)).

Fixpoint lstrip (s : chars) : chars :=
  match s with
  | c :: r => if is_space c then lstrip r else s
  | [] => []
  end.

(** [str.strip()] *)
Definition strip (s : string) : string :=
  string_of_list_ascii (rev (lstrip (rev (lstrip (list_ascii_of_string s))))).

(** [str.lower] on the ASCII letters. *)
Definition lower_char (c : ascii) : ascii :=
  let n := nat_of_ascii c in
  if (65 <=? n) && (n <=? 90) then ascii_of_nat (n + 32) else c.

Definition lower (s : string) : string :=
  string_of_list_ascii (map lower_char (list_ascii_of_string s)).

(** [text in s] *)
Fixpoint contains (text s : string) : bool :=
  if String.prefix text s then true
  else match s with
       | EmptyString => false
       | String _ r => contains text r
       end.

(** [match_score], local to [plot_questionnaire_histograms]: the score of the
    first phrase of the mapping found in the cleaned answer, 3 when there is
    none. *)
Fixpoint first_match (answer_clean : string) (items : list (string * nat)) : nat :=
  match items with
  | [] => 3
  | (text, score) :: rest =>
      if contains text answer_clean then score else first_match answer_clean rest
  end.

Definition match_score (answer : string) (scores_mapping : dict nat) : nat :=
  let answer_clean := lower (strip answer) in
  first_match answer_clean scores_mapping.

(** [adjusted_score], local to [plot_questionnaire_histograms], on the
    columns ['Q_type'] and ['Scores'] of a row. *)
Definition adjusted_score (Q_type : string) (Scores : nat) : Z :=
  if String.eqb Q_type "inverted" then (6 - Z.of_nat Scores)%Z else Z.of_nat Scores.

End Plotting.

(* ================================================================== *)
(** * A scripted outside world, for running the model on concrete inputs *)
(* ================================================================== *)

Module Stub.

(** The outcomes of the coming backend calls in order ([script]), the outcome
    of every call after that ([fallback]), whether [Groq()] raises, and the
    model ids whose weights fail to load. *)
Record world : Type := mkWorld {
  script : list (exn + string);
  fallback : exn + string;
  groq_down : bool;
  broken_models : list string
}.

Definition next (w : world) : (exn + string) * world :=
  match script w with
  | [] => (fallback w, w)
  | r :: rest => (r, mkWorld rest (fallback w) (groq_down w) (broken_models w))
  end.

Definition env : Env := {|
  World := world;
  Client := unit;
  Completion := string;
  Tokenizer := unit;
  Model := unit;
  Groq_new := fun w =>
    (if groq_down w then inl (Other "GroqError" "The api_key client option must be set")
     else inr tt, w);
  chat_completions_create := fun _ _ _ _ _ w => next w;
  message_content := fun c => inr c;
  BitsAndBytesConfig_new := fun w => (inr tt, w);
  AutoTokenizer_from_pretrained := fun _ w => (inr tt, w);
  AutoModelForCausalLM_from_pretrained := fun mid w =>
    (if existsb (String.eqb mid) (broken_models w)
     then inl (Other "OSError" (mid +++ " is not a valid model identifier"))
     else inr tt, w);
  hf_sample := fun _ _ _ _ w => next w;
  textwrap_dedent := fun s => s;
  repr_str := fun s => "'" +++ s +++ "'";
  os_path_exists := fun _ w => (true, w);
  os_makedirs := fun _ w => (inr tt, w)
|}.

Definition start (w : world) : @State env := @mkState env w [].


Definition timeout : exn := Other "APITimeoutError" "Request timed out.".

(** A backend stub that returns a constant answer with status ['ok']. *)
Definition constant_backend (text : string)
  : string -> string -> string -> option Q -> @M env (string * string) :=
  fun _ _ _ _ => @ret env _ (text, "ok").


(** The pre-loaded handler of the local model of the shipped roster. *)
Definition handlers : dict (@Handlers.HuggingFaceModelHandler env) :=
  [("Gemma-7B (Hugging Face)",
    @Handlers.mkHandler env (Some tt) (Some tt) "google/gemma-7b-it")].

(** A judge answer in the requested format. *)
Definition verdict_text : string :=
  quoted ("{'score': 1, 'clues': 'talks about art', 'reasoning': 'curious', " +++
          "'decision type': 'Implicit signs'}").

(** A roster entry of the hosted kind, one of a kind the dispatch does not
    know, and a one-trait configuration. *)
Definition llama : Experiments.model_info :=
  Experiments.mkModel "groq" "llama-3.1-8b-instant".
Definition stray : Experiments.model_info := Experiments.mkModel "openai" "gpt-4o".
Definition gemma : Experiments.model_info := Experiments.mkModel "hf" "google/gemma-7b-it".
Definition openness : Experiments.trait_gen :=
  Experiments.mkTraitGen "Openness" "prefers routine" "is curious".
Definition openness_class : Experiments.trait_class :=
  Experiments.mkTraitClass "Openness" None "conventional" "adventurous".
Definition one_trait : Experiments.traits :=
  Experiments.mkTraits [("O", openness)] [("O", openness_class)].

(** A world in which every call returns [text]. *)
Definition steady (text : string) : world := mkWorld [] (inr text) false [].

(** A world in which the first generation succeeds, the judge then times out
    on all three attempts, and every later call returns [verdict_text]. *)
Definition shaky : world :=
  mkWorld [inr "I would like to be a painter."; inl timeout; inl timeout; inl timeout]
    (inr verdict_text) false [].

End Stub.

(* ================================================================== *)
(** * Vocabulary of the statements *)
(* ================================================================== *)

Module Spec.
Import Experiments.

(** [subseq l1 l2]: [l1] is [l2] with some elements left out, order kept. *)
Inductive subseq {A} : list A -> list A -> Prop :=
| subseq_nil : subseq [] []
| subseq_skip x l1 l2 : subseq l1 l2 -> subseq l1 (x :: l2)
| subseq_keep x l1 l2 : subseq l1 l2 -> subseq (x :: l1) (x :: l2).

(** The verdict the judge parser computes from the raw judge text, without the
    logging. *)
Definition lookup_or_null (d : dict json) (k : string) : json :=
  match dict_get d k with Some v => v | None => JNull end.

Definition sentinel : verdict := mkVerdict JNull JNull (JStr "JSON PARSE ERROR") JNull.

Definition verdict_of (raw : string) : verdict :=
  match Re.search_braces raw with
  | Some json_string =>
      match Json.loads json_string with
      | inr (JObj d) =>
          mkVerdict (lookup_or_null d "score") (lookup_or_null d "clues")
            (lookup_or_null d "reasoning") (lookup_or_null d "decision type")
      | _ => sentinel
      end
  | None => sentinel
  end.

(** The iteration coordinate of a Generation row: model key, trait name,
    intensity, question. *)
Definition coord : Type := string * string * nat * string.

Definition coord_of (r : GenRow.t) : coord :=
  (GenRow.model_key r, GenRow.prompted_trait r, GenRow.prompted_score r, GenRow.question r).

(** All coordinates of a sweep, in iteration order. *)
Definition all_coords (models_to_test : dict model_info) (td : traits)
    (questions : list string) : list coord :=
  flat_map (fun m =>
    flat_map (fun t =>
      flat_map (fun n =>
        map (fun q => (fst m, name (snd t), n, q)) questions)
      (seq 1 5))
    (generation td))
  models_to_test.

(** The only failure of the JSON decoder. *)
Definition decode_error (e : exn) : Prop := exists msg, e = JSONDecodeError msg.

Section Contracts.
Context `{Env}.

(** What a run of the parser may leave behind: nothing, or one ERROR record. *)
Definition logged_error (st st' : State) : Prop :=
  st' = st \/ exists msg, st' = mkState (world st) (trace st ++ [Log ERROR msg]).


Definition warnings (st : State) : nat := count is_warning (trace st).

(** The generation contract of the Backend boundary, as the engine relies on
    it: a call returns a text and a status that is ['ok'] or ['fail'], and
    logs no warning of its own. *)
Definition adapter_contract
    (f : string -> string -> string -> option Q -> M (string * string)) : Prop :=
  forall m sp up t st, exists text status st',
    f m sp up t st = (inr (text, status), st') /\
    (status = "ok" \/ status = "fail") /\
    warnings st' = warnings st.

(** The handler kind of a roster entry is one the dispatch knows, and a local
    model has its pre-loaded handler. *)
Definition recognised (hf_handlers : dict Handlers.HuggingFaceModelHandler)
    (model_key : string) (info : model_info) : Prop :=
  handler info = "groq" \/
  (handler info = "hf" /\ exists h, dict_get hf_handlers model_key = Some h).

(** One attempt of the hosted-API adapter as the adapter sees it: the text of
    the completion, or [None] when anything at all was raised. *)
Definition attempt_outcome (client : Client) (m sp up : string) (t : Q) (w : World)
  : option string * World :=
  match chat_completions_create client m sp up t w with
  | (inr completion, w') =>
      match message_content completion with
      | inr text => (Some text, w')
      | inl _ => (None, w')
      end
  | (inl _, w') => (None, w')
  end.

(** The world after [k] attempts in a row that all failed, starting in [w];
    [None] when one of them succeeded. *)
Fixpoint failed_attempts (client : Client) (m sp up : string) (t : Q) (k : nat) (w : World)
  : option World :=
  match k with
  | 0 => Some w
  | S k' =>
      match attempt_outcome client m sp up t w with
      | (None, w') => failed_attempts client m sp up t k' w'
      | (Some _, _) => None
      end
  end.

(** A backend whose answer depends on the request only. *)
Definition answers_by
    (f : string -> string -> string -> option Q -> M (string * string))
    (resp : string -> string -> string -> option Q -> string * string) : Prop :=
  forall m sp up t st, exists st', f m sp up t st = (inr (resp m sp up t), st').

End Contracts.

(** The Questionnaire rows that arise when the backend selected for a roster
    entry answers [answer model_key info system_prompt user_prompt], in
    (model, trait, level, item) order. *)
Section Expected.
Context `{Env}.
Variable answer : string -> model_info -> string -> string -> string * string.
Variable bfi44_scores_dict : dict nat.
Variable td : traits.

Definition group_prompt (trait_info : trait_gen) (level : string) : string :=
  let level_text := if String.eqb level "high" then high trait_info else low trait_info in
  questionnaire_system_prompt_of
    (trait_prompt_of level (name trait_info) level_text)
    (join nl (map (fun option => "- " +++ option) (keys bfi44_scores_dict)))
    (keys bfi44_scores_dict).

Definition expected_item (model_key : string) (info : model_info) (trait_info : trait_gen)
    (level : string) (question_set : item) : list QRow.t :=
  let '(text, status) :=
    answer model_key info (group_prompt trait_info level)
      (questionnaire_user_prompt_of question_set) in
  if String.eqb status "ok"
  then [QRow.mk model_key (name trait_info) level (q_type question_set) text]
  else [].

Definition expected_rows (models_to_test : dict model_info)
    (bfi44_questions : dict (list item)) : list QRow.t :=
  flat_map (fun m =>
    flat_map (fun tq =>
      match dict_get (generation td) (upper (substring 0 1 (fst tq))) with
      | Some trait_info =>
          flat_map (fun level =>
            flat_map (expected_item (fst m) (snd m) trait_info level) (snd tq))
          ["high"; "low"]
      | None => []
      end)
    bfi44_questions)
  models_to_test.

(** The BFI-44 bank names traits the configuration defines. *)
Definition bank_ok (bfi44_questions : dict (list item)) : Prop :=
  forall k qs, In (k, qs) bfi44_questions ->
    k <> EmptyString /\
    dict_get (generation td) (upper (substring 0 1 k)) <> None.

End Expected.

(** For every roster entry the dispatch of the Questionnaire sweep binds the
    pair [answer model_key info system_prompt user_prompt] and raises
    nothing, whatever the state of the world. *)
Definition dispatch_answers `{Env}
    (hf_handlers : dict Handlers.HuggingFaceModelHandler)
    (groq_generate_func : string -> string -> string -> option Q -> M (string * string))
    (answer : string -> model_info -> string -> string -> string * string)
    (models_to_test : dict model_info) : Prop :=
  forall model_key info, In (model_key, info) models_to_test ->
  forall sp up l st, exists st',
    dispatch_answer hf_handlers groq_generate_func model_key info sp up l st =
    (inr (mkQLocals (questionnaire_results_list l) (current_q_generation l)
            (Some (answer model_key info sp up))), st').

(** The Generation row of a coordinate, a generated text and a verdict. *)
Definition row_of (c : coord) (mid text : string) (v : verdict) : GenRow.t :=
  let '(model_key, trait_name, n, question) := c in
  GenRow.mk model_key mid trait_name n question text
    (v_score v) (v_clues v) (v_reasoning v) (v_decision_type v).

(** What one pass of the innermost loop of the Generation sweep does to the
    table, to the number of warnings logged and to the progress counter:
    either one warning and no row, or no warning and one row. *)
Definition gen_step (c : coord) (mid : string) (l : gen_locals) (w : nat)
    (l' : gen_locals) (w' : nat) : Prop :=
  current_generation l' = S (current_generation l) /\
  ((results_list l' = results_list l /\ w' = S w) \/
   (exists text raw,
      results_list l' = results_list l ++ [row_of c mid text (verdict_of raw)] /\ w' = w)).

(** The same for a stretch of the sweep that visits the coordinates [cs]. *)
Definition gen_sweep (cs : list coord) (l : gen_locals) (w : nat)
    (l' : gen_locals) (w' : nat) : Prop :=
  exists new,
    results_list l' = results_list l ++ new /\
    subseq (map coord_of new) cs /\
    length new + w' = w + length cs /\
    current_generation l' = current_generation l + length cs.

(** The number of items of a BFI-44 bank. *)
Definition bank_size (bfi44_questions : dict (list item)) : nat :=
  list_sum (map (fun tq => length (snd tq)) bfi44_questions).

(** What a stretch of the Questionnaire sweep does to the table: it appends at
    most [k] rows, each for persona level ['high'] or ['low']. *)
Definition q_sweep (k : nat) (l l' : q_locals) : Prop :=
  exists new,
    questionnaire_results_list l' = questionnaire_results_list l ++ new /\
    length new <= k /\
    Forall (fun r => QRow.prompted_level r = "high" \/ QRow.prompted_level r = "low") new.

(** The locals with which the body of the Generation sweep enters the
    dispatch: the progress counter has been advanced. *)
Definition entered (l0 : gen_locals) : gen_locals :=
  mkGenLocals (results_list l0) (current_generation l0 + 1) (generated l0).

(** The judge call the body makes for a generated text. *)
Definition judge_call `{Env}
    (groq_generate_func : string -> string -> string -> option Q -> M (string * string))
    (judge_model_id trait_name : string) (tc : trait_class) (question text : string)
  : M (string * string) :=
  groq_generate_func judge_model_id (system_prompt_judge_of trait_name tc)
    (user_prompt_judge_of question text) (Some 0%Q).

(** The state after [logging.warning(msg)]. *)
Definition warn `{Env} (st : State) (msg : string) : State :=
  mkState (world st) (trace st ++ [Log WARNING msg]).


(** A handler that holds its model and its tokenizer. *)
Definition loaded `{Env} (h : Handlers.HuggingFaceModelHandler) : Prop :=
  Handlers.model h <> None /\ Handlers.tokenizer h <> None.

(** The roster and the trait tables fit together. *)
Definition roster_ok `{Env} (hf_handlers : dict Handlers.HuggingFaceModelHandler)
    (models_to_test : dict model_info) : Prop :=
  forall model_key info, In (model_key, info) models_to_test ->
    recognised hf_handlers model_key info.

Definition traits_ok (td : traits) : Prop :=
  forall trait_key tg, In (trait_key, tg) (generation td) ->
    dict_get (classification td) trait_key <> None.

End Spec.

(* ================================================================== *)
(** * Facts about the regular expression *)
(* ================================================================== *)

Module ReFacts.
Import Re.

Lemma match_close (s : chars) :
  match_here [Lit "}"] s =
  match s with
  | x :: _ => if Ascii.eqb x "}" then Some [x] else None
  | [] => None
  end.
Proof.
  destruct s as [|x r]; simpl; [reflexivity|].
  destruct (Ascii.eqb x "}"); reflexivity.
Qed.

(** The greedy [.*\}] ends at the last closing brace. *)
Lemma dotstar_close (s : chars) :
  match_here [DotStar; Lit "}"] s =
  match rindex_of "}" s with
  | Some j => Some (firstn (S j) s)
  | None => None
  end.
Proof.
  induction s as [|x r IH].
  - reflexivity.
  - change (match_here [DotStar; Lit "}"] (x :: r))
      with (match match_here [DotStar; Lit "}"] r with
            | Some m => Some (x :: m)
            | None => match_here [Lit "}"] (x :: r)
            end).
    rewrite IH, match_close. simpl rindex_of.
    destruct (rindex_of "}" r) as [j|]; [reflexivity|].
    destruct (Ascii.eqb x "}"); reflexivity.
Qed.

Lemma match_braces (s : chars) :
  match_here braces s =
  match s with
  | x :: r =>
      if Ascii.eqb x "{" then
        match rindex_of "}" r with
        | Some j => Some (x :: firstn (S j) r)
        | None => None
        end
      else None
  | [] => None
  end.
Proof.
  destruct s as [|x r]; [reflexivity|].
  change (match_here braces (x :: r))
    with (if Ascii.eqb x "{"
          then option_map (cons x) (match_here [DotStar; Lit "}"] r) else None).
  rewrite dotstar_close.
  destruct (Ascii.eqb x "{"); [|reflexivity].
  destruct (rindex_of "}" r); reflexivity.
Qed.

Lemma search_no_close (s : chars) :
  rindex_of "}" s = None -> search braces s = None.
Proof.
  induction s as [|x r IH]; intros Hr.
  - reflexivity.
  - simpl in Hr. destruct (rindex_of "}" r) as [j|] eqn:Er; [discriminate|].
    cbn [search]. rewrite match_braces, Er.
    destruct (Ascii.eqb x "{"); apply IH; reflexivity.
Qed.

(** The backtracking search and the description by positions agree. *)
Lemma search_first_to_last (s : chars) :
  search braces s = first_to_last_brace s.
Proof.
  unfold first_to_last_brace.
  induction s as [|x r IH].
  - reflexivity.
  - cbn [search]. rewrite match_braces. cbn [index_of rindex_of].
    destruct (Ascii.eqb x "{") eqn:Ex.
    + apply Ascii.eqb_eq in Ex. subst x.
      destruct (rindex_of "}" r) as [j|] eqn:Er.
      * change (0 <? S j) with true. cbv iota.
        replace (S j - 0 + 1) with (S (S j)) by lia. reflexivity.
      * change (Ascii.eqb "{" "}") with false. cbv iota.
        apply search_no_close, Er.
    + rewrite IH.
      destruct (index_of "{" r) as [i|]; cbn [option_map].
      * destruct (rindex_of "}" r) as [j|].
        -- change (S i <? S j) with (i <? j).
           destruct (i <? j); reflexivity.
        -- destruct (Ascii.eqb x "}"); reflexivity.
      * destruct (rindex_of "}" r) as [j|]; [reflexivity|].
        destruct (Ascii.eqb x "}"); reflexivity.
Qed.

(** A match begins with an opening brace. *)
Lemma search_head (s m : chars) :
  search braces s = Some m -> exists t, m = "{"%char :: t.
Proof.
  induction s as [|x r IH]; cbn [search]; rewrite match_braces.
  - discriminate.
  - destruct (Ascii.eqb x "{") eqn:Ex.
    + apply Ascii.eqb_eq in Ex. subst x.
      destruct (rindex_of "}" r) as [j|].
      * intros [= <-]. eauto.
      * exact IH.
    + exact IH.
Qed.

Lemma search_braces_head (raw js : string) :
  search_braces raw = Some js -> exists t, js = String "{" t.
Proof.
  unfold search_braces.
  destruct (search braces (list_ascii_of_string raw)) as [m|] eqn:E; [|discriminate].
  intros [= <-]. destruct (search_head _ _ E) as [t ->].
  exists (string_of_list_ascii t). reflexivity.
Qed.

End ReFacts.

(* ================================================================== *)
(** * Facts about the JSON decoder *)
(* ================================================================== *)

Module JsonFacts.
Import Spec.

Ltac break_in H :=
  repeat match type of H with
         | context [match ?x with _ => _ end] => destruct x eqn:?; try discriminate H
         | context [if ?x then _ else _] => destruct x eqn:?; try discriminate H
         end.

(** [JSONObject] returns a [dict]. *)
Lemma object_members_obj (fuel : nat) :
  forall acc s v r, object_members fuel acc s = inr (v, r) -> exists d, v = JObj d.
Proof.
  induction fuel as [|fuel IH]; intros acc s v r Hr; cbn [object_members] in Hr.
  - discriminate.
  - break_in Hr; first [ injection Hr as <- _; eauto | eapply IH, Hr ].
Qed.

Lemma scan_once_obj (fuel : nat) (s : chars) (v : json) (r : chars) :
  scan_once fuel ("{"%char :: s) = inr (v, r) -> exists d, v = JObj d.
Proof.
  destruct fuel as [|fuel]; cbn [scan_once]; [discriminate|].
  change (Ascii.eqb "{" "{") with true. cbv iota.
  intros Hr. break_in Hr;
    first [ injection Hr as <- _; eauto | eapply object_members_obj, Hr ].
Qed.

(** A document that begins with an opening brace decodes to a [dict], if it
    decodes at all. *)
Lemma loads_obj (t : string) (v : json) :
  Json.loads (String "{" t) = inr v -> exists d, v = JObj d.
Proof.
  unfold Json.loads. cbn [list_ascii_of_string skip_ws].
  change (is_ws "{") with false. cbv iota.
  intros Hr. break_in Hr.
  injection Hr as <-. eapply scan_once_obj; eassumption.
Qed.

(** ** The fuel of [loads] is never used up *)

Lemma skip_ws_length (s : chars) : length (skip_ws s) <= length s.
Proof.
  induction s as [|c r IH]; simpl; [lia|].
  destruct (is_ws c); simpl; lia.
Qed.

Lemma skip_ws_eq_length (s r : chars) : skip_ws s = r -> length r <= length s.
Proof. intros <-. apply skip_ws_length. Qed.

Lemma span_digits_length (s d r : chars) :
  span_digits s = (d, r) -> length r <= length s.
Proof.
  revert d r. induction s as [|c s IH]; simpl; intros d r Hr.
  - injection Hr as <- <-. simpl. lia.
  - destruct (is_digit c).
    + destruct (span_digits s) as [d' r'] eqn:E. injection Hr as <- <-.
      specialize (IH _ _ eq_refl). lia.
    + injection Hr as <- <-. simpl. lia.
Qed.

Lemma starts_with_length (p s r : chars) :
  starts_with p s = Some r -> length r <= length s.
Proof.
  revert s. induction p as [|a p IH]; intros [|b s]; simpl; intros Hr;
    try discriminate; try (injection Hr as <-; simpl; lia).
  destruct (Ascii.eqb a b); [|discriminate]. specialize (IH _ Hr). lia.
Qed.

Ltac pairs :=
  repeat match goal with
         | H : Some _ = Some _ |- _ => injection H as; subst
         | H : (_, _) = (_, _) |- _ => injection H as; subst
         | H : span_digits _ = (_, _) |- _ => apply span_digits_length in H
         end.

Lemma scan_int_part_length (s : chars) (neg : bool) (d r : chars) :
  scan_int_part s = Some (neg, d, r) -> length r <= length s.
Proof.
  unfold scan_int_part. intros Hr.
  destruct s as [|c s]; [discriminate|].
  destruct (Ascii.eqb c "-"); break_in Hr; pairs; simpl in *; lia.
Qed.

Lemma scan_frac_length (s f r : chars) :
  scan_frac s = (f, r) -> length r <= length s.
Proof.
  unfold scan_frac. intros Hr. break_in Hr; pairs; simpl in *; lia.
Qed.

Lemma scan_exp_length (s f r : chars) :
  scan_exp s = (f, r) -> length r <= length s.
Proof.
  unfold scan_exp. intros Hr.
  destruct s as [|e s]; [pairs; simpl; lia|].
  destruct (Ascii.eqb e "e" || Ascii.eqb e "E"); [|pairs; simpl; lia].
  destruct s as [|c s].
  - break_in Hr; pairs; simpl in *; lia.
  - destruct (Ascii.eqb c "+" || Ascii.eqb c "-"); break_in Hr; pairs; simpl in *; lia.
Qed.

Lemma match_number_length (s : chars) (v : json) (r : chars) :
  match_number s = Some (v, r) -> length r <= length s.
Proof.
  unfold match_number. intros Hr.
  destruct (scan_int_part s) as [[[neg d] r0]|] eqn:E0; [|discriminate].
  destruct (scan_frac r0) as [f r1] eqn:E1.
  destruct (scan_exp r1) as [e r2] eqn:E2.
  apply scan_int_part_length in E0. apply scan_frac_length in E1.
  apply scan_exp_length in E2.
  assert (r = r2) by (destruct f, e; injection Hr as; congruence).
  subst. lia.
Qed.

Lemma scanstring_facts (n : nat) :
  forall s acc, length s <= n ->
    (forall str r, scanstring s acc = inr (str, r) -> length r <= length s) /\
    (forall e, scanstring s acc = inl e -> decode_error e).
Proof.
  induction n as [|n IH]; intros s acc Hn.
  - destruct s; [|simpl in Hn; lia].
    split; simpl; intros; [discriminate|]. injection H as <-. eexists; reflexivity.
  - destruct s as [|c r]; [split; simpl; intros; [discriminate|];
                           injection H as <-; eexists; reflexivity|].
    simpl in Hn.
    split.
    + intros str r' Hr. cbn [scanstring] in Hr.
      break_in Hr;
        try (injection Hr as <- <-; simpl; lia);
        match type of Hr with
        | scanstring ?t ?a = _ =>
            let L := fresh in
            assert (L : length t <= n) by (subst; simpl in *; lia);
            apply (proj1 (IH t a L)) in Hr; subst; simpl in *; lia
        end.
    + intros e Hr. cbn [scanstring] in Hr.
      break_in Hr;
        try (injection Hr as <-; eexists; reflexivity);
        match type of Hr with
        | scanstring ?t ?a = _ =>
            let L := fresh in
            assert (L : length t <= n) by (subst; simpl in *; lia);
            apply (proj2 (IH t a L)) in Hr; exact Hr
        end.
Qed.

Lemma scanstring_length (s acc : chars) (str : string) (r : chars) :
  scanstring s acc = inr (str, r) -> length r <= length s.
Proof. apply (proj1 (scanstring_facts (length s) s acc (le_n _))). Qed.

Lemma scanstring_error (s acc : chars) (e : exn) :
  scanstring s acc = inl e -> decode_error e.
Proof. apply (proj2 (scanstring_facts (length s) s acc (le_n _))). Qed.

Lemma scan_atom_length (s : chars) (v : json) (r : chars) :
  scan_atom s = inr (v, r) -> length r <= length s.
Proof.
  unfold scan_atom. intros Hr.
  break_in Hr; injection Hr as; subst;
    repeat match goal with
           | H : scanstring _ _ = inr _ |- _ => apply scanstring_length in H
           | H : starts_with _ _ = Some _ |- _ => apply starts_with_length in H
           | H : match_number _ = Some _ |- _ => apply match_number_length in H
           end; simpl in *; lia.
Qed.

Lemma scan_atom_error (s : chars) (e : exn) :
  scan_atom s = inl e -> decode_error e.
Proof.
  unfold scan_atom. intros Hr.
  break_in Hr;
    first [ injection Hr as <-; first [ eapply scanstring_error; eassumption
                                      | eexists; reflexivity ]
          | eexists; reflexivity ].
Qed.

Ltac lengths L1 L2 L3 :=
  repeat match goal with
         | H : inr _ = inr _ |- _ => injection H as; subst
         | H : skip_ws _ = _ |- _ => apply skip_ws_eq_length in H
         | H : scanstring _ _ = inr _ |- _ => apply scanstring_length in H
         | H : scan_atom _ = inr _ |- _ => apply scan_atom_length in H
         | H : scan_once _ _ = inr _ |- _ => apply L1 in H
         | H : object_members _ _ _ = inr _ |- _ => apply L2 in H
         | H : array_elems _ _ _ = inr _ |- _ => apply L3 in H
         end.

Ltac ws_bounds :=
  repeat match goal with
         | H : context [length (skip_ws ?x)] |- _ =>
             let n := fresh "n" in
             let E := fresh "E" in
             pose proof (skip_ws_length x);
             remember (length (skip_ws x)) as n eqn:E; clear E
         | |- context [length (skip_ws ?x)] =>
             let n := fresh "n" in
             let E := fresh "E" in
             pose proof (skip_ws_length x);
             remember (length (skip_ws x)) as n eqn:E; clear E
         end.

Ltac by_length L1 L2 L3 := lengths L1 L2 L3; simpl in *; ws_bounds; lia.

(** The three scanners never give back more than they were given. *)
Lemma scan_length (fuel : nat) :
  (forall s v r, scan_once fuel s = inr (v, r) -> length r <= length s) /\
  (forall acc s v r, object_members fuel acc s = inr (v, r) -> length r <= length s) /\
  (forall acc s v r, array_elems fuel acc s = inr (v, r) -> length r <= length s).
Proof.
  induction fuel as [|fuel (L1 & L2 & L3)].
  - repeat split; intros; discriminate.
  - repeat split.
    + intros s v r Hr. cbn [scan_once] in Hr.
      break_in Hr; by_length L1 L2 L3.
    + intros acc s v r Hr. cbn [object_members] in Hr.
      break_in Hr; by_length L1 L2 L3.
    + intros acc s v r Hr. cbn [array_elems] in Hr.
      break_in Hr; by_length L1 L2 L3.
Qed.

(** With more fuel than twice the input, every failure is a decoding error. *)
Lemma scan_errors (fuel : nat) :
  (forall s e, 2 * length s < fuel -> scan_once fuel s = inl e -> decode_error e) /\
  (forall acc s e, 2 * length s < fuel ->
     object_members fuel acc s = inl e -> decode_error e) /\
  (forall acc s e, 2 * length s + 1 < fuel ->
     array_elems fuel acc s = inl e -> decode_error e).
Proof.
  induction fuel as [|fuel (E1 & E2 & E3)].
  - repeat split; intros; lia.
  - destruct (scan_length fuel) as (L1 & L2 & L3).
    repeat split.
    + intros s e Hf Hr. cbn [scan_once] in Hr.
      break_in Hr;
        first [ eapply scan_atom_error; eassumption
              | eapply E2; [|eassumption]; by_length L1 L2 L3
              | eapply E3; [|eassumption]; by_length L1 L2 L3 ].
    + intros acc s e Hf Hr. cbn [object_members] in Hr.
      break_in Hr;
        first [ injection Hr as <-;
                first [ eapply scanstring_error; eassumption
                      | eexists; reflexivity
                      | eapply E1; [|eassumption]; by_length L1 L2 L3 ]
              | eapply E2; [|eassumption]; by_length L1 L2 L3 ].
    + intros acc s e Hf Hr. cbn [array_elems] in Hr.
      break_in Hr;
        first [ injection Hr as <-;
                first [ eexists; reflexivity
                      | eapply E1; [|eassumption]; by_length L1 L2 L3 ]
              | eapply E3; [|eassumption]; by_length L1 L2 L3 ].
Qed.

(** [loads] raises nothing but [JSONDecodeError]: the bound on the nesting is
    never reached. *)
Lemma loads_error (s : string) (e : exn) :
  Json.loads s = inl e -> decode_error e.
Proof.
  unfold Json.loads. intros Hr. break_in Hr; injection Hr as <-.
  - eapply (proj1 (scan_errors _)); [|eassumption]. unfold fuel_for. lia.
  - eexists; reflexivity.
Qed.

End JsonFacts.

(* ================================================================== *)
(** * The Judge Response Parser *)
(* ================================================================== *)

Module ParserFacts.
Import Experiments Spec.

Section Parser.
Context `{Env}.

Lemma fields_of_dict (d : dict json) (st : State) :
  judge_fields (JObj d) st =
  (inr (mkVerdict (lookup_or_null d "score") (lookup_or_null d "clues")
          (lookup_or_null d "reasoning") (lookup_or_null d "decision type")), st).
Proof. reflexivity. Qed.

Lemma fields_of_sentinel (st : State) :
  judge_fields parse_error_verdict st = (inr sentinel, st).
Proof. reflexivity. Qed.

(** The parser computes [verdict_of] and raises nothing. *)
Lemma judge_parser_verdict (raw : string) (st : State) :
  exists st', judge_parser raw st = (inr (verdict_of raw), st') /\ logged_error st st'.
Proof.
  unfold judge_parser, parse_judge_response, verdict_of, bind, try_except, lift, raise.
  destruct (Re.search_braces raw) as [js|] eqn:Es.
  - destruct (Json.loads js) as [e|v] eqn:El.
    + eexists. split; [reflexivity|]. right. eexists. reflexivity.
    + destruct (ReFacts.search_braces_head _ _ Es) as [t ->].
      destruct (JsonFacts.loads_obj _ _ El) as [d ->].
      exists st. split; [apply fields_of_dict|]. left. reflexivity.
  - eexists. split; [reflexivity|]. right. eexists. reflexivity.
Qed.

Lemma verdict_of_no_match (raw : string) :
  Re.search_braces raw = None -> verdict_of raw = sentinel.
Proof. unfold verdict_of. intros ->. reflexivity. Qed.

Lemma verdict_of_bad_json (raw js : string) (e : exn) :
  Re.search_braces raw = Some js -> Json.loads js = inl e -> verdict_of raw = sentinel.
Proof. unfold verdict_of. intros -> ->. reflexivity. Qed.

Lemma verdict_of_dict (raw js : string) (d : dict json) :
  Re.search_braces raw = Some js -> Json.loads js = inr (JObj d) ->
  verdict_of raw =
  mkVerdict (lookup_or_null d "score") (lookup_or_null d "clues")
    (lookup_or_null d "reasoning") (lookup_or_null d "decision type").
Proof. unfold verdict_of. intros -> ->. reflexivity. Qed.

(** C2. For every input text the Judge Response Parser raises nothing and
    returns a verdict with its four fields; when the text holds no
    brace-delimited substring, or the substring is not valid JSON, the verdict
    is score = null, clues = null, decision type = null and
    reasoning = ["JSON PARSE ERROR"]. *)
Theorem C2_judge_parser_total (raw : string) (st : State) :
  (exists v st', judge_parser raw st = (inr v, st')) /\
  (Re.search_braces raw = None ->
   exists st', judge_parser raw st =
               (inr (mkVerdict JNull JNull (JStr "JSON PARSE ERROR") JNull), st')) /\
  (forall js e,
      Re.search_braces raw = Some js -> Json.loads js = inl e ->
      exists st', judge_parser raw st =
                  (inr (mkVerdict JNull JNull (JStr "JSON PARSE ERROR") JNull), st')).
Proof.
  destruct (judge_parser_verdict raw st) as (st' & Hr & _).
  split; [eauto|]. split.
  - intros Hs. rewrite (verdict_of_no_match _ Hs) in Hr. eauto.
  - intros js e Hs Hl. rewrite (verdict_of_bad_json _ _ _ Hs Hl) in Hr. eauto.
Qed.

(** C3. The parser takes the text from the first opening brace to the last
    closing brace (the greedy match of the pattern, newlines included, braces
    not paired up), decodes it as JSON and reads the four keys, an absent key
    giving null; on the example of the specification it returns score = 1,
    clues = "x", reasoning = "y", decision type = "Explicit signs". *)
Theorem C3_judge_parser_extraction :
  (forall raw,
      Re.search_braces raw =
      option_map string_of_list_ascii
        (Re.first_to_last_brace (list_ascii_of_string raw))) /\
  (forall raw js d st,
      Re.search_braces raw = Some js -> Json.loads js = inr (JObj d) ->
      judge_parser raw st =
      (inr (mkVerdict (lookup_or_null d "score") (lookup_or_null d "clues")
              (lookup_or_null d "reasoning") (lookup_or_null d "decision type")), st)) /\
  (forall (d : dict json) k, dict_get d k = None -> lookup_or_null d k = JNull) /\
  (forall st,
      judge_parser
        (quoted ("prefix {'score': 1, 'clues': 'x', 'reasoning': 'y', " +++
                 "'decision type': 'Explicit signs'} suffix")) st =
      (inr (mkVerdict (JInt 1) (JStr "x") (JStr "y") (JStr "Explicit signs")), st)).
Proof.
  assert (Hd : forall raw js d st,
             Re.search_braces raw = Some js -> Json.loads js = inr (JObj d) ->
             judge_parser raw st =
             (inr (mkVerdict (lookup_or_null d "score") (lookup_or_null d "clues")
                     (lookup_or_null d "reasoning") (lookup_or_null d "decision type")), st)).
  { intros raw js d st Hs Hl.
    unfold judge_parser, parse_judge_response, bind, try_except, lift.
    rewrite Hs, Hl. apply fields_of_dict. }
  split; [|split; [exact Hd|split]].
  - intros raw. unfold Re.search_braces. rewrite ReFacts.search_first_to_last. reflexivity.
  - intros d k Hk. unfold lookup_or_null. rewrite Hk. reflexivity.
  - intros st.
    apply (Hd _ (quoted ("{'score': 1, 'clues': 'x', 'reasoning': 'y', " +++
                          "'decision type': 'Explicit signs'}"))
             [("score", JInt 1); ("clues", JStr "x"); ("reasoning", JStr "y");
              ("decision type", JStr "Explicit signs")]);
      vm_compute; reflexivity.
Qed.

End Parser.

(** C2 on two inputs: no brace at all, and braces around something that is
    not JSON. *)
Lemma C2_witness :
  (exists st', @judge_parser Stub.env "no json here"
                 (Stub.start (Stub.mkWorld [] (inr "x") false [])) =
               (inr (mkVerdict JNull JNull (JStr "JSON PARSE ERROR") JNull), st')) /\
  (exists st', @judge_parser Stub.env "score: {1, 2}"
                 (Stub.start (Stub.mkWorld [] (inr "x") false [])) =
               (inr (mkVerdict JNull JNull (JStr "JSON PARSE ERROR") JNull), st')).
Proof.
  split.
  - apply (proj1 (proj2 (@C2_judge_parser_total Stub.env "no json here" _))).
    reflexivity.
  - apply (proj2 (proj2 (@C2_judge_parser_total Stub.env "score: {1, 2}" _)))
      with (js := "{1, 2}")
           (e := JSONDecodeError "Expecting property name enclosed in double quotes");
      reflexivity.
Defined.

(** C3 on a text with nested braces, a newline and a missing key. *)
Lemma C3_witness :
  @judge_parser Stub.env
    (quoted ("Sure! {'score': -2," +++ nl +++ " 'clues': {'a': 'b'}} Hope that helps :}"))
    (Stub.start (Stub.mkWorld [] (inr "x") false [])) =
  (inr (mkVerdict JNull JNull (JStr "JSON PARSE ERROR") JNull),
   @mkState Stub.env (Stub.mkWorld [] (inr "x") false [])
     [Log ERROR ("Could not parse JSON from judge: Extra data" +++ nl +++ "Raw response: " +++
        quoted ("Sure! {'score': -2," +++ nl +++ " 'clues': {'a': 'b'}} Hope that helps :}"))])
  /\
  @judge_parser Stub.env
    (quoted ("Sure! {'score': -2," +++ nl +++ " 'clues': {'a': 'b'}} Hope that helps."))
    (Stub.start (Stub.mkWorld [] (inr "x") false [])) =
  (inr (mkVerdict (JInt (-2)) (JObj [("a", JStr "b")]) JNull JNull),
   Stub.start (Stub.mkWorld [] (inr "x") false [])).
Proof.
  split.
  - vm_compute. reflexivity.
  - apply (proj1 (proj2 (@C3_judge_parser_extraction Stub.env)))
      with (js := quoted ("{'score': -2," +++ nl +++ " 'clues': {'a': 'b'}}"))
           (d := [("score", JInt (-2)); ("clues", JObj [("a", JStr "b")])]);
      vm_compute; reflexivity.
Defined.

End ParserFacts.

(* ================================================================== *)
(** * The backend adapters *)
(* ================================================================== *)

Module HandlersFacts.
Import Handlers Spec.

Ltac run_monad :=
  unfold bind, ret, try_except, lift, raise, extern, logging, time_sleep, emit.

Lemma sleeps_app (a b : list event) : sleeps (a ++ b) = sleeps a ++ sleeps b.
Proof. apply flat_map_app. Qed.

Lemma count_app (p : event -> bool) (a b : list event) :
  count p (a ++ b) = count p a + count p b.
Proof. unfold count. rewrite filter_app, length_app. reflexivity. Qed.

Section Adapters.
Context `{Env}.

(** One attempt returns the text with status ['ok'] ... *)
Lemma groq_attempt_ok (client : Client) (m sp up : string) (t : Q) (attempt : nat)
    (st : State) (text : string) (w : World) :
  attempt_outcome client m sp up t (world st) = (Some text, w) ->
  groq_attempt client m sp up t attempt st =
  (inr (Some (text, "ok")),
   mkState w (trace st ++ [ApiCall m sp up t;
                           Log INFO ("Groq: Successfully received response for " +++ m +++ ".")])).
Proof.
  unfold attempt_outcome, groq_attempt. run_monad. cbn [world trace].
  destruct (chat_completions_create client m sp up t (world st)) as [[e|c] w'].
  - discriminate.
  - destruct (message_content c) as [e|text']; [discriminate|].
    intros [= -> ->]. cbn. rewrite <- app_assoc. reflexivity.
Qed.

(** ... or, whatever was raised, logs an error, sleeps [2 ** attempt] seconds
    and lets the loop go on. *)
Lemma groq_attempt_fail (client : Client) (m sp up : string) (t : Q) (attempt : nat)
    (st : State) (w : World) :
  attempt_outcome client m sp up t (world st) = (None, w) ->
  exists msg,
    groq_attempt client m sp up t attempt st =
    (inr None, mkState w (trace st ++ [ApiCall m sp up t; Log ERROR msg; Sleep (2 ^ attempt)])).
Proof.
  unfold attempt_outcome, groq_attempt. run_monad. cbn [world trace].
  destruct (chat_completions_create client m sp up t (world st)) as [[e|c] w'].
  - intros [= ->]. eexists. cbn. rewrite <- !app_assoc. reflexivity.
  - destruct (message_content c) as [e|text']; [|discriminate].
    intros [= ->]. eexists. cbn. rewrite <- !app_assoc. reflexivity.
Qed.

(** The retry loop: [k] failed attempts, each followed by its sleep, then
    either a success or, with all attempts spent, the failure sentinel. *)
Lemma groq_attempts_spec (client : Client) (m sp up : string) (t : Q) :
  forall attempts st, exists text status st' delta k,
    groq_attempts client m sp up t attempts st = (inr (text, status), st') /\
    trace st' = trace st ++ delta /\
    k <= length attempts /\
    sleeps delta = map (Nat.pow 2) (firstn k attempts) /\
    count is_warning delta = 0 /\
    ((status = "ok" /\ k < length attempts /\ count is_api_call delta = S k) \/
     (text = "MODEL_FAIL" /\ status = "fail" /\ k = length attempts /\
      count is_api_call delta = k)).
Proof.
  induction attempts as [|a rest IH]; intros st.
  - cbn [groq_attempts]. run_monad.
    eexists _, _, _, _, 0. split; [reflexivity|]. cbn.
    repeat split; try reflexivity. right. repeat split.
  - cbn [groq_attempts]. unfold bind at 1.
    destruct (attempt_outcome client m sp up t (world st)) as [[text|] w] eqn:Eo.
    + rewrite (groq_attempt_ok _ _ _ _ _ _ _ _ _ Eo). unfold ret.
      eexists _, _, _, _, 0. split; [reflexivity|]. cbn.
      repeat split; try reflexivity; try lia. left. repeat split. lia.
    + destruct (groq_attempt_fail _ _ _ _ _ a _ _ Eo) as [msg ->].
      destruct (IH (mkState w (trace st ++ [ApiCall m sp up t; Log ERROR msg; Sleep (2 ^ a)])))
        as (text & status & st' & delta & k & Hr & Ht & Hk & Hs & Hw & Hc).
      exists text, status, st', ([ApiCall m sp up t; Log ERROR msg; Sleep (2 ^ a)] ++ delta), (S k).
      split; [exact Hr|]. cbn [trace] in Ht.
      split; [rewrite Ht, <- app_assoc; reflexivity|].
      split; [simpl; lia|].
      split; [rewrite sleeps_app, Hs; reflexivity|].
      split; [rewrite count_app, Hw; reflexivity|].
      rewrite count_app. cbn [length].
      destruct Hc as [(-> & Hlt & Hc)|(-> & -> & -> & Hc)]; [left|right];
        rewrite Hc; repeat split; cbn; lia.
Qed.

(** [generate_response_groq] never raises. *)
Lemma generate_response_groq_spec (m sp up : string) (t : option Q) (n : option nat)
    (st : State) :
  let retries := match n with Some r => r | None => 3 end in
  exists text status st' delta k,
    generate_response_groq m sp up t n st = (inr (text, status), st') /\
    trace st' = trace st ++ delta /\
    k <= retries /\
    sleeps delta = map (Nat.pow 2) (seq 0 k) /\
    count is_warning delta = 0 /\
    count is_api_call delta <= retries /\
    (status = "ok" \/ (text = "MODEL_FAIL" /\ status = "fail")) /\
    (k = retries -> text = "MODEL_FAIL" /\ status = "fail").
Proof.
  intros retries. unfold generate_response_groq.
  fold retries. unfold try_except, bind at 1.
  destruct (Groq_new (world st)) as [[e|client] w] eqn:Eg.
  - run_monad. cbn [world trace].
    eexists _, _, _, [Log CRITICAL _], 0. split; [reflexivity|].
    split; [reflexivity|]. split; [lia|]. split; [reflexivity|].
    split; [reflexivity|]. split; [unfold count; cbn [filter is_api_call length]; lia|].
    split; [right; split; reflexivity|]. intros _. split; reflexivity.
  - destruct (groq_attempts_spec client m sp up
                (match t with Some t' => t' | None => default_temperature end)
                (seq 0 retries) (mkState w (trace st)))
      as (text & status & st' & delta & k & Hr & Ht & Hk & Hs & Hw & Hc).
    rewrite Hr. rewrite length_seq in *.
    exists text, status, st', delta, k.
    split; [reflexivity|]. split; [exact Ht|]. split; [exact Hk|].
    split.
    { rewrite Hs. f_equal. clear -Hk. revert Hk. generalize 0.
      revert k. induction retries as [|r IHr]; intros [|k] z Hk; cbn; try reflexivity; try lia.
      f_equal. apply IHr. lia. }
    split; [exact Hw|].
    destruct Hc as [(-> & Hlt & Hc)|(-> & -> & -> & Hc)].
    + split; [lia|]. split; [left; reflexivity|]. intros ->. lia.
    + split; [lia|]. split; [right; split; reflexivity|]. intros _. split; reflexivity.
Qed.

(** [HuggingFaceModelHandler.generate_response] never raises either, and
    does not retry. *)
Lemma generate_response_spec (self : HuggingFaceModelHandler) (sp up : string)
    (t : option Q) (st : State) :
  exists text status st' delta,
    generate_response self sp up t st = (inr (text, status), st') /\
    trace st' = trace st ++ delta /\
    count is_warning delta = 0 /\
    (status = "ok" \/ status = "fail").
Proof.
  unfold generate_response.
  destruct (model self) as [mdl|]; [destruct (tokenizer self) as [tok|]|].
  - run_monad. cbn [world trace].
    destruct (hf_sample mdl tok _ _ (world st)) as [[e|text] w].
    + eexists _, _, _, [HfCall _ _ _; Log ERROR _].
      split; [reflexivity|]. cbn [trace]. rewrite <- app_assoc.
      repeat split. right. reflexivity.
    + eexists _, _, _, [HfCall _ _ _].
      split; [reflexivity|]. repeat split. left. reflexivity.
  - run_monad. eexists _, _, _, [Log ERROR _].
    split; [reflexivity|]. repeat split. right. reflexivity.
  - run_monad. eexists _, _, _, [Log ERROR _].
    split; [reflexivity|]. repeat split. right. reflexivity.
Qed.

Lemma warnings_extend (st st' : State) (delta : list event) :
  trace st' = trace st ++ delta -> count is_warning delta = 0 ->
  warnings st' = warnings st.
Proof. unfold warnings. intros -> Hd. rewrite count_app, Hd. lia. Qed.

(** The hosted-API adapter, as [main] hands it to the engine, honours the
    generation contract. *)
Lemma groq_contract : adapter_contract Main.groq.
Proof.
  intros m sp up t st. unfold Main.groq.
  destruct (generate_response_groq_spec m sp up t None st)
    as (text & status & st' & delta & k & Hr & Ht & _ & _ & Hw & _ & Hs & _).
  exists text, status, st'. split; [exact Hr|].
  split; [destruct Hs as [->|[_ ->]]; auto|].
  eapply warnings_extend; eassumption.
Qed.

Lemma generate_response_contract (self : HuggingFaceModelHandler) (sp up : string)
    (t : option Q) (st : State) :
  exists text status st',
    generate_response self sp up t st = (inr (text, status), st') /\
    (status = "ok" \/ status = "fail") /\
    warnings st' = warnings st.
Proof.
  destruct (generate_response_spec self sp up t st)
    as (text & status & st' & delta & Hr & Ht & Hw & Hs).
  exists text, status, st'. split; [exact Hr|]. split; [exact Hs|].
  eapply warnings_extend; eassumption.
Qed.

(** [k] failed attempts in a row: the loop makes [k] calls, sleeps after each
    of them, and goes on with the attempts that are left. *)
Lemma groq_attempts_failed (client : Client) (m sp up : string) (t : Q) :
  forall k a rest st w1,
    failed_attempts client m sp up t k (world st) = Some w1 ->
    exists delta,
      groq_attempts client m sp up t (seq a k ++ rest) st =
      groq_attempts client m sp up t rest (mkState w1 (trace st ++ delta)) /\
      sleeps delta = map (Nat.pow 2) (seq a k) /\
      count is_api_call delta = k.
Proof.
  induction k as [|k IH]; intros a rest st w1 Hf.
  - injection Hf as <-. exists []. rewrite app_nil_r. destruct st. repeat split.
  - cbn [failed_attempts] in Hf.
    destruct (attempt_outcome client m sp up t (world st)) as [[text|] w] eqn:Eo;
      [discriminate|].
    cbn [seq app groq_attempts]. unfold bind at 1.
    destruct (groq_attempt_fail _ _ _ _ _ a _ _ Eo) as [msg ->].
    destruct (IH (S a) rest
                (mkState w (trace st ++ [ApiCall m sp up t; Log ERROR msg; Sleep (2 ^ a)]))
                w1 Hf) as (delta & Hr & Hs & Hc).
    exists ([ApiCall m sp up t; Log ERROR msg; Sleep (2 ^ a)] ++ delta).
    rewrite Hr. cbn [trace]. rewrite <- app_assoc.
    split; [reflexivity|]. split.
    + rewrite sleeps_app, Hs. reflexivity.
    + rewrite count_app, Hc. reflexivity.
Qed.

(** When all [n] attempts fail, the adapter returns the failure sentinel,
    after [n] calls and [n] sleeps. *)
Lemma groq_run_exhausted (m sp up : string) (t : Q) (n : nat) (st : State)
    (client : Client) (w0 w1 : World) :
  Groq_new (world st) = (inr client, w0) ->
  failed_attempts client m sp up t n w0 = Some w1 ->
  exists st' delta,
    generate_response_groq m sp up (Some t) (Some n) st =
    (inr ("MODEL_FAIL", "fail"), st') /\
    world st' = w1 /\
    trace st' = trace st ++ delta /\
    sleeps delta = map (Nat.pow 2) (seq 0 n) /\
    count is_api_call delta = n.
Proof.
  intros Hg Hf. unfold generate_response_groq, try_except, bind at 1. rewrite Hg.
  destruct (groq_attempts_failed client m sp up t n 0 [] (mkState w0 (trace st)) w1 Hf)
    as (delta & Hr & Hs & Hc).
  rewrite app_nil_r in Hr. rewrite Hr. cbn [groq_attempts]. run_monad. cbn [world trace].
  eexists _, (delta ++ [Log CRITICAL _]). split; [reflexivity|]. cbn [world trace].
  split; [reflexivity|]. split; [rewrite app_assoc; reflexivity|].
  rewrite sleeps_app, count_app, Hs, Hc. cbn. rewrite app_nil_r.
  split; [reflexivity|lia].
Qed.

(** When [k < n] attempts fail and the next one succeeds with [text], the
    adapter returns [text] with status ['ok'], after [k + 1] calls and [k]
    sleeps. *)
Lemma groq_run_success (m sp up : string) (t : Q) (n k : nat) (st : State)
    (client : Client) (w0 w1 w2 : World) (text : string) :
  Groq_new (world st) = (inr client, w0) ->
  k < n ->
  failed_attempts client m sp up t k w0 = Some w1 ->
  attempt_outcome client m sp up t w1 = (Some text, w2) ->
  exists st' delta,
    generate_response_groq m sp up (Some t) (Some n) st = (inr (text, "ok"), st') /\
    world st' = w2 /\
    trace st' = trace st ++ delta /\
    sleeps delta = map (Nat.pow 2) (seq 0 k) /\
    count is_api_call delta = S k.
Proof.
  intros Hg Hk Hf Ho. unfold generate_response_groq, try_except, bind at 1. rewrite Hg.
  replace n with (k + S (n - S k)) by lia. rewrite seq_app. cbn [seq].
  destruct (groq_attempts_failed client m sp up t k 0
              ((0 + k) :: seq (S (0 + k)) (n - S k)) (mkState w0 (trace st)) w1 Hf)
    as (delta & Hr & Hs & Hc).
  rewrite Hr. cbn [groq_attempts]. unfold bind at 1.
  rewrite (groq_attempt_ok client m sp up t (0 + k)
             (mkState w1 (trace (mkState w0 (trace st)) ++ delta)) text w2 Ho).
  unfold ret. cbn [world trace].
  eexists _, (delta ++ [ApiCall m sp up t; Log INFO _]). split; [reflexivity|].
  cbn [world trace].
  split; [reflexivity|]. split; [rewrite app_assoc; reflexivity|].
  rewrite sleeps_app, count_app, Hs, Hc. cbn. rewrite app_nil_r.
  split; [reflexivity|lia].
Qed.

(** C5. The hosted-API adapter never raises to its caller, whatever is raised
    while the client is built or during an attempt: it always returns a text
    and a status, after at most 3 calls and sleeps of 1, 2 and 4 seconds in
    this order.  What it returns follows the attempts, an attempt failing when
    anything at all is raised in it:
    - when the first two attempts fail and the third succeeds with [text], it
      returns [text] with status ['ok'] after three calls and two sleeps of 1
      and 2 seconds;
    - when all three attempts fail, it returns ["MODEL_FAIL"] with status
      ['fail'], after three calls and sleeps of 1, 2 and 4 seconds;
    - when the first attempt succeeds, it returns its text with status ['ok']
      after one call and no sleep;
    - when the first attempt fails and the second succeeds, it returns the
      text of the second with status ['ok'] after two calls and one sleep of
      1 second;
    - when the client cannot be built, it returns ["MODEL_FAIL"] with status
      ['fail'] without any call or sleep. *)
Theorem C5_hosted_adapter_retries :
  (forall m sp up t st, exists text status st' delta k,
      generate_response_groq m sp up t None st = (inr (text, status), st') /\
      trace st' = trace st ++ delta /\
      count is_api_call delta <= 3 /\
      k <= 3 /\
      sleeps delta = firstn k [1; 2; 4] /\
      (status = "ok" \/ (text = "MODEL_FAIL" /\ status = "fail")) /\
      (k = 3 -> text = "MODEL_FAIL" /\ status = "fail")) /\
  (forall m sp up t st client w0 w1 w2 w3 text,
      Groq_new (world st) = (inr client, w0) ->
      attempt_outcome client m sp up t w0 = (None, w1) ->
      attempt_outcome client m sp up t w1 = (None, w2) ->
      attempt_outcome client m sp up t w2 = (Some text, w3) ->
      exists st' delta,
        generate_response_groq m sp up (Some t) None st = (inr (text, "ok"), st') /\
        world st' = w3 /\
        trace st' = trace st ++ delta /\
        sleeps delta = [1; 2] /\
        count is_api_call delta = 3) /\
  (forall m sp up t st client w0 w1 w2 w3,
      Groq_new (world st) = (inr client, w0) ->
      attempt_outcome client m sp up t w0 = (None, w1) ->
      attempt_outcome client m sp up t w1 = (None, w2) ->
      attempt_outcome client m sp up t w2 = (None, w3) ->
      exists st' delta,
        generate_response_groq m sp up (Some t) None st =
        (inr ("MODEL_FAIL", "fail"), st') /\
        world st' = w3 /\
        trace st' = trace st ++ delta /\
        sleeps delta = [1; 2; 4] /\
        count is_api_call delta = 3) /\
  (forall m sp up t st client w0 w1 text,
      Groq_new (world st) = (inr client, w0) ->
      attempt_outcome client m sp up t w0 = (Some text, w1) ->
      exists st' delta,
        generate_response_groq m sp up (Some t) None st = (inr (text, "ok"), st') /\
        world st' = w1 /\
        trace st' = trace st ++ delta /\
        sleeps delta = [] /\
        count is_api_call delta = 1) /\
  (forall m sp up t st client w0 w1 w2 text,
      Groq_new (world st) = (inr client, w0) ->
      attempt_outcome client m sp up t w0 = (None, w1) ->
      attempt_outcome client m sp up t w1 = (Some text, w2) ->
      exists st' delta,
        generate_response_groq m sp up (Some t) None st = (inr (text, "ok"), st') /\
        world st' = w2 /\
        trace st' = trace st ++ delta /\
        sleeps delta = [1] /\
        count is_api_call delta = 2) /\
  (forall m sp up t st e w,
      Groq_new (world st) = (inl e, w) ->
      exists st' delta,
        generate_response_groq m sp up t None st = (inr ("MODEL_FAIL", "fail"), st') /\
        world st' = w /\
        trace st' = trace st ++ delta /\
        sleeps delta = [] /\
        count is_api_call delta = 0).
Proof.
  split; [|split; [|split; [|split; [|split]]]].
  - intros m sp up t st.
    destruct (generate_response_groq_spec m sp up t None st)
      as (text & status & st' & delta & k & Hr & Ht & Hk & Hs & _ & Hc & Hst & Hex).
    cbn in Hk, Hc, Hex.
    exists text, status, st', delta, k.
    repeat (split; [assumption|]).
    split; [|split; assumption].
    rewrite Hs. destruct k as [|[|[|[|k]]]]; try reflexivity. lia.
  - intros m sp up t st client w0 w1 w2 w3 text Hg H1 H2 H3.
    apply (groq_run_success m sp up t 3 2 st client w0 w2 w3 text Hg); [lia| |exact H3].
    cbn [failed_attempts]. rewrite H1, H2. reflexivity.
  - intros m sp up t st client w0 w1 w2 w3 Hg H1 H2 H3.
    apply (groq_run_exhausted m sp up t 3 st client w0 w3 Hg).
    cbn [failed_attempts]. rewrite H1, H2, H3. reflexivity.
  - intros m sp up t st client w0 w1 text Hg H1.
    apply (groq_run_success m sp up t 3 0 st client w0 w0 w1 text Hg); [lia| |exact H1].
    reflexivity.
  - intros m sp up t st client w0 w1 w2 text Hg H1 H2.
    apply (groq_run_success m sp up t 3 1 st client w0 w1 w2 text Hg); [lia| |exact H2].
    cbn [failed_attempts]. rewrite H1. reflexivity.
  - intros m sp up t st e w Hg.
    unfold generate_response_groq, try_except, bind at 1. rewrite Hg.
    run_monad. cbn [world trace].
    eexists _, [Log CRITICAL _]. repeat split.
Qed.

End Adapters.

(** The scenarios of C5 on the scripted world: two time-outs, then a text;
    and three time-outs. *)
Lemma C5_witness :
  (exists st' delta,
     @generate_response_groq Stub.env "llama-3.1-8b-instant" "system" "user"
       (Some (7 # 10)%Q) None
       (Stub.start (Stub.mkWorld [inl Stub.timeout; inl Stub.timeout; inr "I agree"]
                      (inr "later") false []))
     = (inr ("I agree", "ok"), st') /\
     world st' = Stub.mkWorld [] (inr "later") false [] /\
     trace st' = [] ++ delta /\
     sleeps delta = [1; 2] /\
     count is_api_call delta = 3) /\
  (exists st' delta,
     @generate_response_groq Stub.env "llama-3.1-8b-instant" "system" "user"
       (Some (7 # 10)%Q) None
       (Stub.start (Stub.mkWorld [inl Stub.timeout; inl Stub.timeout; inl Stub.timeout]
                      (inr "later") false []))
     = (inr ("MODEL_FAIL", "fail"), st') /\
     world st' = Stub.mkWorld [] (inr "later") false [] /\
     trace st' = [] ++ delta /\
     sleeps delta = [1; 2; 4] /\
     count is_api_call delta = 3).
Proof.
  split.
  - apply (proj1 (proj2 (@C5_hosted_adapter_retries Stub.env))) with
      (client := tt)
      (w0 := Stub.mkWorld [inl Stub.timeout; inl Stub.timeout; inr "I agree"]
               (inr "later") false [])
      (w1 := Stub.mkWorld [inl Stub.timeout; inr "I agree"] (inr "later") false [])
      (w2 := Stub.mkWorld [inr "I agree"] (inr "later") false []);
      reflexivity.
  - apply (proj1 (proj2 (proj2 (@C5_hosted_adapter_retries Stub.env)))) with
      (client := tt)
      (w0 := Stub.mkWorld [inl Stub.timeout; inl Stub.timeout; inl Stub.timeout]
               (inr "later") false [])
      (w1 := Stub.mkWorld [inl Stub.timeout; inl Stub.timeout] (inr "later") false [])
      (w2 := Stub.mkWorld [inl Stub.timeout] (inr "later") false []);
      reflexivity.
Defined.

End HandlersFacts.

(* ================================================================== *)
(** * Lists: subsequences and tagged concatenations *)
(* ================================================================== *)

Module ListFacts.
Import Spec.

Section Subseq.
Context {A : Type}.
Implicit Types l : list A.

Lemma subseq_refl l : subseq l l.
Proof. induction l; constructor; assumption. Qed.

Lemma subseq_nil_l l : subseq [] l.
Proof. induction l; constructor; assumption. Qed.

Lemma subseq_app l1 l2 m1 m2 :
  subseq l1 m1 -> subseq l2 m2 -> subseq (l1 ++ l2) (m1 ++ m2).
Proof.
  induction 1; intros H2; cbn.
  - exact H2.
  - apply subseq_skip. auto.
  - apply subseq_keep. auto.
Qed.

Lemma subseq_length l m : subseq l m -> length l <= length m.
Proof. induction 1; cbn; lia. Qed.

Lemma subseq_In l m x : subseq l m -> In x l -> In x m.
Proof.
  induction 1; cbn; intros Hx; auto.
  destruct Hx; auto.
Qed.

Lemma subseq_NoDup l m : subseq l m -> NoDup m -> NoDup l.
Proof.
  induction 1; intros Hm; auto.
  - inversion Hm; auto.
  - inversion Hm; subst. constructor; auto.
    intros Hx. eauto using subseq_In.
Qed.

End Subseq.

Lemma flat_map_length_const {A B} (f : A -> list B) (xs : list A) (k : nat) :
  (forall x, In x xs -> length (f x) = k) -> length (flat_map f xs) = length xs * k.
Proof.
  induction xs as [|x xs IH]; intros Hk; cbn [flat_map length]; [reflexivity|].
  rewrite length_app, (Hk x (or_introl eq_refl)), IH.
  - cbn. reflexivity.
  - intros y Hy. apply Hk. right. exact Hy.
Qed.

Lemma NoDup_map_injective {A B} (f : A -> B) (l : list A) :
  (forall x y, f x = f y -> x = y) -> NoDup l -> NoDup (map f l).
Proof.
  intros Hf. induction 1 as [|x l Hx Hl IH]; cbn; constructor; [|exact IH].
  intros Hin. apply in_map_iff in Hin as (y & Hy & Hin).
  apply Hf in Hy. subst. contradiction.
Qed.

(** A concatenation of duplicate-free blocks is duplicate-free when every
    element carries the tag of its block and the tags are pairwise distinct. *)
Lemma NoDup_flat_map_tagged {A B K} (key : A -> K) (tag : B -> K)
    (f : A -> list B) (xs : list A) :
  NoDup (map key xs) ->
  (forall x, In x xs -> NoDup (f x)) ->
  (forall x y, In x xs -> In y (f x) -> tag y = key x) ->
  NoDup (flat_map f xs).
Proof.
  induction xs as [|x xs IH]; cbn; intros Hk Hf Ht; [constructor|].
  inversion Hk as [|? ? Hnot Hk']; subst.
  apply NoDup_app.
  - apply Hf. auto.
  - apply IH; auto.
  - intros y Hy Hy'. apply in_flat_map in Hy' as (x' & Hx' & Hy').
    apply Hnot. rewrite <- (Ht x y), (Ht x' y) by auto.
    apply in_map. exact Hx'.
Qed.

End ListFacts.

(* ================================================================== *)
(** * The Trait-Generation-and-Judging sweep *)
(* ================================================================== *)

Module GenerationFacts.
Import Experiments Spec HandlersFacts ParserFacts.

Section Generation.
Context `{Env}.
Variable hf_handlers : dict Handlers.HuggingFaceModelHandler.
Variable groq_generate_func : string -> string -> string -> option Q -> M (string * string).
Variable judge_model_id : string.
Variable traits_definitions : traits.

Abbreviation dispatch := (dispatch_generate hf_handlers groq_generate_func).
Abbreviation body :=
  (generation_body hf_handlers groq_generate_func judge_model_id traits_definitions).
Abbreviation judge_call := (Spec.judge_call groq_generate_func judge_model_id).

(** Neither branch of the dispatch runs for a handler kind it does not know. *)
Lemma dispatch_unrecognised (model_key : string) (info : model_info) (sp up : string)
    (l : gen_locals) (st : State) :
  handler info <> "groq" -> handler info <> "hf" ->
  dispatch model_key info sp up l st = (inr l, st).
Proof.
  intros Hg Hh. unfold dispatch_generate.
  destruct (String.eqb_spec (handler info) "groq"); [contradiction|].
  destruct (String.eqb_spec (handler info) "hf"); [contradiction|].
  reflexivity.
Qed.

Lemma dispatch_recognised (model_key : string) (info : model_info) (sp up : string)
    (l : gen_locals) (st : State) :
  adapter_contract groq_generate_func ->
  recognised hf_handlers model_key info ->
  exists text status st1,
    dispatch model_key info sp up l st =
    (inr (mkGenLocals (results_list l) (current_generation l) (Some (text, status))), st1) /\
    (status = "ok" \/ status = "fail") /\
    warnings st1 = warnings st.
Proof.
  intros Hc [Hg|[Hh [h Hk]]]; unfold dispatch_generate.
  - rewrite Hg. cbn [String.eqb Ascii.eqb Bool.eqb]. cbv iota.
    destruct (Hc (model_id info) sp up None st) as (text & status & st1 & Hr & Hs & Hw).
    exists text, status, st1. unfold bind. rewrite Hr. auto.
  - rewrite Hh. cbn [String.eqb Ascii.eqb Bool.eqb]. cbv iota.
    unfold subscript. rewrite Hk. unfold bind at 1, ret at 1.
    destruct (generate_response_contract h sp up None st)
      as (text & status & st1 & Hr & Hs & Hw).
    exists text, status, st1. unfold bind. rewrite Hr. auto.
Qed.

Section Body.
Variables (model_key : string) (info : model_info) (trait_key : string)
  (tg : trait_gen) (n : nat) (question : string).
Variables (l0 l1 : gen_locals) (st st1 : State) (text status : string).

Hypothesis dispatched :
  dispatch model_key info (system_prompt_generate_of (name tg) n tg)
    (user_prompt_generate_of question) (entered l0) st = (inr l1, st1).
Hypothesis bound : generated l1 = Some (text, status).

(** A failed generation: a warning, no row. *)
Lemma body_generation_failed :
  status = "fail" ->
  body model_key info trait_key tg n question l0 st =
  (inr l1, warn st1 ("Failed to generate text for " +++ model_key
                     +++ " on question: " +++ question)).
Proof.
  intros ->. unfold generation_body. fold (entered l0).
  unfold bind at 1. rewrite dispatched.
  unfold bind at 1, read_generated. rewrite bound. unfold ret at 1.
  cbn [String.eqb Ascii.eqb Bool.eqb]. cbv iota.
  reflexivity.
Qed.

Variables (tc : trait_class) (jraw jstatus : string) (st2 : State).
Hypothesis trait_known : dict_get (classification traits_definitions) trait_key = Some tc.
Hypothesis judged : judge_call (name tg) tc question text st1 = (inr (jraw, jstatus), st2).

(** A failed judge call: a warning, no row. *)
Lemma body_judge_failed :
  status <> "fail" -> jstatus = "fail" ->
  body model_key info trait_key tg n question l0 st =
  (inr l1, warn st2 ("Judge model failed to evaluate text from " +++ model_key)).
Proof.
  intros Hs ->. unfold generation_body. fold (entered l0).
  unfold bind at 1. rewrite dispatched.
  unfold bind at 1, read_generated. rewrite bound. unfold ret at 1.
  destruct (String.eqb_spec status "fail"); [contradiction|].
  unfold bind at 1, subscript. rewrite trait_known. unfold ret at 1.
  unfold bind at 1. unfold Spec.judge_call in judged. rewrite judged.
  cbn [String.eqb Ascii.eqb Bool.eqb]. cbv iota.
  reflexivity.
Qed.

(** Both calls succeeded: one row, built from the coordinate, the generated
    text and the verdict read off the judge's raw text. *)
Lemma body_row :
  status <> "fail" -> jstatus <> "fail" ->
  exists st3,
    body model_key info trait_key tg n question l0 st =
    (inr (mkGenLocals
            (results_list l1 ++
               [row_of (model_key, name tg, n, question) (model_id info) text
                  (verdict_of jraw)])
            (current_generation l1) (generated l1)), st3) /\
    logged_error st2 st3.
Proof.
  intros Hs Hj. unfold generation_body. fold (entered l0).
  unfold bind at 1. rewrite dispatched.
  unfold bind at 1, read_generated. rewrite bound. unfold ret at 1.
  destruct (String.eqb_spec status "fail"); [contradiction|].
  unfold bind at 1, subscript. rewrite trait_known. unfold ret at 1.
  unfold bind at 1. unfold Spec.judge_call in judged. rewrite judged.
  destruct (String.eqb_spec jstatus "fail"); [contradiction|].
  destruct (judge_parser_verdict jraw st2) as (st3 & Hp & Hl).
  unfold judge_parser in Hp.
  exists st3. split; [|exact Hl].
  unfold bind at 1. unfold bind at 1 in Hp.
  destruct (parse_judge_response jraw st2) as [[e|jr] st2'].
  - discriminate.
  - unfold bind at 1. rewrite Hp. reflexivity.
Qed.

End Body.

Lemma warnings_warn (st : State) (msg : string) : warnings (warn st msg) = S (warnings st).
Proof.
  unfold warnings, warn. cbn [trace]. rewrite count_app. cbn. lia.
Qed.

Lemma warnings_logged_error (st st' : State) : logged_error st st' -> warnings st' = warnings st.
Proof.
  intros [->|[msg ->]]; [reflexivity|].
  unfold warnings. cbn [trace]. rewrite count_app. cbn. lia.
Qed.

Lemma warnings_log (st : State) (lv : level) (msg : string) :
  lv <> WARNING ->
  warnings (mkState (world st) (trace st ++ [Log lv msg])) = warnings st.
Proof.
  intros Hl. unfold warnings. cbn [trace]. rewrite count_app.
  destruct lv; try contradiction; cbn; lia.
Qed.

(** One pass of the innermost loop, for a roster entry the dispatch knows. *)
Lemma body_step (model_key : string) (info : model_info) (trait_key : string)
    (tg : trait_gen) (n : nat) (question : string) :
  adapter_contract groq_generate_func ->
  recognised hf_handlers model_key info ->
  dict_get (classification traits_definitions) trait_key <> None ->
  forall l0 st, exists l' st',
    body model_key info trait_key tg n question l0 st = (inr l', st') /\
    gen_step (model_key, name tg, n, question) (model_id info)
      l0 (warnings st) l' (warnings st').
Proof.
  intros Hc Hr Ht l0 st.
  destruct (dispatch_recognised model_key info
              (system_prompt_generate_of (name tg) n tg) (user_prompt_generate_of question)
              (entered l0) st Hc Hr) as (text & status & st1 & Hd & Hs & Hw).
  destruct Hs as [-> | ->].
  - destruct (dict_get (classification traits_definitions) trait_key) as [tc|] eqn:Etc;
      [|contradiction].
    destruct (Hc judge_model_id (system_prompt_judge_of (name tg) tc)
                (user_prompt_judge_of question text) (Some 0%Q) st1)
      as (jraw & jstatus & st2 & Hj & Hjs & Hjw).
    destruct Hjs as [-> | ->].
    + destruct (body_row model_key info trait_key tg n question l0 _ st st1 text "ok"
                  Hd eq_refl tc jraw "ok" st2 Etc Hj) as (st3 & Hb & Hl);
        [discriminate|discriminate|].
      eexists _, st3. split; [exact Hb|].
      split; [cbn; lia|]. right. exists text, jraw. split; [reflexivity|].
      rewrite (warnings_logged_error _ _ Hl). congruence.
    + eexists _, _. split.
      * eapply body_judge_failed; try eassumption; try reflexivity. discriminate.
      * split; [cbn; lia|]. left. split; [reflexivity|].
        rewrite warnings_warn. congruence.
  - eexists _, _. split.
    + eapply body_generation_failed; try eassumption; reflexivity.
    + split; [cbn; lia|]. left. split; [reflexivity|].
      rewrite warnings_warn. congruence.
Qed.
Lemma coord_of_row_of (c : coord) (mid text : string) (v : verdict) :
  coord_of (row_of c mid text v) = c.
Proof. destruct c as [[[mk tn] n] q]. reflexivity. Qed.

Lemma gen_sweep_nil (l : gen_locals) (w : nat) : gen_sweep [] l w l w.
Proof.
  exists []. rewrite app_nil_r. repeat split; try constructor; cbn; lia.
Qed.

Lemma gen_sweep_one (c : coord) (mid : string) (l : gen_locals) (w : nat)
    (l' : gen_locals) (w' : nat) :
  gen_step c mid l w l' w' -> gen_sweep [c] l w l' w'.
Proof.
  intros [Hc [[Hr ->]|(text & raw & Hr & ->)]].
  - exists []. rewrite app_nil_r. repeat split; auto.
    + cbn. apply ListFacts.subseq_nil_l.
    + cbn. lia.
    + cbn. lia.
  - exists [row_of c mid text (verdict_of raw)]. repeat split; auto.
    + cbn. rewrite coord_of_row_of. apply ListFacts.subseq_refl.
    + cbn. lia.
    + cbn. lia.
Qed.

Lemma gen_sweep_app (cs1 cs2 : list coord) (l : gen_locals) (w : nat)
    (l1 : gen_locals) (w1 : nat) (l2 : gen_locals) (w2 : nat) :
  gen_sweep cs1 l w l1 w1 -> gen_sweep cs2 l1 w1 l2 w2 ->
  gen_sweep (cs1 ++ cs2) l w l2 w2.
Proof.
  intros (n1 & Hr1 & Hs1 & Hw1 & Hc1) (n2 & Hr2 & Hs2 & Hw2 & Hc2).
  exists (n1 ++ n2). repeat split.
  - rewrite Hr2, Hr1, app_assoc. reflexivity.
  - rewrite map_app. apply ListFacts.subseq_app; assumption.
  - rewrite !length_app. lia.
  - rewrite length_app. lia.
Qed.

(** A loop whose passes visit the coordinates [cs x] visits their
    concatenation. *)
Lemma for_each_sweep {A} (xs : list A) (pass : A -> gen_locals -> M gen_locals)
    (cs : A -> list coord) :
  (forall x, In x xs -> forall l st, exists l' st',
      pass x l st = (inr l', st') /\ gen_sweep (cs x) l (warnings st) l' (warnings st')) ->
  forall l st, exists l' st',
    for_each xs pass l st = (inr l', st') /\
    gen_sweep (flat_map cs xs) l (warnings st) l' (warnings st').
Proof.
  induction xs as [|x xs IH]; intros Hp l st.
  - exists l, st. split; [reflexivity|]. apply gen_sweep_nil.
  - destruct (Hp x (or_introl eq_refl) l st) as (l1 & st1 & Hr1 & Hs1).
    destruct (IH (fun y Hy => Hp y (or_intror Hy)) l1 st1) as (l2 & st2 & Hr2 & Hs2).
    exists l2, st2. split.
    + cbn [for_each]. unfold bind. rewrite Hr1. exact Hr2.
    + cbn [flat_map]. eapply gen_sweep_app; eassumption.
Qed.

Lemma flat_map_singleton {A B} (f : A -> B) (xs : list A) :
  flat_map (fun x => [f x]) xs = map f xs.
Proof. induction xs; cbn; congruence. Qed.

(** The four nested loops visit [all_coords], in this order. *)
Lemma generation_loops_spec (models_to_test : dict model_info) (questions : list string) :
  adapter_contract groq_generate_func ->
  roster_ok hf_handlers models_to_test ->
  traits_ok traits_definitions ->
  forall l st, exists l' st',
    generation_loops models_to_test hf_handlers groq_generate_func judge_model_id
      traits_definitions questions l st = (inr l', st') /\
    gen_sweep (all_coords models_to_test traits_definitions questions)
      l (warnings st) l' (warnings st').
Proof.
  intros Hc Hr Ht. unfold generation_loops, all_coords.
  apply for_each_sweep. intros [model_key info] Hm l st.
  unfold bind, logging, emit.
  set (st0 := mkState (world st) (trace st ++ [Log INFO _])).
  assert (Hw : warnings st0 = warnings st) by (apply warnings_log; discriminate).
  rewrite <- Hw. cbn [fst snd].
  apply for_each_sweep. intros [trait_key tg] Htg l1 st1. cbn [fst snd].
  apply for_each_sweep. intros n Hn l2 st2.
  rewrite <- flat_map_singleton.
  apply for_each_sweep. intros question Hq l3 st3.
  destruct (body_step model_key info trait_key tg n question Hc (Hr _ _ Hm) (Ht _ _ Htg) l3 st3)
    as (l' & st' & Hb & Hs).
  exists l', st'. split; [exact Hb|]. eapply gen_sweep_one, Hs.
Qed.

Lemma all_coords_length (models_to_test : dict model_info) (td : traits)
    (questions : list string) :
  length (all_coords models_to_test td questions) =
  length models_to_test * length (generation td) * 5 * length questions.
Proof.
  unfold all_coords.
  rewrite (ListFacts.flat_map_length_const _ _ (length (generation td) * 5 * length questions)).
  - lia.
  - intros m _.
    rewrite (ListFacts.flat_map_length_const _ _ (5 * length questions)); [lia|].
    intros t _.
    rewrite (ListFacts.flat_map_length_const _ _ (length questions)); [reflexivity|].
    intros k _. apply length_map.
Qed.

(** [run_text_generation_experiment] returns a table; its rows sit at pairwise
    different positions of the iteration space, in iteration order, and every
    position without a row has its warning in the log. *)
Lemma run_text_generation_spec (models_to_test : dict model_info) (questions : list string) :
  adapter_contract groq_generate_func ->
  roster_ok hf_handlers models_to_test ->
  traits_ok traits_definitions ->
  forall st, exists rows st',
    run_text_generation_experiment models_to_test hf_handlers groq_generate_func
      judge_model_id traits_definitions questions st = (inr rows, st') /\
    subseq (map coord_of rows) (all_coords models_to_test traits_definitions questions) /\
    length rows + warnings st' =
      warnings st + total_generations models_to_test traits_definitions questions.
Proof.
  intros Hc Hr Ht st. unfold run_text_generation_experiment.
  unfold bind at 1, logging at 1, emit.
  set (st0 := mkState (world st) (trace st ++ [Log INFO _])).
  assert (Hw0 : warnings st0 = warnings st) by (apply warnings_log; discriminate).
  destruct (generation_loops_spec models_to_test questions Hc Hr Ht (mkGenLocals [] 0 None) st0)
    as (l' & st' & Hl & new & Hrows & Hsub & Hcount & _).
  unfold bind at 1. rewrite Hl.
  unfold bind at 1, logging, emit, ret.
  eexists _, _. split; [reflexivity|].
  cbn [results_list app] in Hrows. rewrite Hrows.
  split; [exact Hsub|].
  rewrite warnings_log by discriminate.
  rewrite Hcount, Hw0. f_equal.
  unfold total_generations. apply all_coords_length.
Qed.

End Generation.
End GenerationFacts.

(* ================================================================== *)
(** * The Questionnaire sweep *)
(* ================================================================== *)

Module QuestionnaireFacts.
Import Experiments Spec HandlersFacts.

Section Questionnaire.
Context `{Env}.
Variable hf_handlers : dict Handlers.HuggingFaceModelHandler.
Variable groq_generate_func : string -> string -> string -> option Q -> M (string * string).

Abbreviation dispatch := (dispatch_answer hf_handlers groq_generate_func).
Abbreviation body := (questionnaire_body hf_handlers groq_generate_func).

Lemma dispatch_answer_unrecognised (model_key : string) (info : model_info)
    (sp up : string) (l : q_locals) (st : State) :
  handler info <> "groq" -> handler info <> "hf" ->
  dispatch model_key info sp up l st = (inr l, st).
Proof.
  intros Hg Hh. unfold dispatch_answer.
  destruct (String.eqb_spec (handler info) "groq"); [contradiction|].
  destruct (String.eqb_spec (handler info) "hf"); [contradiction|].
  reflexivity.
Qed.

Lemma dispatch_answer_recognised (model_key : string) (info : model_info)
    (sp up : string) (l : q_locals) (st : State) :
  adapter_contract groq_generate_func ->
  recognised hf_handlers model_key info ->
  exists text status st1,
    dispatch model_key info sp up l st =
    (inr (mkQLocals (questionnaire_results_list l) (current_q_generation l)
            (Some (text, status))), st1) /\
    (status = "ok" \/ status = "fail").
Proof.
  intros Hc [Hg|[Hh [h Hk]]]; unfold dispatch_answer.
  - rewrite Hg. cbn [String.eqb Ascii.eqb Bool.eqb]. cbv iota.
    destruct (Hc (model_id info) sp up (Some (7 # 10)%Q) st)
      as (text & status & st1 & Hr & Hs & Hw).
    exists text, status, st1. unfold bind. rewrite Hr. auto.
  - rewrite Hh. cbn [String.eqb Ascii.eqb Bool.eqb]. cbv iota.
    unfold subscript. rewrite Hk. unfold bind at 1, ret at 1.
    destruct (generate_response_contract h sp up None st)
      as (text & status & st1 & Hr & Hs & Hw).
    exists text, status, st1. unfold bind. rewrite Hr. auto.
Qed.

(** The body after its dispatch: a row exactly for status ['ok']. *)
Lemma body_after_dispatch (model_key : string) (info : model_info)
    (trait_name level system_prompt : string) (question_set : item)
    (l l1 : q_locals) (st st1 : State) (text status : string) :
  dispatch model_key info system_prompt (questionnaire_user_prompt_of question_set) l st
    = (inr l1, st1) ->
  answered l1 = Some (text, status) ->
  body model_key info trait_name level system_prompt question_set l st =
  (inr (if String.eqb status "ok"
        then mkQLocals
               (questionnaire_results_list l1 ++
                  [QRow.mk model_key trait_name level (q_type question_set) text])
               (current_q_generation l1) (answered l1)
        else l1), st1).
Proof.
  intros Hd Ha. unfold questionnaire_body.
  unfold bind at 1. rewrite Hd.
  unfold bind at 1, read_answered. rewrite Ha. unfold ret at 1.
  destruct (String.eqb status "ok"); reflexivity.
Qed.

(** A loop whose passes append the rows [out x] appends their concatenation. *)
Lemma for_each_rows {A} (xs : list A) (pass : A -> q_locals -> M q_locals)
    (out : A -> list QRow.t) :
  (forall x, In x xs -> forall l st, exists l' st',
      pass x l st = (inr l', st') /\
      questionnaire_results_list l' = questionnaire_results_list l ++ out x) ->
  forall l st, exists l' st',
    for_each xs pass l st = (inr l', st') /\
    questionnaire_results_list l' = questionnaire_results_list l ++ flat_map out xs.
Proof.
  induction xs as [|x xs IH]; intros Hp l st.
  - exists l, st. split; [reflexivity|]. cbn. rewrite app_nil_r. reflexivity.
  - destruct (Hp x (or_introl eq_refl) l st) as (l1 & st1 & Hr1 & Hs1).
    destruct (IH (fun y Hy => Hp y (or_intror Hy)) l1 st1) as (l2 & st2 & Hr2 & Hs2).
    exists l2, st2. split.
    + cbn [for_each]. unfold bind. rewrite Hr1. exact Hr2.
    + cbn [flat_map]. rewrite Hs2, Hs1, app_assoc. reflexivity.
Qed.

Section Determined.
Variable answer : string -> model_info -> string -> string -> string * string.
Variable models_to_test : dict model_info.
Variable bfi44_questions : dict (list item).
Variable bfi44_scores_dict : dict nat.
Variable traits_definitions : traits.
Hypothesis determined : dispatch_answers hf_handlers groq_generate_func answer models_to_test.
Hypothesis bank : bank_ok traits_definitions bfi44_questions.

Lemma body_determined (model_key : string) (info : model_info) (trait_info : trait_gen)
    (level : string) (question_set : item) (l : q_locals) (st : State) :
  In (model_key, info) models_to_test ->
  exists l' st',
    body model_key info (name trait_info) level
      (group_prompt bfi44_scores_dict trait_info level) question_set l st = (inr l', st') /\
    questionnaire_results_list l' =
    questionnaire_results_list l ++
      expected_item answer bfi44_scores_dict model_key info trait_info level question_set.
Proof.
  intros Hm.
  destruct (determined _ _ Hm (group_prompt bfi44_scores_dict trait_info level)
              (questionnaire_user_prompt_of question_set) l st) as [st1 Hd].
  unfold expected_item.
  destruct (answer model_key info (group_prompt bfi44_scores_dict trait_info level)
              (questionnaire_user_prompt_of question_set)) as [text status] eqn:Ea.
  eexists _, st1. split.
  - eapply body_after_dispatch; [exact Hd|reflexivity].
  - destruct (String.eqb status "ok"); cbn; [reflexivity|].
    rewrite app_nil_r. reflexivity.
Qed.

Lemma group_determined (model_key : string) (info : model_info) (trait_info : trait_gen)
    (questions : list item) (level : string) (l : q_locals) (st : State) :
  In (model_key, info) models_to_test ->
  In level ["high"; "low"] ->
  exists l' st',
    questionnaire_group hf_handlers groq_generate_func bfi44_scores_dict
      model_key info trait_info questions level l st = (inr l', st') /\
    questionnaire_results_list l' =
    questionnaire_results_list l ++
      flat_map (expected_item answer bfi44_scores_dict model_key info trait_info level)
        questions.
Proof.
  intros Hm Hl. unfold questionnaire_group.
  assert (Ht : forall st0, trait_level trait_info level st0 =
                 (inr (if String.eqb level "high" then high trait_info else low trait_info), st0)).
  { destruct Hl as [<-|[<-|[]]]; reflexivity. }
  unfold bind at 1. rewrite Ht.
  fold (group_prompt bfi44_scores_dict trait_info level).
  destruct (for_each_rows questions
              (fun question_set l1 =>
                 body model_key info (name trait_info) level
                   (group_prompt bfi44_scores_dict trait_info level) question_set l1)
              (expected_item answer bfi44_scores_dict model_key info trait_info level)
              (fun question_set _ l1 st1 =>
                 body_determined model_key info trait_info level question_set l1 st1 Hm)
              (mkQLocals (questionnaire_results_list l) (current_q_generation l + 1)
                 (answered l)) st)
    as (l' & st' & Hr & Hrows).
  exists l', st'. split; [exact Hr|exact Hrows].
Qed.

Lemma loops_determined (l : q_locals) (st : State) :
  exists l' st',
    questionnaire_loops models_to_test hf_handlers groq_generate_func bfi44_questions
      bfi44_scores_dict traits_definitions l st = (inr l', st') /\
    questionnaire_results_list l' =
    questionnaire_results_list l ++
      expected_rows answer bfi44_scores_dict traits_definitions models_to_test bfi44_questions.
Proof.
  unfold questionnaire_loops, expected_rows.
  assert (Hall : forall m, In m models_to_test -> In (fst m, snd m) models_to_test)
    by (intros [a b] Hm; exact Hm).
  revert l st.
  apply (for_each_rows models_to_test _
           (fun m => flat_map (fun tq =>
              match dict_get (generation traits_definitions) (upper (substring 0 1 (fst tq))) with
              | Some trait_info =>
                  flat_map (fun level =>
                    flat_map (expected_item answer bfi44_scores_dict (fst m) (snd m)
                                trait_info level) (snd tq)) ["high"; "low"]
              | None => []
              end) bfi44_questions)).
  intros [model_key info] Hm. cbn [fst snd].
  apply (for_each_rows bfi44_questions _
           (fun tq =>
              match dict_get (generation traits_definitions) (upper (substring 0 1 (fst tq))) with
              | Some trait_info =>
                  flat_map (fun level =>
                    flat_map (expected_item answer bfi44_scores_dict model_key info
                                trait_info level) (snd tq)) ["high"; "low"]
              | None => []
              end)).
  intros [trait_key_long questions] Hq l st. cbn [fst snd].
  destruct (bank _ _ Hq) as [Hne Hk].
  destruct trait_key_long as [|c rest]; [contradiction|].
  unfold bind at 1, first_upper, ret at 1.
  change (substring 0 1 (String c rest)) with (String c (substring 0 0 rest)) in *.
  replace (substring 0 0 rest) with EmptyString in * by (destruct rest; reflexivity).
  unfold bind at 1, subscript.
  destruct (dict_get (generation traits_definitions) (upper (String c EmptyString)))
    as [trait_info|]; [|contradiction].
  unfold ret at 1.
  apply (for_each_rows ["high"; "low"] _
           (fun level => flat_map (expected_item answer bfi44_scores_dict model_key info
                                     trait_info level) questions)).
  intros level Hl l1 st1. apply group_determined; assumption.
Qed.

Lemma run_determined (st : State) :
  exists st',
    run_questionnaire_experiment models_to_test hf_handlers groq_generate_func
      bfi44_questions bfi44_scores_dict traits_definitions st =
    (inr (expected_rows answer bfi44_scores_dict traits_definitions models_to_test
            bfi44_questions), st').
Proof.
  unfold run_questionnaire_experiment.
  unfold bind at 1, logging at 1, emit.
  destruct (loops_determined (mkQLocals [] 0 None)
              (mkState (world st) (trace st ++ [Log INFO "Starting Questionnaire Experiment..."])))
    as (l' & st' & Hl & Hrows).
  unfold bind at 1. rewrite Hl.
  unfold bind, logging, emit, ret. cbn [questionnaire_results_list app] in Hrows.
  rewrite Hrows. eexists. reflexivity.
Qed.

End Determined.
End Questionnaire.
End QuestionnaireFacts.

(* ================================================================== *)
(** * The engine: claims about both sweeps *)
(* ================================================================== *)

Module EngineFacts.
Import Experiments Spec HandlersFacts ParserFacts.


(** The coordinates of a sweep carry an intensity between 1 and 5. *)
Lemma all_coords_intensity (models_to_test : dict model_info) (td : traits)
    (questions : list string) (c : coord) :
  In c (all_coords models_to_test td questions) ->
  1 <= snd (fst c) <= 5.
Proof.
  unfold all_coords. intros Hc.
  apply in_flat_map in Hc as (m & _ & Hc).
  apply in_flat_map in Hc as (t & _ & Hc).
  apply in_flat_map in Hc as (n & Hn & Hc).
  apply in_map_iff in Hc as (q & <- & _).
  apply in_seq in Hn. cbn. lia.
Qed.

(** With distinct model keys, distinct trait names and distinct questions, no
    coordinate occurs twice. *)
Lemma all_coords_NoDup (models_to_test : dict model_info) (td : traits)
    (questions : list string) :
  NoDup (keys models_to_test) ->
  NoDup (map (fun t => name (snd t)) (generation td)) ->
  NoDup questions ->
  NoDup (all_coords models_to_test td questions).
Proof.
  intros Hm Ht Hq. unfold all_coords.
  apply (ListFacts.NoDup_flat_map_tagged (@fst string model_info)
           (fun c : coord => fst (fst (fst c)))); [exact Hm| |].
  - intros m _.
    apply (ListFacts.NoDup_flat_map_tagged (fun t : string * trait_gen => name (snd t))
             (fun c : coord => snd (fst (fst c)))); [exact Ht| |].
    + intros t _.
      apply (ListFacts.NoDup_flat_map_tagged (fun n : nat => n)
               (fun c : coord => snd (fst c))).
      * rewrite map_id. apply seq_NoDup.
      * intros n _. apply ListFacts.NoDup_map_injective; [|exact Hq].
        intros q1 q2 [= ->]. reflexivity.
      * intros n c _ Hc. apply in_map_iff in Hc as (q & <- & _). reflexivity.
    + intros t c _ Hc.
      apply in_flat_map in Hc as (n & _ & Hc).
      apply in_map_iff in Hc as (q & <- & _). reflexivity.
  - intros m c _ Hc.
    apply in_flat_map in Hc as (t & _ & Hc).
    apply in_flat_map in Hc as (n & _ & Hc).
    apply in_map_iff in Hc as (q & <- & _). reflexivity.
Qed.

Section Sweeps.
Context `{Env}.

(** X2. A run of the Generation sweep on a roster the dispatch recognises
    returns a table whose rows sit at pairwise different positions of the
    (model, trait, intensity, question) iteration space, in iteration order:
    no combination of a duplicate-free configuration appears twice.  The table
    has at most |models| x |traits| x 5 x |questions| rows, and exactly that many
    less one for every iteration the engine skipped with its warning (a failed
    generation or a failed judge call); the shipped configuration has 5 traits
    and 6 questions. *)
Theorem generation_table_bound :
  (length (generation Prompts.TRAITS_DEFINITIONS) = 5 /\ length Prompts.QUESTIONS = 6) /\
  forall hf_handlers groq_generate_func judge_model_id td models_to_test questions,
    adapter_contract groq_generate_func ->
    roster_ok hf_handlers models_to_test ->
    traits_ok td ->
    forall st, exists rows st',
      run_text_generation_experiment models_to_test hf_handlers groq_generate_func
        judge_model_id td questions st = (inr rows, st') /\
      subseq (map coord_of rows) (all_coords models_to_test td questions) /\
      (NoDup (keys models_to_test) ->
       NoDup (map (fun t => name (snd t)) (generation td)) ->
       NoDup questions ->
       NoDup (map coord_of rows)) /\
      length rows <= length models_to_test * length (generation td) * 5 * length questions /\
      length rows + (warnings st' - warnings st) =
        length models_to_test * length (generation td) * 5 * length questions.
Proof.
  split; [split; reflexivity|].
  intros hf f jm td models questions Hc Hr Ht st.
  destruct (GenerationFacts.run_text_generation_spec hf f jm td models questions Hc Hr Ht st)
    as (rows & st' & Hrun & Hsub & Hcount).
  exists rows, st'. split; [exact Hrun|]. split; [exact Hsub|].
  unfold total_generations in Hcount.
  set (total := length models * length (generation td) * 5 * length questions) in *.
  split; [|split].
  - intros Hm Hn Hq. eapply ListFacts.subseq_NoDup; [exact Hsub|].
    apply all_coords_NoDup; assumption.
  - apply ListFacts.subseq_length in Hsub.
    rewrite length_map, GenerationFacts.all_coords_length in Hsub. exact Hsub.
  - apply ListFacts.subseq_length in Hsub.
    rewrite length_map, GenerationFacts.all_coords_length in Hsub.
    fold total in Hsub. clearbody total. lia.
Qed.

End Sweeps.

(** The shipped roster and trait tables, with the stub handler for the local
    model, meet the preconditions of the sweeps. *)
Lemma shipped_roster_ok : @roster_ok Stub.env Stub.handlers Settings.MODELS_TO_TEST.
Proof.
  intros model_key info [[= <- <-]|[[= <- <-]|[]]].
  - right. split; [reflexivity|]. eexists. reflexivity.
  - left. reflexivity.
Qed.

Lemma shipped_traits_ok : traits_ok Prompts.TRAITS_DEFINITIONS.
Proof.
  intros trait_key tg Hin. cbn in Hin.
  repeat (destruct Hin as [[= <- <-]|Hin]; [discriminate|]).
  destruct Hin.
Qed.

Lemma shipped_distinct :
  NoDup (keys Settings.MODELS_TO_TEST) /\
  NoDup (map (fun t => name (snd t)) (generation Prompts.TRAITS_DEFINITIONS)) /\
  NoDup Prompts.QUESTIONS.
Proof.
  repeat split; repeat (constructor; [cbn; intuition discriminate|]); constructor.
Qed.

(** X2 on the shipped configuration, in a world where one judge call fails:
    299 rows for 300 iterations, no coordinate twice. *)
Lemma generation_table_bound_witness :
  exists rows st',
    @run_text_generation_experiment Stub.env Settings.MODELS_TO_TEST Stub.handlers
      (@Main.groq Stub.env) Settings.JUDGE_MODEL_ID Prompts.TRAITS_DEFINITIONS
      Prompts.QUESTIONS (Stub.start Stub.shaky) = (inr rows, st') /\
    NoDup (map coord_of rows) /\
    length rows <= 2 * 5 * 5 * 6 /\
    length rows = 299.
Proof.
  destruct (proj2 (@generation_table_bound Stub.env) Stub.handlers (@Main.groq Stub.env)
              Settings.JUDGE_MODEL_ID Prompts.TRAITS_DEFINITIONS Settings.MODELS_TO_TEST
              Prompts.QUESTIONS (@groq_contract Stub.env) shipped_roster_ok shipped_traits_ok
              (Stub.start Stub.shaky))
    as (rows & st' & Hrun & _ & Hnd & Hle & _).
  exists rows, st'. split; [exact Hrun|].
  split; [apply Hnd; apply shipped_distinct|].
  split; [exact Hle|].
  assert (Hlen : option_map (@length _)
                   (match fst (@run_text_generation_experiment Stub.env Settings.MODELS_TO_TEST
                            Stub.handlers (@Main.groq Stub.env) Settings.JUDGE_MODEL_ID
                            Prompts.TRAITS_DEFINITIONS Prompts.QUESTIONS (Stub.start Stub.shaky))
                    with inr r => Some r | inl _ => None end) = Some 299)
    by (vm_compute; reflexivity).
  rewrite Hrun in Hlen. cbn in Hlen. injection Hlen as Hlen. exact Hlen.
Defined.

End EngineFacts.

(* ================================================================== *)
(** * Properties of one pass of the Generation sweep *)
(* ================================================================== *)

Module GenerationPass.
Import Experiments Spec HandlersFacts ParserFacts EngineFacts.

Section Pass.
Context `{Env}.
Variable hf_handlers : dict Handlers.HuggingFaceModelHandler.
Variable groq_generate_func : string -> string -> string -> option Q -> M (string * string).
Variable judge_model_id : string.
Variable traits_definitions : traits.
Variables (model_key : string) (info : model_info) (trait_key : string)
  (tg : trait_gen) (n : nat) (question : string).

Abbreviation body :=
  (generation_body hf_handlers groq_generate_func judge_model_id traits_definitions
     model_key info trait_key tg n question).
Abbreviation dispatch :=
  (dispatch_generate hf_handlers groq_generate_func model_key info
     (system_prompt_generate_of (name tg) n tg) (user_prompt_generate_of question)).


(** A judge text that holds a JSON object is read without any check of the
    values. *)
Lemma judge_parser_dict (raw js : string) (d : dict json) (st : State) :
  Re.search_braces raw = Some js -> Json.loads js = inr (JObj d) ->
  judge_parser raw st =
  (inr (mkVerdict (lookup_or_null d "score") (lookup_or_null d "clues")
          (lookup_or_null d "reasoning") (lookup_or_null d "decision type")), st).
Proof.
  intros Hs Hl. unfold judge_parser, parse_judge_response, bind, try_except, lift.
  rewrite Hs, Hl. apply fields_of_dict.
Qed.

(** X4. The engine stores what the judge wrote, unchecked: when both calls
    succeed and the judge's text holds a JSON object, the four judge columns of
    the appended row are the values under the keys [score], [clues],
    [reasoning] and [decision type] (null for an absent key), whatever their
    type or magnitude, and nothing is logged. *)
Theorem judge_columns_unchecked (tc : trait_class) (l0 l1 : gen_locals) (st st1 st2 : State)
    (text status jraw jstatus js : string) (d : dict json) :
  dispatch (entered l0) st = (inr l1, st1) ->
  generated l1 = Some (text, status) ->
  status <> "fail" ->
  dict_get (classification traits_definitions) trait_key = Some tc ->
  judge_call groq_generate_func judge_model_id (name tg) tc question text st1 =
    (inr (jraw, jstatus), st2) ->
  jstatus <> "fail" ->
  Re.search_braces jraw = Some js ->
  Json.loads js = inr (JObj d) ->
  body l0 st =
  (inr (mkGenLocals
          (results_list l1 ++
             [GenRow.mk model_key (model_id info) (name tg) n question text
                (lookup_or_null d "score") (lookup_or_null d "clues")
                (lookup_or_null d "reasoning") (lookup_or_null d "decision type")])
          (current_generation l1) (generated l1)), st2).
Proof.
  intros Hd Hg Hs Htc Hj Hjs Hsb Hl.
  unfold generation_body. fold (entered l0).
  unfold bind at 1. rewrite Hd.
  unfold bind at 1, read_generated. rewrite Hg. unfold ret at 1.
  destruct (String.eqb_spec status "fail"); [contradiction|].
  unfold bind at 1, subscript. rewrite Htc. unfold ret at 1.
  unfold bind at 1. unfold Spec.judge_call in Hj. rewrite Hj.
  destruct (String.eqb_spec jstatus "fail"); [contradiction|].
  pose proof (judge_parser_dict jraw js d st2 Hsb Hl) as Hp.
  unfold judge_parser in Hp. unfold bind at 1 in Hp. unfold bind at 1.
  destruct (parse_judge_response jraw st2) as [[e|jr] st2']; [discriminate|].
  unfold bind at 1. rewrite Hp. reflexivity.
Qed.

(** X5. The classification entry of a trait is looked up only after a
    generation that did not fail: when the entry is missing, a failed
    generation is skipped with its warning as usual, and any other generation
    makes the pass raise [KeyError] for the trait key, before the judge is
    called. *)
Theorem missing_classification_raises (l0 l1 : gen_locals) (st st1 : State)
    (text status : string) :
  dispatch (entered l0) st = (inr l1, st1) ->
  generated l1 = Some (text, status) ->
  dict_get (classification traits_definitions) trait_key = None ->
  (status = "fail" ->
   body l0 st = (inr l1, warn st1 ("Failed to generate text for " +++ model_key
                                   +++ " on question: " +++ question))) /\
  (status <> "fail" -> body l0 st = (inl (KeyError trait_key), st1)).
Proof.
  intros Hd Hg Htc. split.
  - intros Hs. eapply GenerationFacts.body_generation_failed; eassumption.
  - intros Hs. unfold generation_body. fold (entered l0).
    unfold bind at 1. rewrite Hd.
    unfold bind at 1, read_generated. rewrite Hg. unfold ret at 1.
    destruct (String.eqb_spec status "fail"); [contradiction|].
    unfold bind at 1, subscript. rewrite Htc. reflexivity.
Qed.

(** X6. A roster entry of kind ['hf'] without a pre-loaded handler makes the
    pass raise [KeyError] for the model key; no backend is called and nothing
    is logged. *)
Theorem missing_handler_raises (l0 : gen_locals) (st : State) :
  handler info = "hf" ->
  dict_get hf_handlers model_key = None ->
  body l0 st = (inl (KeyError model_key), st).
Proof.
  intros Hh Hk. unfold generation_body, dispatch_generate.
  rewrite Hh. cbn [String.eqb Ascii.eqb Bool.eqb]. cbv iota.
  unfold bind at 1. unfold bind at 1, subscript. rewrite Hk. reflexivity.
Qed.

(** X8. For a roster entry of a kind the dispatch does not know, the pass
    calls no backend for the model and goes on with the text and status the
    previous pass left behind: a stale ['fail'] skips the pass with a warning,
    and any other stale status has the judge score the stale text, the row
    being filed under the unknown model's key and id. *)
Theorem unrecognised_reuses_stale (l0 : gen_locals) (st : State) (text status : string) :
  handler info <> "groq" -> handler info <> "hf" ->
  generated l0 = Some (text, status) ->
  (status = "fail" ->
   body l0 st = (inr (entered l0), warn st ("Failed to generate text for " +++ model_key
                                            +++ " on question: " +++ question))) /\
  (forall tc jraw jstatus st2,
      status <> "fail" ->
      dict_get (classification traits_definitions) trait_key = Some tc ->
      judge_call groq_generate_func judge_model_id (name tg) tc question text st =
        (inr (jraw, jstatus), st2) ->
      jstatus <> "fail" ->
      exists st3,
        body l0 st =
        (inr (mkGenLocals
                (results_list l0 ++
                   [row_of (model_key, name tg, n, question) (model_id info) text
                      (verdict_of jraw)])
                (current_generation l0 + 1) (Some (text, status))), st3) /\
        logged_error st2 st3).
Proof.
  intros Hg Hh Hs.
  pose proof (GenerationFacts.dispatch_unrecognised hf_handlers groq_generate_func
                model_key info (system_prompt_generate_of (name tg) n tg)
                (user_prompt_generate_of question) (entered l0) st Hg Hh) as Hd.
  split.
  - intros Hf. eapply GenerationFacts.body_generation_failed; eassumption.
  - intros tc jraw jstatus st2 Hnf Htc Hj Hjs.
    destruct (GenerationFacts.body_row hf_handlers groq_generate_func judge_model_id
                traits_definitions model_key info trait_key tg n question l0 _ st st
                text status Hd Hs tc jraw jstatus st2 Htc Hj Hnf Hjs) as (st3 & Hb & Hl).
    exists st3. split; [|exact Hl]. rewrite Hb. cbn [entered results_list
      current_generation generated]. rewrite Hs. reflexivity.
Qed.

(** With nothing bound yet, the same pass raises [UnboundLocalError]. *)
Lemma unrecognised_unbound (l0 : gen_locals) (st : State) :
  handler info <> "groq" -> handler info <> "hf" ->
  generated l0 = None ->
  body l0 st = (inl (UnboundLocalError "status"), st).
Proof.
  intros Hg Hh Hn. unfold generation_body. fold (entered l0).
  unfold bind at 1.
  rewrite (GenerationFacts.dispatch_unrecognised hf_handlers groq_generate_func
             model_key info _ _ (entered l0) st Hg Hh).
  unfold bind at 1, read_generated. cbn [entered generated]. rewrite Hn. reflexivity.
Qed.

End Pass.


(** X4 on the scripted world: the judge answers with a score of 7 and a
    decision type outside the enumeration; both are stored. *)
Lemma judge_columns_unchecked_witness :
  exists st2,
    @generation_body Stub.env [] (@Main.groq Stub.env) "llama3-70b-8192" Stub.one_trait
      "Llama-3.1-8B (Groq)" Stub.llama "O" Stub.openness 3 "What is your dream career?"
      (mkGenLocals [] 0 None)
      (Stub.start (Stub.steady (quoted "{'score': 7, 'decision type': 'Gut feeling'}"))) =
    (inr (mkGenLocals
            [GenRow.mk "Llama-3.1-8B (Groq)" "llama-3.1-8b-instant" "Openness" 3
               "What is your dream career?"
               (quoted "{'score': 7, 'decision type': 'Gut feeling'}")
               (JInt 7) JNull JNull (JStr "Gut feeling")]
            1
            (Some (quoted "{'score': 7, 'decision type': 'Gut feeling'}", "ok"))), st2).
Proof.
  eexists.
  eapply (@judge_columns_unchecked Stub.env [] (@Main.groq Stub.env) "llama3-70b-8192"
            Stub.one_trait "Llama-3.1-8B (Groq)" Stub.llama "O" Stub.openness 3
            "What is your dream career?" Stub.openness_class (mkGenLocals [] 0 None)
            (mkGenLocals [] 1
               (Some (quoted "{'score': 7, 'decision type': 'Gut feeling'}", "ok")))
            _ _ _ _ "ok" _ "ok"
            (quoted "{'score': 7, 'decision type': 'Gut feeling'}")
            [("score", JInt 7); ("decision type", JStr "Gut feeling")]).
  - lazy. reflexivity.
  - reflexivity.
  - discriminate.
  - reflexivity.
  - lazy. reflexivity.
  - discriminate.
  - vm_compute. reflexivity.
  - vm_compute. reflexivity.
Defined.

(** X5 on a configuration whose classification table lacks the trait. *)
Lemma missing_classification_raises_witness :
  exists st1,
    @generation_body Stub.env [] (@Main.groq Stub.env) "llama3-70b-8192"
      (mkTraits [("O", Stub.openness)] []) "Llama-3.1-8B (Groq)" Stub.llama "O"
      Stub.openness 3 "What is your dream career?" (mkGenLocals [] 0 None)
      (Stub.start (Stub.steady "I would like to be a painter.")) =
    (inl (KeyError "O"), st1).
Proof.
  eexists.
  refine (proj2 (@missing_classification_raises Stub.env [] (@Main.groq Stub.env)
                   "llama3-70b-8192" (mkTraits [("O", Stub.openness)] [])
                   "Llama-3.1-8B (Groq)" Stub.llama "O" Stub.openness 3
                   "What is your dream career?" (mkGenLocals [] 0 None)
                   (mkGenLocals [] 1 (Some ("I would like to be a painter.", "ok")))
                   _ _ "I would like to be a painter." "ok" _ _ _) _).
  - lazy. reflexivity.
  - reflexivity.
  - reflexivity.
  - discriminate.
Defined.

(** X6 on a roster with a local model and no handler for it. *)
Lemma missing_handler_raises_witness :
  @generation_body Stub.env [] (@Main.groq Stub.env) "llama3-70b-8192" Stub.one_trait
    "Gemma-7B (Hugging Face)" Stub.gemma "O" Stub.openness 3 "What is your dream career?"
    (mkGenLocals [] 0 None) (Stub.start (Stub.steady "text")) =
  (inl (KeyError "Gemma-7B (Hugging Face)"), Stub.start (Stub.steady "text")).
Proof.
  apply (@missing_handler_raises Stub.env); reflexivity.
Defined.

(** X8 on a roster entry of kind ['openai'], entered with a failed status left
    behind: the pass is skipped, no call is made. *)
Lemma unrecognised_reuses_stale_witness :
  @generation_body Stub.env [] (@Main.groq Stub.env) "llama3-70b-8192" Stub.one_trait
    "GPT-4o" Stub.stray "O" Stub.openness 3 "What is your dream career?"
    (mkGenLocals [] 7 (Some ("MODEL_FAIL", "fail"))) (Stub.start (Stub.steady "text")) =
  (inr (mkGenLocals [] 8 (Some ("MODEL_FAIL", "fail"))),
   @warn Stub.env (Stub.start (Stub.steady "text"))
     "Failed to generate text for GPT-4o on question: What is your dream career?").
Proof.
  apply (proj1 (@unrecognised_reuses_stale Stub.env [] (@Main.groq Stub.env)
                  "llama3-70b-8192" Stub.one_trait "GPT-4o" Stub.stray "O" Stub.openness 3
                  "What is your dream career?" (mkGenLocals [] 7 (Some ("MODEL_FAIL", "fail")))
                  (Stub.start (Stub.steady "text")) "MODEL_FAIL" "fail"
                  ltac:(discriminate) ltac:(discriminate) eq_refl)).
  reflexivity.
Defined.

End GenerationPass.

(* ================================================================== *)
(** * Properties of whole Generation sweeps *)
(* ================================================================== *)

Module GenerationSweep.
Import Experiments Spec HandlersFacts EngineFacts.

Section Sweep.
Context `{Env}.

Lemma all_coords_members (models_to_test : dict model_info) (td : traits)
    (questions : list string) (c : coord) :
  In c (all_coords models_to_test td questions) ->
  let '(model_key, trait_name, n, question) := c in
  In model_key (keys models_to_test) /\
  In trait_name (map (fun t => name (snd t)) (generation td)) /\
  1 <= n <= 5 /\
  In question questions.
Proof.
  unfold all_coords. intros Hc.
  apply in_flat_map in Hc as (m & Hm & Hc).
  apply in_flat_map in Hc as (t & Ht & Hc).
  apply in_flat_map in Hc as (n & Hn & Hc).
  apply in_map_iff in Hc as (q & <- & Hq).
  apply in_seq in Hn.
  repeat split; try lia; try assumption.
  - unfold keys. apply in_map. exact Hm.
  - apply (in_map (fun t => name (snd t))). exact Ht.
Qed.

(** X3. Every row of the table the Generation sweep returns is filed under a
    model key of the roster, a trait name of the generation table, an
    intensity between 1 and 5 and a question of the configured list. *)
Theorem generation_rows_well_formed hf_handlers groq_generate_func judge_model_id td
    models_to_test questions (st : State) :
  adapter_contract groq_generate_func ->
  roster_ok hf_handlers models_to_test ->
  traits_ok td ->
  exists rows st',
    run_text_generation_experiment models_to_test hf_handlers groq_generate_func
      judge_model_id td questions st = (inr rows, st') /\
    Forall (fun r =>
              In (GenRow.model_key r) (keys models_to_test) /\
              In (GenRow.prompted_trait r) (map (fun t => name (snd t)) (generation td)) /\
              1 <= GenRow.prompted_score r <= 5 /\
              In (GenRow.question r) questions) rows.
Proof.
  intros Hc Hr Ht.
  destruct (GenerationFacts.run_text_generation_spec hf_handlers groq_generate_func
              judge_model_id td models_to_test questions Hc Hr Ht st)
    as (rows & st' & Hrun & Hsub & _).
  exists rows, st'. split; [exact Hrun|].
  apply Forall_forall. intros r Hin.
  assert (Hc' : In (coord_of r) (all_coords models_to_test td questions)).
  { eapply ListFacts.subseq_In; [exact Hsub|]. apply in_map. exact Hin. }
  apply all_coords_members in Hc'. exact Hc'.
Qed.

(** X7. When the first roster entry is of a kind the dispatch does not know
    (and there is a trait and a question to iterate over), the Generation
    sweep raises [UnboundLocalError] for [status] in its very first pass: no
    table is returned and no backend has been called. *)
Theorem unrecognised_first_raises hf_handlers groq_generate_func judge_model_id td
    model_key info rest trait_key tg traits_rest question questions_rest (st : State) :
  handler info <> "groq" -> handler info <> "hf" ->
  generation td = (trait_key, tg) :: traits_rest ->
  exists st',
    run_text_generation_experiment ((model_key, info) :: rest) hf_handlers
      groq_generate_func judge_model_id td (question :: questions_rest) st =
    (inl (UnboundLocalError "status"), st') /\
    world st' = world st /\
    count is_backend_call (trace st') = count is_backend_call (trace st).
Proof.
  intros Hg Hh Ht.
  unfold run_text_generation_experiment, generation_loops. rewrite Ht.
  cbn [for_each seq].
  unfold bind, logging, emit. cbn [world trace].
  rewrite (GenerationPass.unrecognised_unbound hf_handlers groq_generate_func
             judge_model_id td model_key info trait_key tg 1 question
             (mkGenLocals [] 0 None) _ Hg Hh eq_refl).
  eexists. split; [reflexivity|]. split; [reflexivity|].
  cbn [trace]. rewrite !count_app. cbn. lia.
Qed.

End Sweep.

(** X3 on the shipped configuration. *)
Lemma generation_rows_well_formed_witness :
  exists rows st',
    @run_text_generation_experiment Stub.env Settings.MODELS_TO_TEST Stub.handlers
      (@Main.groq Stub.env) Settings.JUDGE_MODEL_ID Prompts.TRAITS_DEFINITIONS
      Prompts.QUESTIONS (Stub.start Stub.shaky) = (inr rows, st') /\
    Forall (fun r =>
              In (GenRow.model_key r) (keys Settings.MODELS_TO_TEST) /\
              In (GenRow.prompted_trait r)
                (map (fun t => name (snd t)) (generation Prompts.TRAITS_DEFINITIONS)) /\
              1 <= GenRow.prompted_score r <= 5 /\
              In (GenRow.question r) Prompts.QUESTIONS) rows.
Proof.
  apply (@generation_rows_well_formed Stub.env).
  - apply groq_contract.
  - apply shipped_roster_ok.
  - apply shipped_traits_ok.
Defined.

(** X7 on a roster that starts with a model of kind ['openai']. *)
Lemma unrecognised_first_raises_witness :
  exists st',
    @run_text_generation_experiment Stub.env
      [("GPT-4o", Stub.stray); ("Llama-3.1-8B (Groq)", Stub.llama)] []
      (@Main.groq Stub.env) "llama3-70b-8192" Stub.one_trait
      ["What is your dream career?"] (Stub.start (Stub.steady "text")) =
    (inl (UnboundLocalError "status"), st') /\
    world st' = Stub.steady "text" /\
    count is_backend_call (trace st') = 0.
Proof.
  apply (@unrecognised_first_raises Stub.env [] (@Main.groq Stub.env) "llama3-70b-8192"
           Stub.one_trait "GPT-4o" Stub.stray [("Llama-3.1-8B (Groq)", Stub.llama)]
           "O" Stub.openness [] "What is your dream career?" []
           (Stub.start (Stub.steady "text"))).
  - discriminate.
  - discriminate.
  - reflexivity.
Defined.

End GenerationSweep.

(* ================================================================== *)
(** * Properties of the Questionnaire sweep *)
(* ================================================================== *)

Module QuestionnaireSweep.
Import Experiments Spec HandlersFacts EngineFacts.

Section Sweep.
Context `{Env}.
Variable hf_handlers : dict Handlers.HuggingFaceModelHandler.
Variable groq_generate_func : string -> string -> string -> option Q -> M (string * string).

Abbreviation dispatch := (dispatch_answer hf_handlers groq_generate_func).
Abbreviation body := (questionnaire_body hf_handlers groq_generate_func).


(** X13. For a roster entry of a kind the dispatch does not know, a pass of
    the Questionnaire sweep calls no backend: with nothing bound it raises
    [UnboundLocalError] for [status]; otherwise it goes on with the answer and
    status the previous pass left behind, and a stale ['ok'] files the stale
    answer under the unknown model's key for the current item. *)
Theorem questionnaire_unrecognised (model_key : string) (info : model_info)
    (trait_name level system_prompt : string) (question_set : item)
    (l : q_locals) (st : State) :
  handler info <> "groq" -> handler info <> "hf" ->
  (answered l = None ->
   body model_key info trait_name level system_prompt question_set l st =
   (inl (UnboundLocalError "status"), st)) /\
  (forall answer,
      answered l = Some (answer, "ok") ->
      body model_key info trait_name level system_prompt question_set l st =
      (inr (mkQLocals
              (questionnaire_results_list l ++
                 [QRow.mk model_key trait_name level (q_type question_set) answer])
              (current_q_generation l) (Some (answer, "ok"))), st)) /\
  (forall answer status,
      answered l = Some (answer, status) -> status <> "ok" ->
      body model_key info trait_name level system_prompt question_set l st = (inr l, st)).
Proof.
  intros Hg Hh.
  pose proof (QuestionnaireFacts.dispatch_answer_unrecognised hf_handlers groq_generate_func
                model_key info system_prompt (questionnaire_user_prompt_of question_set)
                l st Hg Hh) as Hd.
  split; [|split].
  - intros Hn. unfold questionnaire_body. unfold bind at 1. rewrite Hd.
    unfold bind at 1, read_answered. rewrite Hn. reflexivity.
  - intros answer Ha.
    rewrite (QuestionnaireFacts.body_after_dispatch hf_handlers groq_generate_func
               model_key info trait_name level system_prompt question_set l l st st
               answer "ok" Hd Ha).
    cbn [String.eqb Ascii.eqb Bool.eqb]. rewrite Ha. reflexivity.
  - intros answer status Ha Hs.
    rewrite (QuestionnaireFacts.body_after_dispatch hf_handlers groq_generate_func
               model_key info trait_name level system_prompt question_set l l st st
               answer status Hd Ha).
    destruct (String.eqb_spec status "ok"); [contradiction|reflexivity].
Qed.

(** X10. When the backend selected for every roster entry answers by the
    request alone and the bank names configured traits, the Questionnaire sweep
    returns exactly the rows of the answers with status ['ok'], in (model,
    trait, level, item) order, from whatever state it starts: a second run
    right after the first returns the same table. *)
Theorem questionnaire_determined answer models_to_test bfi44_questions bfi44_scores_dict td
    (st : State) :
  dispatch_answers hf_handlers groq_generate_func answer models_to_test ->
  bank_ok td bfi44_questions ->
  exists st' st'',
    run_questionnaire_experiment models_to_test hf_handlers groq_generate_func
      bfi44_questions bfi44_scores_dict td st =
    (inr (expected_rows answer bfi44_scores_dict td models_to_test bfi44_questions), st') /\
    run_questionnaire_experiment models_to_test hf_handlers groq_generate_func
      bfi44_questions bfi44_scores_dict td st' =
    (inr (expected_rows answer bfi44_scores_dict td models_to_test bfi44_questions), st'').
Proof.
  intros Hd Hb.
  destruct (QuestionnaireFacts.run_determined hf_handlers groq_generate_func answer
              models_to_test bfi44_questions bfi44_scores_dict td Hd Hb st) as [st' H1].
  destruct (QuestionnaireFacts.run_determined hf_handlers groq_generate_func answer
              models_to_test bfi44_questions bfi44_scores_dict td Hd Hb st') as [st'' H2].
  exists st', st''. split; assumption.
Qed.

(** A hosted backend that answers by the request alone determines the
    dispatch for a roster of hosted models. *)
Lemma hosted_roster_determined resp models_to_test :
  answers_by groq_generate_func resp ->
  (forall model_key info, In (model_key, info) models_to_test -> handler info = "groq") ->
  dispatch_answers hf_handlers groq_generate_func
    (fun _ info sp up => resp (model_id info) sp up (Some (7 # 10)%Q)) models_to_test.
Proof.
  intros Ha Hk model_key info Hin sp up l st.
  destruct (Ha (model_id info) sp up (Some (7 # 10)%Q) st) as [st' Hr].
  exists st'. unfold dispatch_answer. rewrite (Hk _ _ Hin).
  cbn [String.eqb Ascii.eqb Bool.eqb]. cbv iota.
  unfold bind. rewrite Hr. reflexivity.
Qed.

Lemma q_sweep_nil (l : q_locals) : q_sweep 0 l l.
Proof. exists []. rewrite app_nil_r. repeat split; auto. Qed.

Lemma q_sweep_app (k1 k2 : nat) (l l1 l2 : q_locals) :
  q_sweep k1 l l1 -> q_sweep k2 l1 l2 -> q_sweep (k1 + k2) l l2.
Proof.
  intros (n1 & Hr1 & Hl1 & Hf1) (n2 & Hr2 & Hl2 & Hf2).
  exists (n1 ++ n2). repeat split.
  - rewrite Hr2, Hr1, app_assoc. reflexivity.
  - rewrite length_app. lia.
  - apply Forall_app. split; assumption.
Qed.

Lemma for_each_q_sweep {A} (xs : list A) (pass : A -> q_locals -> M q_locals)
    (k : A -> nat) :
  (forall x, In x xs -> forall l st, exists l' st',
      pass x l st = (inr l', st') /\ q_sweep (k x) l l') ->
  forall l st, exists l' st',
    for_each xs pass l st = (inr l', st') /\ q_sweep (list_sum (map k xs)) l l'.
Proof.
  induction xs as [|x xs IH]; intros Hp l st.
  - exists l, st. split; [reflexivity|]. apply q_sweep_nil.
  - destruct (Hp x (or_introl eq_refl) l st) as (l1 & st1 & Hr1 & Hs1).
    destruct (IH (fun y Hy => Hp y (or_intror Hy)) l1 st1) as (l2 & st2 & Hr2 & Hs2).
    exists l2, st2. split.
    + cbn [for_each]. unfold bind. rewrite Hr1. exact Hr2.
    + cbn [map list_sum fold_right]. eapply q_sweep_app; eassumption.
Qed.

Lemma list_sum_const {A} (xs : list A) (c : nat) :
  list_sum (map (fun _ => c) xs) = length xs * c.
Proof.
  unfold list_sum. induction xs as [|x xs IH]; cbn; [reflexivity|]. rewrite IH. reflexivity.
Qed.

Lemma list_sum_double {A} (f : A -> nat) (xs : list A) :
  list_sum (map (fun x => f x + (f x + 0)) xs) = 2 * list_sum (map f xs).
Proof.
  unfold list_sum. induction xs as [|x xs IH]; cbn; [reflexivity|]. rewrite IH. lia.
Qed.

(** The Questionnaire sweep on a configuration that fits together. *)
Lemma questionnaire_loops_total models_to_test bfi44_questions bfi44_scores_dict td :
  adapter_contract groq_generate_func ->
  roster_ok hf_handlers models_to_test ->
  bank_ok td bfi44_questions ->
  forall l st, exists l' st',
    questionnaire_loops models_to_test hf_handlers groq_generate_func bfi44_questions
      bfi44_scores_dict td l st = (inr l', st') /\
    q_sweep (length models_to_test * (2 * bank_size bfi44_questions)) l l'.
Proof.
  intros Hc Hr Hb l st. unfold questionnaire_loops, bank_size.
  rewrite <- (list_sum_const models_to_test), <- list_sum_double.
  revert l st. apply for_each_q_sweep. intros [model_key info] Hm.
  apply for_each_q_sweep. intros [trait_key_long questions] Hq l st. cbn [snd].
  destruct (Hb _ _ Hq) as [Hne Hk].
  destruct trait_key_long as [|c rest]; [contradiction|].
  unfold bind at 1, first_upper, ret at 1.
  change (substring 0 1 (String c rest)) with (String c (substring 0 0 rest)) in Hk.
  replace (substring 0 0 rest) with EmptyString in Hk by (destruct rest; reflexivity).
  unfold bind at 1, subscript.
  destruct (dict_get (generation td) (upper (String c EmptyString))) as [trait_info|];
    [|contradiction].
  unfold ret at 1.
  change (length questions + (length questions + 0))
    with (list_sum (map (fun _ : string => length questions) ["high"; "low"])).
  apply for_each_q_sweep. intros level Hl l1 st1.
  unfold questionnaire_group.
  assert (Ht : forall st0, trait_level trait_info level st0 =
                 (inr (if String.eqb level "high" then high trait_info else low trait_info), st0)).
  { destruct Hl as [<-|[<-|[]]]; reflexivity. }
  unfold bind at 1. rewrite Ht.
  assert (Hgroup : forall l2 st2, exists l' st',
             for_each questions
               (fun question_set l3 =>
                  questionnaire_body hf_handlers groq_generate_func model_key info
                    (name trait_info) level
                    (questionnaire_system_prompt_of
                       (trait_prompt_of level (name trait_info)
                          (if String.eqb level "high" then high trait_info else low trait_info))
                       (join nl (map (fun option => "- " +++ option) (keys bfi44_scores_dict)))
                       (keys bfi44_scores_dict)) question_set l3) l2 st2 = (inr l', st') /\
             q_sweep (list_sum (map (fun _ : item => 1) questions)) l2 l').
  { apply for_each_q_sweep. intros question_set _ l2 st2.
    destruct (QuestionnaireFacts.dispatch_answer_recognised hf_handlers groq_generate_func
                model_key info
                (questionnaire_system_prompt_of
                   (trait_prompt_of level (name trait_info)
                      (if String.eqb level "high" then high trait_info else low trait_info))
                   (join nl (map (fun option => "- " +++ option) (keys bfi44_scores_dict)))
                   (keys bfi44_scores_dict))
                (questionnaire_user_prompt_of question_set) l2 st2 Hc (Hr _ _ Hm))
      as (answer & status & st3 & Hd & _).
    eexists _, st3. split.
    - eapply QuestionnaireFacts.body_after_dispatch; [exact Hd|reflexivity].
    - destruct (String.eqb status "ok").
      + eexists [_]. cbn [questionnaire_results_list]. split; [reflexivity|].
        split; [cbn; lia|]. constructor; [|constructor]. cbn.
        destruct Hl as [<-|[<-|[]]]; auto.
      + exists []. cbn [questionnaire_results_list]. rewrite app_nil_r.
        split; [reflexivity|]. split; [cbn; lia|constructor]. }
  destruct (Hgroup (mkQLocals (questionnaire_results_list l1) (current_q_generation l1 + 1)
                      (answered l1)) st1) as (l' & st' & Hrun & Hs).
  exists l', st'. split; [exact Hrun|].
  rewrite list_sum_const, Nat.mul_1_r in Hs. exact Hs.
Qed.

Lemma run_questionnaire_total models_to_test bfi44_questions bfi44_scores_dict td :
  adapter_contract groq_generate_func ->
  roster_ok hf_handlers models_to_test ->
  bank_ok td bfi44_questions ->
  forall st, exists rows st',
    run_questionnaire_experiment models_to_test hf_handlers groq_generate_func
      bfi44_questions bfi44_scores_dict td st = (inr rows, st') /\
    length rows <= length models_to_test * (2 * bank_size bfi44_questions) /\
    Forall (fun r => QRow.prompted_level r = "high" \/ QRow.prompted_level r = "low") rows.
Proof.
  intros Hc Hr Hb st. unfold run_questionnaire_experiment.
  unfold bind at 1, logging at 1, emit.
  destruct (questionnaire_loops_total models_to_test bfi44_questions bfi44_scores_dict td
              Hc Hr Hb (mkQLocals [] 0 None)
              (mkState (world st)
                 (trace st ++ [Log INFO "Starting Questionnaire Experiment..."])))
    as (l' & st' & Hl & new & Hrows & Hlen & Hall).
  unfold bind at 1. rewrite Hl.
  unfold bind, logging, emit, ret. cbn [questionnaire_results_list app] in Hrows.
  rewrite Hrows. eexists _, _. split; [reflexivity|]. split; assumption.
Qed.

(** X11. On a roster the dispatch recognises and a bank that names configured
    traits, [run_questionnaire_experiment] raises nothing and returns a table
    of at most 2 x |items| rows per model, every one for persona level
    ['high'] or ['low']; the shipped bank has 44 items. *)
Theorem questionnaire_table_bound models_to_test bfi44_questions bfi44_scores_dict td
    (st : State) :
  adapter_contract groq_generate_func ->
  roster_ok hf_handlers models_to_test ->
  bank_ok td bfi44_questions ->
  bank_size Prompts.BFI44_QUESTIONS = 44 /\
  exists rows st',
    run_questionnaire_experiment models_to_test hf_handlers groq_generate_func
      bfi44_questions bfi44_scores_dict td st = (inr rows, st') /\
    length rows <= length models_to_test * (2 * bank_size bfi44_questions) /\
    Forall (fun r => QRow.prompted_level r = "high" \/ QRow.prompted_level r = "low") rows.
Proof.
  intros Hc Hr Hb. split; [reflexivity|].
  apply run_questionnaire_total; assumption.
Qed.

(** X12. A bank entry whose trait key is empty makes the Questionnaire sweep
    raise [IndexError], and one whose capitalised initial is no key of the
    generation table makes it raise [KeyError] for that initial; either way
    this happens before any backend call. *)
Theorem questionnaire_bad_bank model_key info rest trait_key_long questions bank_rest
    bfi44_scores_dict td (st : State) :
  (trait_key_long = EmptyString ->
   exists st',
     run_questionnaire_experiment ((model_key, info) :: rest) hf_handlers
       groq_generate_func ((trait_key_long, questions) :: bank_rest) bfi44_scores_dict td st =
     (inl (IndexError "string index out of range"), st') /\
     count is_backend_call (trace st') = count is_backend_call (trace st)) /\
  (trait_key_long <> EmptyString ->
   dict_get (generation td) (upper (substring 0 1 trait_key_long)) = None ->
   exists st',
     run_questionnaire_experiment ((model_key, info) :: rest) hf_handlers
       groq_generate_func ((trait_key_long, questions) :: bank_rest) bfi44_scores_dict td st =
     (inl (KeyError (upper (substring 0 1 trait_key_long))), st') /\
     count is_backend_call (trace st') = count is_backend_call (trace st)).
Proof.
  split.
  - intros ->. unfold run_questionnaire_experiment, questionnaire_loops.
    cbn [for_each]. unfold bind, logging, emit, first_upper, raise. cbn [world trace].
    eexists. split; [reflexivity|]. cbn [trace]. rewrite count_app. cbn. lia.
  - intros Hne Hk. destruct trait_key_long as [|c r]; [contradiction|].
    change (substring 0 1 (String c r)) with (String c (substring 0 0 r)) in *.
    replace (substring 0 0 r) with EmptyString in * by (destruct r; reflexivity).
    unfold run_questionnaire_experiment, questionnaire_loops.
    cbn [for_each]. unfold bind, logging, emit, first_upper, ret, subscript. cbn [world trace].
    rewrite Hk. unfold raise.
    eexists. split; [reflexivity|]. cbn [trace]. rewrite count_app. cbn. lia.
Qed.

End Sweep.

Lemma shipped_bank_ok : bank_ok Prompts.TRAITS_DEFINITIONS Prompts.BFI44_QUESTIONS.
Proof.
  intros k qs Hin. unfold Prompts.BFI44_QUESTIONS in Hin.
  repeat (destruct Hin as [Hin|Hin];
          [injection Hin as <- <-; split; [discriminate|vm_compute; discriminate]|]).
  destruct Hin.
Qed.


(** X13 on a roster entry of kind ['openai'] entered after a successful call
    for another model: the other model's answer is filed under ["GPT-4o"]. *)
Lemma questionnaire_unrecognised_witness :
  @questionnaire_body Stub.env [] (@Main.groq Stub.env) "GPT-4o" Stub.stray
    "Extraversion" "high" "Act as instructed." (mkItem 1 "Is talkative" "direct")
    (mkQLocals [] 3 (Some ("agree strongly with the statement", "ok")))
    (Stub.start (Stub.steady "never asked")) =
  (inr (mkQLocals
          [QRow.mk "GPT-4o" "Extraversion" "high" "direct" "agree strongly with the statement"]
          3 (Some ("agree strongly with the statement", "ok"))),
   Stub.start (Stub.steady "never asked")).
Proof.
  apply (proj1 (proj2 (@questionnaire_unrecognised Stub.env [] (@Main.groq Stub.env) "GPT-4o"
                         Stub.stray "Extraversion" "high" "Act as instructed."
                         (mkItem 1 "Is talkative" "direct")
                         (mkQLocals [] 3 (Some ("agree strongly with the statement", "ok")))
                         (Stub.start (Stub.steady "never asked"))
                         ltac:(discriminate) ltac:(discriminate)))).
  reflexivity.
Defined.

(** X10 with a stub backend that returns a constant answer, on the shipped
    bank and a hosted model: two runs in a row, the same table. *)
Lemma questionnaire_determined_witness :
  exists st' st'',
    @run_questionnaire_experiment Stub.env [("Llama-3.1-8B (Groq)", Stub.llama)] []
      (Stub.constant_backend "agree strongly with the statement")
      Prompts.BFI44_QUESTIONS Prompts.BFI44_SCORES_DICT Prompts.TRAITS_DEFINITIONS
      (Stub.start (Stub.steady "unused")) =
    (inr (@expected_rows Stub.env
            (fun _ _ _ _ => ("agree strongly with the statement", "ok"))
            Prompts.BFI44_SCORES_DICT Prompts.TRAITS_DEFINITIONS
            [("Llama-3.1-8B (Groq)", Stub.llama)] Prompts.BFI44_QUESTIONS), st') /\
    @run_questionnaire_experiment Stub.env [("Llama-3.1-8B (Groq)", Stub.llama)] []
      (Stub.constant_backend "agree strongly with the statement")
      Prompts.BFI44_QUESTIONS Prompts.BFI44_SCORES_DICT Prompts.TRAITS_DEFINITIONS st' =
    (inr (@expected_rows Stub.env
            (fun _ _ _ _ => ("agree strongly with the statement", "ok"))
            Prompts.BFI44_SCORES_DICT Prompts.TRAITS_DEFINITIONS
            [("Llama-3.1-8B (Groq)", Stub.llama)] Prompts.BFI44_QUESTIONS), st'').
Proof.
  apply (@questionnaire_determined Stub.env [] (Stub.constant_backend
           "agree strongly with the statement")
           (fun _ _ _ _ => ("agree strongly with the statement", "ok"))).
  - apply (@hosted_roster_determined Stub.env []
             (Stub.constant_backend "agree strongly with the statement")
             (fun _ _ _ _ => ("agree strongly with the statement", "ok"))).
    + intros m sp up t st. exists st. reflexivity.
    + intros model_key info [[= <- <-]|[]]. reflexivity.
  - apply shipped_bank_ok.
Defined.

(** X11 on the shipped configuration. *)
Lemma questionnaire_table_bound_witness :
  bank_size Prompts.BFI44_QUESTIONS = 44 /\
  exists rows st',
    @run_questionnaire_experiment Stub.env Settings.MODELS_TO_TEST Stub.handlers
      (@Main.groq Stub.env) Prompts.BFI44_QUESTIONS Prompts.BFI44_SCORES_DICT
      Prompts.TRAITS_DEFINITIONS (Stub.start Stub.shaky) = (inr rows, st') /\
    length rows <= length Settings.MODELS_TO_TEST * (2 * bank_size Prompts.BFI44_QUESTIONS) /\
    Forall (fun r => QRow.prompted_level r = "high" \/ QRow.prompted_level r = "low") rows.
Proof.
  apply (@questionnaire_table_bound Stub.env).
  - apply groq_contract.
  - apply shipped_roster_ok.
  - apply shipped_bank_ok.
Defined.

(** X12 on a bank whose first trait key is ["xenophilia"]: no trait ["X"]. *)
Lemma questionnaire_bad_bank_witness :
  exists st',
    @run_questionnaire_experiment Stub.env [("Llama-3.1-8B (Groq)", Stub.llama)] []
      (@Main.groq Stub.env) [("xenophilia", [mkItem 1 "Is talkative" "direct"])]
      Prompts.BFI44_SCORES_DICT Prompts.TRAITS_DEFINITIONS
      (Stub.start (Stub.steady "unused")) =
    (inl (KeyError "X"), st') /\
    count is_backend_call (trace st') = 0.
Proof.
  apply (proj2 (@questionnaire_bad_bank Stub.env [] (@Main.groq Stub.env)
                  "Llama-3.1-8B (Groq)" Stub.llama [] "xenophilia"
                  [mkItem 1 "Is talkative" "direct"] [] Prompts.BFI44_SCORES_DICT
                  Prompts.TRAITS_DEFINITIONS (Stub.start (Stub.steady "unused")))).
  - discriminate.
  - reflexivity.
Defined.

End QuestionnaireSweep.


(* ================================================================== *)
(** * Further properties of the backend adapters *)
(* ================================================================== *)

Module AdapterProperties.
Import Handlers Spec HandlersFacts.

Lemma sum_of_powers (k : nat) : list_sum (map (Nat.pow 2) (seq 0 k)) = 2 ^ k - 1.
Proof.
  induction k as [|k IH]; [reflexivity|].
  rewrite seq_S, map_app, list_sum_app, IH. cbn [map list_sum fold_right Nat.add].
  assert (0 < 2 ^ k) by (apply Nat.neq_0_lt_0, Nat.pow_nonzero; discriminate).
  cbn [Nat.pow]. lia.
Qed.

Section Adapters.
Context `{Env}.

(** X14. When the construction of the API client raises, the hosted adapter
    returns ["MODEL_FAIL"] with status ['fail'] at once: it makes no attempt,
    never sleeps, and leaves one CRITICAL record in the log. *)
Theorem groq_client_failure (m sp up : string) (t : option Q) (n : option nat)
    (st : State) (e : exn) (w : World) :
  Groq_new (world st) = (inl e, w) ->
  generate_response_groq m sp up t n st =
  (inr ("MODEL_FAIL", "fail"),
   mkState w (trace st ++
                [Log CRITICAL ("Groq client failed to initialize. Error: " +++ exn_str e)])).
Proof.
  intros Hg. unfold generate_response_groq, try_except, bind. rewrite Hg. reflexivity.
Qed.

(** X15. For any [max_retries = n] the hosted adapter raises nothing and makes
    at most [n] calls; the [k] failed attempts are followed by sleeps of
    1, 2, ..., 2^(k-1) seconds, [2^k - 1] seconds in all and never more than
    [2^n - 1]; it returns status ['ok'] or the failure sentinel.  What it
    returns follows the attempts: once the client is built and the first [k]
    attempts have failed, it returns the failure sentinel when [k = n] (so at
    once, without any call, for [n = 0]), after [n] calls and sleeps of
    [2^n - 1] seconds in all; and when [k < n] and the next attempt succeeds
    with [text], it returns [text] with status ['ok'], after [k + 1] calls and
    sleeps of [2^k - 1] seconds in all. *)
Theorem groq_retry_budget (m sp up : string) (n : nat) (st : State) :
  (forall t, exists text status st' delta k,
      generate_response_groq m sp up t (Some n) st = (inr (text, status), st') /\
      trace st' = trace st ++ delta /\
      k <= n /\
      count is_api_call delta <= n /\
      sleeps delta = map (Nat.pow 2) (seq 0 k) /\
      list_sum (sleeps delta) = 2 ^ k - 1 /\
      list_sum (sleeps delta) <= 2 ^ n - 1 /\
      (status = "ok" \/ (text = "MODEL_FAIL" /\ status = "fail")) /\
      (k = n -> text = "MODEL_FAIL" /\ status = "fail")) /\
  (forall t client w0 k w1,
      Groq_new (world st) = (inr client, w0) ->
      failed_attempts client m sp up t k w0 = Some w1 ->
      (k = n ->
       exists st' delta,
         generate_response_groq m sp up (Some t) (Some n) st =
         (inr ("MODEL_FAIL", "fail"), st') /\
         world st' = w1 /\
         trace st' = trace st ++ delta /\
         sleeps delta = map (Nat.pow 2) (seq 0 n) /\
         list_sum (sleeps delta) = 2 ^ n - 1 /\
         count is_api_call delta = n) /\
      (k < n ->
       forall text w2,
         attempt_outcome client m sp up t w1 = (Some text, w2) ->
         exists st' delta,
           generate_response_groq m sp up (Some t) (Some n) st = (inr (text, "ok"), st') /\
           world st' = w2 /\
           trace st' = trace st ++ delta /\
           sleeps delta = map (Nat.pow 2) (seq 0 k) /\
           list_sum (sleeps delta) = 2 ^ k - 1 /\
           count is_api_call delta = S k)).
Proof.
  split.
  - intros t.
    destruct (generate_response_groq_spec m sp up t (Some n) st)
      as (text & status & st' & delta & k & Hr & Ht & Hk & Hs & _ & Hc & Hst & Hex).
    cbn in Hk, Hc, Hex.
    exists text, status, st', delta, k.
    repeat (split; [assumption|]).
    rewrite Hs, sum_of_powers.
    split; [reflexivity|]. split; [|split; assumption].
    assert (2 ^ k <= 2 ^ n) by (apply Nat.pow_le_mono_r; [discriminate|exact Hk]).
    lia.
  - intros t client w0 k w1 Hg Hf. split.
    + intros ->.
      destruct (groq_run_exhausted m sp up t n st client w0 w1 Hg Hf)
        as (st' & delta & Hr & Hw & Ht & Hs & Hc).
      exists st', delta. repeat (split; [assumption|]).
      split; [rewrite Hs; apply sum_of_powers|exact Hc].
    + intros Hk text w2 Ho.
      destruct (groq_run_success m sp up t n k st client w0 w1 w2 text Hg Hk Hf Ho)
        as (st' & delta & Hr & Hw & Ht & Hs & Hc).
      exists st', delta. repeat (split; [assumption|]).
      split; [rewrite Hs; apply sum_of_powers|exact Hc].
Qed.

Lemma clamp_at_least (t : Q) : (1 # 100 <= clamp_temperature t)%Q.
Proof.
  unfold clamp_temperature.
  destruct (Qle_bool (1 # 100) t) eqn:E.
  - apply Qle_bool_iff. exact E.
  - apply Qle_refl.
Qed.

(** X16. [HuggingFaceModelHandler.generate_response] raises nothing, never
    sleeps and calls the model at most once (no retry); the sampling
    temperature it passes is at least 0.01; a handler whose model or tokenizer
    is missing answers ["MODEL_NOT_LOADED"] with status ['fail'] without
    touching the model, and an exception during generation turns into
    ["GENERATION_FAIL"] with status ['fail']. *)
Theorem hf_generate_response_guarded (self : HuggingFaceModelHandler) (sp up : string)
    (t : option Q) (st : State) :
  exists text status st' delta,
    generate_response self sp up t st = (inr (text, status), st') /\
    trace st' = trace st ++ delta /\
    sleeps delta = [] /\
    count is_backend_call delta <= 1 /\
    Forall (fun ev => match ev with
                      | HfCall _ _ temp => (1 # 100 <= temp)%Q
                      | _ => True
                      end) delta /\
    (model self = None \/ tokenizer self = None ->
     text = "MODEL_NOT_LOADED" /\ status = "fail" /\ world st' = world st /\
     count is_backend_call delta = 0) /\
    (status = "ok" \/
     (status = "fail" /\ (text = "MODEL_NOT_LOADED" \/ text = "GENERATION_FAIL"))).
Proof.
  unfold generate_response.
  destruct (model self) as [mdl|] eqn:Em; [destruct (tokenizer self) as [tok|] eqn:Et|].
  - run_monad. cbn [world trace].
    destruct (hf_sample mdl tok _ _ (world st)) as [[e|text] w].
    + eexists _, _, _, [HfCall _ _ _; Log ERROR _].
      split; [reflexivity|]. cbn [trace]. rewrite <- app_assoc.
      split; [reflexivity|]. split; [reflexivity|]. split; [cbn; lia|].
      split; [repeat constructor; apply clamp_at_least|].
      split; [intros [[=]|[=]]|]. right. split; [reflexivity|]. right. reflexivity.
    + eexists _, _, _, [HfCall _ _ _].
      split; [reflexivity|]. split; [reflexivity|]. split; [reflexivity|].
      split; [cbn; lia|].
      split; [repeat constructor; apply clamp_at_least|].
      split; [intros [[=]|[=]]|]. left. reflexivity.
  - run_monad. eexists _, _, _, [Log ERROR _].
    split; [reflexivity|]. split; [reflexivity|]. split; [reflexivity|].
    split; [cbn; lia|]. split; [repeat constructor|].
    split; [intros _; repeat split|]. right. split; [reflexivity|]. left. reflexivity.
  - run_monad. eexists _, _, _, [Log ERROR _].
    split; [reflexivity|]. split; [reflexivity|]. split; [reflexivity|].
    split; [cbn; lia|]. split; [repeat constructor|].
    split; [intros _; repeat split|]. right. split; [reflexivity|]. left. reflexivity.
Qed.

(** X17. The constructor of [HuggingFaceModelHandler] lets the loader's
    exception through: when the tokenizer fails to load, the weights are not
    even requested; when either load fails, the exception the constructor
    raises is the one the loader raised, after a CRITICAL record; an exception
    of [BitsAndBytesConfig] is raised before any load; and when both loads
    succeed, the handler holds the tokenizer, the model and the model id. *)
Theorem constructor_propagates (mid : string) (st : State) :
  (forall e w, BitsAndBytesConfig_new (world st) = (inl e, w) ->
     __init__ mid st =
     (inl e, mkState w (trace st ++
                          [Log INFO ("Loading Hugging Face model: " +++ mid +++ "...")]))) /\
  (forall w0 e w,
     BitsAndBytesConfig_new (world st) = (inr tt, w0) ->
     AutoTokenizer_from_pretrained mid w0 = (inl e, w) ->
     __init__ mid st =
     (inl e, mkState w (trace st ++
                          [Log INFO ("Loading Hugging Face model: " +++ mid +++ "...");
                           HfLoad mid;
                           Log CRITICAL ("Failed to load model " +++ mid +++ ". Error: "
                                         +++ exn_str e)]))) /\
  (forall w0 tok w1 e w,
     BitsAndBytesConfig_new (world st) = (inr tt, w0) ->
     AutoTokenizer_from_pretrained mid w0 = (inr tok, w1) ->
     AutoModelForCausalLM_from_pretrained mid w1 = (inl e, w) ->
     __init__ mid st =
     (inl e, mkState w (trace st ++
                          [Log INFO ("Loading Hugging Face model: " +++ mid +++ "...");
                           HfLoad mid; HfLoad mid;
                           Log CRITICAL ("Failed to load model " +++ mid +++ ". Error: "
                                         +++ exn_str e)]))) /\
  (forall w0 tok w1 mdl w,
     BitsAndBytesConfig_new (world st) = (inr tt, w0) ->
     AutoTokenizer_from_pretrained mid w0 = (inr tok, w1) ->
     AutoModelForCausalLM_from_pretrained mid w1 = (inr mdl, w) ->
     __init__ mid st =
     (inr (mkHandler (Some mdl) (Some tok) mid),
      mkState w (trace st ++
                   [Log INFO ("Loading Hugging Face model: " +++ mid +++ "...");
                    HfLoad mid; HfLoad mid;
                    Log INFO ("Successfully loaded " +++ mid +++ ".")]))).
Proof.
  unfold __init__, _load_model. cbn [model tokenizer model_id].
  repeat split.
  - intros e w Hb. run_monad. cbn [world trace]. rewrite Hb. reflexivity.
  - intros w0 e w Hb Ht. run_monad. cbn [world trace]. rewrite Hb. cbn [world trace].
    rewrite Ht. cbn [world trace]. rewrite <- !app_assoc. reflexivity.
  - intros w0 tok w1 e w Hb Ht Hm. run_monad. cbn [world trace]. rewrite Hb.
    cbn [world trace]. rewrite Ht. cbn [world trace]. rewrite Hm. cbn [world trace].
    rewrite <- !app_assoc. reflexivity.
  - intros w0 tok w1 mdl w Hb Ht Hm. run_monad. cbn [world trace]. rewrite Hb.
    cbn [world trace]. rewrite Ht. cbn [world trace]. rewrite Hm. cbn [world trace].
    rewrite <- !app_assoc. reflexivity.
Qed.

End Adapters.

(** X14 in a world where [Groq()] raises. *)
Lemma groq_client_failure_witness :
  @generate_response_groq Stub.env "llama-3.1-8b-instant" "system" "user" None None
    (Stub.start (Stub.mkWorld [] (inr "never returned") true [])) =
  (inr ("MODEL_FAIL", "fail"),
   @mkState Stub.env (Stub.mkWorld [] (inr "never returned") true [])
     [Log CRITICAL
        "Groq client failed to initialize. Error: The api_key client option must be set"]).
Proof.
  apply (@groq_client_failure Stub.env "llama-3.1-8b-instant" "system" "user" None None
           (Stub.start (Stub.mkWorld [] (inr "never returned") true []))
           (Other "GroqError" "The api_key client option must be set")).
  reflexivity.
Defined.

(** X15 with [max_retries = 4] on the scripted world: four time-outs give the
    failure sentinel after sleeps of 1, 2, 4 and 8 seconds. *)
Lemma groq_retry_budget_witness :
  exists st' delta,
    @generate_response_groq Stub.env "llama-3.1-8b-instant" "system" "user"
      (Some (7 # 10)%Q) (Some 4)
      (Stub.start (Stub.mkWorld
                     [inl Stub.timeout; inl Stub.timeout; inl Stub.timeout; inl Stub.timeout]
                     (inr "later") false []))
    = (inr ("MODEL_FAIL", "fail"), st') /\
    world st' = Stub.mkWorld [] (inr "later") false [] /\
    trace st' = [] ++ delta /\
    sleeps delta = [1; 2; 4; 8] /\
    list_sum (sleeps delta) = 15 /\
    count is_api_call delta = 4.
Proof.
  refine (proj1 (proj2 (@groq_retry_budget Stub.env "llama-3.1-8b-instant" "system" "user" 4
                          (Stub.start (Stub.mkWorld
                             [inl Stub.timeout; inl Stub.timeout; inl Stub.timeout;
                              inl Stub.timeout]
                             (inr "later") false [])))
                   (7 # 10)%Q tt _ 4 _ _ _) _); reflexivity.
Defined.

(** X16 on a handler that holds no model. *)
Lemma hf_generate_response_guarded_witness :
  exists st',
    @generate_response Stub.env (@mkHandler Stub.env None (Some tt) "google/gemma-7b-it")
      "system" "user" None (Stub.start (Stub.steady "never returned")) =
    (inr ("MODEL_NOT_LOADED", "fail"), st') /\
    world st' = Stub.steady "never returned".
Proof.
  destruct (@hf_generate_response_guarded Stub.env
              (@mkHandler Stub.env None (Some tt) "google/gemma-7b-it")
              "system" "user" None (Stub.start (Stub.steady "never returned")))
    as (text & status & st' & delta & Hr & _ & _ & _ & _ & Hn & _).
  destruct (Hn (or_introl eq_refl)) as (-> & -> & Hw & _).
  exists st'. split; [exact Hr|exact Hw].
Defined.

(** X17 in a world where the weights of the model cannot be loaded. *)
Lemma constructor_propagates_witness :
  @__init__ Stub.env "google/gemma-7b-it"
    (Stub.start (Stub.mkWorld [] (inr "unused") false ["google/gemma-7b-it"])) =
  (inl (Other "OSError" "google/gemma-7b-it is not a valid model identifier"),
   @mkState Stub.env (Stub.mkWorld [] (inr "unused") false ["google/gemma-7b-it"])
     [Log INFO "Loading Hugging Face model: google/gemma-7b-it...";
      HfLoad "google/gemma-7b-it"; HfLoad "google/gemma-7b-it";
      Log CRITICAL ("Failed to load model google/gemma-7b-it. Error: " +++
                    "google/gemma-7b-it is not a valid model identifier")]).
Proof.
  apply (proj1 (proj2 (proj2 (@constructor_propagates Stub.env "google/gemma-7b-it"
           (Stub.start (Stub.mkWorld [] (inr "unused") false ["google/gemma-7b-it"])))))
           (Stub.mkWorld [] (inr "unused") false ["google/gemma-7b-it"]) tt
           (Stub.mkWorld [] (inr "unused") false ["google/gemma-7b-it"])
           (Other "OSError" "google/gemma-7b-it is not a valid model identifier")
           (Stub.mkWorld [] (inr "unused") false ["google/gemma-7b-it"]));
    reflexivity.
Defined.

End AdapterProperties.

(* ================================================================== *)
(** * Properties of [main] *)
(* ================================================================== *)

Module MainProperties.
Import Experiments Handlers Main Spec HandlersFacts.

Lemma dict_set_binds {V} (d : dict V) (k : string) (v : V) :
  dict_get (dict_set d k v) k = Some v.
Proof.
  induction d as [|[k' v'] d IH]; cbn.
  - rewrite String.eqb_refl. reflexivity.
  - destruct (String.eqb k' k) eqn:E; cbn; rewrite E; [reflexivity|exact IH].
Qed.

Lemma dict_set_other {V} (d : dict V) (k k' : string) (v : V) :
  k <> k' -> dict_get (dict_set d k v) k' = dict_get d k'.
Proof.
  intros Hne. induction d as [|[k0 v0] d IH]; cbn.
  - destruct (String.eqb_spec k k'); [contradiction|reflexivity].
  - destruct (String.eqb_spec k0 k) as [->|Hk0]; cbn.
    + destruct (String.eqb_spec k k'); [contradiction|reflexivity].
    + destruct (String.eqb k0 k'); [reflexivity|exact IH].
Qed.

Section Main.
Context `{Env}.

(** The constructor calls no generation backend, and a handler it returns is
    loaded. *)
Lemma init_facts (mid : string) (st : State) (r : exn + HuggingFaceModelHandler)
    (st' : State) :
  __init__ mid st = (r, st') ->
  count is_backend_call (trace st') = count is_backend_call (trace st) /\
  (forall h, r = inr h -> loaded h).
Proof.
  unfold __init__, _load_model. run_monad. cbn [world trace model tokenizer model_id].
  destruct (BitsAndBytesConfig_new (world st)) as [[e|[]] w0]; cbn [world trace].
  - intros [= <- <-]. cbn [trace]. rewrite count_app. cbn. split; [lia|discriminate].
  - destruct (AutoTokenizer_from_pretrained mid w0) as [[e|tok] w1]; cbn [world trace].
    + intros [= <- <-]. cbn [trace]. rewrite !count_app. cbn. split; [lia|discriminate].
    + destruct (AutoModelForCausalLM_from_pretrained mid w1) as [[e|mdl] w2]; cbn [world trace].
      * intros [= <- <-]. cbn [trace]. rewrite !count_app. cbn. split; [lia|discriminate].
      * intros [= <- <-]. cbn [trace]. rewrite !count_app. cbn. split; [lia|].
        intros h [= <-]. split; discriminate.
Qed.

(** The pre-loading loop raises nothing and calls no generation backend; when
    it runs to its end, the handlers it was given are still there, every local
    roster entry has one, and all of them are loaded. *)
Lemma preload_facts (models : dict model_info) :
  forall hs st, exists o st',
    preload models hs st = (inr o, st') /\
    count is_backend_call (trace st') = count is_backend_call (trace st) /\
    (forall hs', o = Some hs' ->
       (forall k, dict_get hs k <> None -> dict_get hs' k <> None) /\
       (forall k info, In (k, info) models -> handler info = "hf" ->
          dict_get hs' k <> None) /\
       ((forall k h, dict_get hs k = Some h -> loaded h) ->
        forall k h, dict_get hs' k = Some h -> loaded h)).
Proof.
  induction models as [|[model_key info] rest IH]; intros hs st.
  - exists (Some hs), st. split; [reflexivity|]. split; [reflexivity|].
    intros hs' [= <-]. split; [auto|]. split; [|auto]. intros k info [].
  - cbn [preload].
    destruct (String.eqb_spec (handler info) "hf") as [Hhf|Hhf].
    + unfold bind, try_except, logging, emit, ret. cbn [world trace].
      destruct (__init__ (Experiments.model_id info)
                  (mkState (world st)
                     (trace st ++ [Log INFO ("Pre-loading Hugging Face model: "
                                             +++ model_key +++ "...")])))
        as [[e|h] st1] eqn:Ei.
      * exists None. eexists. split; [reflexivity|].
        apply init_facts in Ei as [Hc _]. cbn [trace] in *.
        rewrite !count_app in *. cbn in *. split; [lia|]. discriminate.
      * destruct (IH (dict_set hs model_key h) st1) as (o & st' & Hr & Hc & Ho).
        exists o, st'. split; [exact Hr|].
        apply init_facts in Ei as [Hc1 Hl]. cbn [trace] in Hc1.
        rewrite count_app in Hc1. cbn in Hc1. split; [lia|].
        intros hs' ->. destruct (Ho hs' eq_refl) as (Hkeep & Hcov & Hload).
        split; [|split].
        -- intros k Hk. apply Hkeep.
           destruct (String.eqb_spec model_key k) as [->|Hne].
           ++ rewrite dict_set_binds. discriminate.
           ++ rewrite dict_set_other by exact Hne. exact Hk.
        -- intros k info' [[= <- <-]|Hin] Hh.
           ++ apply Hkeep. rewrite dict_set_binds. discriminate.
           ++ eapply Hcov; eassumption.
        -- intros Hall. apply Hload. intros k h' Hk.
           destruct (String.eqb_spec model_key k) as [->|Hne].
           ++ rewrite dict_set_binds in Hk. injection Hk as <-. apply Hl. reflexivity.
           ++ rewrite dict_set_other in Hk by exact Hne. eapply Hall. exact Hk.
    + destruct (IH hs st) as (o & st' & Hr & Hc & Ho).
      exists o, st'. split; [exact Hr|]. split; [exact Hc|].
      intros hs' ->. destruct (Ho hs' eq_refl) as (Hkeep & Hcov & Hload).
      split; [exact Hkeep|]. split; [|exact Hload].
      intros k info' [[= <- <-]|Hin] Hh; [contradiction|]. eapply Hcov; eassumption.
Qed.





Lemma preload_roster_ok (models : dict model_info) (st : State)
    (hs : dict HuggingFaceModelHandler) (st' : State) :
  preload models [] st = (inr (Some hs), st') ->
  (forall k info, In (k, info) models -> handler info = "groq" \/ handler info = "hf") ->
  roster_ok hs models.
Proof.
  intros Hp Hkinds.
  destruct (preload_facts models [] st) as (o & st'' & Hp' & _ & Ho).
  rewrite Hp in Hp'. injection Hp' as <- <-.
  destruct (Ho hs eq_refl) as (_ & Hcov & _).
  intros k info Hin. destruct (Hkinds k info Hin) as [Hg|Hh]; [left; exact Hg|].
  right. split; [exact Hh|].
  destruct (dict_get hs k) as [h|] eqn:E; [eauto|].
  exfalso. eapply Hcov; eassumption.
Qed.

(** X19. When the pre-loading loop of [main] runs to its end, every roster
    entry of kind ['hf'] has its handler under its model key and every handler
    is loaded: with a roster of the two known kinds, the precondition of the
    dispatch holds, and no handler will answer ["MODEL_NOT_LOADED"]. *)
Theorem preload_handlers_cover (models : dict model_info) (st : State)
    (hs : dict HuggingFaceModelHandler) (st' : State) :
  preload models [] st = (inr (Some hs), st') ->
  (forall k info, In (k, info) models -> handler info = "groq" \/ handler info = "hf") ->
  roster_ok hs models /\
  (forall k h, dict_get hs k = Some h -> loaded h).
Proof.
  intros Hp Hkinds.
  destruct (preload_facts models [] st) as (o & st'' & Hp' & _ & Ho).
  rewrite Hp in Hp'. injection Hp' as <- <-.
  destruct (Ho hs eq_refl) as (_ & _ & Hload).
  split.
  - eapply preload_roster_ok; eassumption.
  - apply Hload. intros k h [=].
Qed.


End Main.

Lemma shipped_kinds :
  forall k info, In (k, info) Settings.MODELS_TO_TEST ->
    handler info = "groq" \/ handler info = "hf".
Proof.
  intros k info [[= <- <-]|[[= <- <-]|[]]]; [right|left]; reflexivity.
Qed.


(** X19 on the shipped roster, with the weights at hand. *)
Lemma preload_handlers_cover_witness :
  exists hs st',
    @preload Stub.env Settings.MODELS_TO_TEST [] (Stub.start (Stub.steady "unused")) =
    (inr (Some hs), st') /\
    @roster_ok Stub.env hs Settings.MODELS_TO_TEST /\
    (forall k h, dict_get hs k = Some h -> @loaded Stub.env h).
Proof.
  eexists _, _.
  refine ((fun Hp => conj Hp
             (@preload_handlers_cover Stub.env Settings.MODELS_TO_TEST _ _ _ Hp
                shipped_kinds)) _).
  lazy. reflexivity.
Defined.


End MainProperties.

(* ================================================================== *)
(** * Properties of the similarity matrix *)
(* ================================================================== *)

Module SimilarityProperties.
Import Similarity Spec.

Section Matrix.
Context `{Env}.
Variable float : Type.
Variable zero : float.
Variable TfidfMatrix : Type.
Variable fit_transform : list string -> exn + TfidfMatrix.
Variable n_features : TfidfMatrix -> nat.
Variable mean_of_rows : TfidfMatrix -> list nat -> list float.
Variable cosine_similarity : list (list float) -> list (list float).

Abbreviation similarity :=
  (_calculate_similarity_matrix float zero TfidfMatrix fit_transform n_features
     mean_of_rows cosine_similarity).

Lemma no_indices (df : list row) (score i : nat) :
  (forall r, In r df -> prompted_score r <> score) -> indices_from i df score = [].
Proof.
  revert i. induction df as [|r df IH]; intros i Hno; [reflexivity|].
  cbn [indices_from].
  destruct (Nat.eqb_spec (prompted_score r) score) as [Heq|_].
  - exfalso. apply (Hno r); [left; reflexivity|exact Heq].
  - apply IH. intros r' Hr'. apply Hno. right. exact Hr'.
Qed.

(** X21. [_calculate_similarity_matrix] turns a [ValueError] of the TF-IDF
    vectorizer (a [JSONDecodeError] would count as one) into a 5 x 5 matrix of
    zeros and one warning, and lets any other exception of the vectorizer
    through.  When the vectorizer succeeds, the cosine similarity is taken of
    exactly five vectors, the one of a score without any text being a zero
    vector as wide as the vocabulary. *)
Theorem similarity_degrades (df : list row) (st : State) :
  (forall e, fit_transform (map generated_text df) = inl e -> is_ValueError e = true ->
     similarity df st =
     (inr (repeat (repeat zero 5) 5),
      warn st ("TF-IDF Vectorizer failed, likely due to insufficient vocabulary. " +++
               "Returning an empty matrix."))) /\
  (forall e, fit_transform (map generated_text df) = inl e -> is_ValueError e = false ->
     similarity df st = (inl e, st)) /\
  (forall m, fit_transform (map generated_text df) = inr m ->
     exists vectors,
       similarity df st = (inr (cosine_similarity vectors), st) /\
       length vectors = 5 /\
       forall score, 1 <= score <= 5 ->
         (forall r, In r df -> prompted_score r <> score) ->
         nth (score - 1) vectors [] = repeat zero (n_features m)).
Proof.
  unfold _calculate_similarity_matrix, bind, try_except, lift, ret, raise, logging, emit.
  repeat split.
  - intros e -> He. rewrite He. reflexivity.
  - intros e -> He. rewrite He. reflexivity.
  - intros m ->. eexists. split; [reflexivity|]. split; [reflexivity|].
    intros score Hs Hno.
    assert (Hcases : score = 1 \/ score = 2 \/ score = 3 \/ score = 4 \/ score = 5) by lia.
    destruct Hcases as [->|[->|[->|[->| ->]]]]; cbn [seq map nth Nat.sub];
      rewrite (no_indices df _ 0 Hno); reflexivity.
Qed.

End Matrix.

(** X21 with a vectorizer that finds no vocabulary in texts made of spaces. *)
Lemma similarity_degrades_witness :
  @_calculate_similarity_matrix Stub.env Q 0%Q unit
    (fun texts =>
       if forallb (fun t => String.eqb (Plotting.strip t) EmptyString) texts
       then inl (ValueError "empty vocabulary; perhaps the documents only contain stop words")
       else inr tt)
    (fun _ => 0) (fun _ _ => []) (fun vectors => vectors)
    [mkRow "  " 1; mkRow " " 5] (Stub.start (Stub.steady "unused")) =
  (inr (repeat (repeat 0%Q 5) 5),
   @warn Stub.env (Stub.start (Stub.steady "unused"))
     ("TF-IDF Vectorizer failed, likely due to insufficient vocabulary. " +++
      "Returning an empty matrix.")).
Proof.
  apply (proj1 (@similarity_degrades Stub.env Q 0%Q unit _ (fun _ => 0) (fun _ _ => [])
                  (fun vectors => vectors) [mkRow "  " 1; mkRow " " 5]
                  (Stub.start (Stub.steady "unused")))) with
    (e := ValueError "empty vocabulary; perhaps the documents only contain stop words");
    reflexivity.
Defined.

End SimilarityProperties.
